(** * Vendor advisory scrapers, NVD enrichment and query bots

    A shallow embedding of the scraping pipeline of the repository:
    [utils.fetch_nvd_data], the six [scrape_*] functions and the three
    [query_*_bot] functions.  Python values are modelled by explicit data,
    exceptions by a [result] type, the browser and the network by records
    that list what each Selenium / requests call answers, and the pandas
    and builtin library functions whose exact algorithm is not part of the
    repository ([float], [pd.to_datetime], [DataFrame.sort_values]) by the
    fields of a class [PyLib], of which [Ref.lib] and [Numpy.lib] are two
    instances to compute with. *)

From Stdlib Require Import String Ascii List ZArith Bool Lia Permutation Sorted.
From Stdlib Require Import Floats.SpecFloat.
Import ListNotations.
Local Open Scope string_scope.
Local Open Scope list_scope.
Local Open Scope nat_scope.

(** ** Python exceptions and fallible computations *)

Module Py.

(** The exception classes the modelled code can meet.  All of them derive
    from [Exception]; [TimeoutException], [NoSuchElementException] and
    [StaleElementReferenceException] derive from [WebDriverException]. *)
Inductive exn : Type :=
| TimeoutException
| NoSuchElementException
| StaleElementReferenceException
| WebDriverException
| KeyError
| TypeError
| IndexError
| AttributeError
| ValueError
| RequestException
| HTTPError
| Exception_ (msg : string).

Definition is_WebDriverException (e : exn) : bool :=
  match e with
  | TimeoutException | NoSuchElementException
  | StaleElementReferenceException | WebDriverException => true
  | _ => false
  end.

Definition is_TimeoutException (e : exn) : bool :=
  match e with TimeoutException => true | _ => false end.

Definition is_Stale (e : exn) : bool :=
  match e with StaleElementReferenceException => true | _ => false end.

Inductive result (A : Type) : Type :=
| Ok (a : A)
| Raise (e : exn).
Arguments Ok {A} a.
Arguments Raise {A} e.

Definition bind {A B} (r : result A) (k : A -> result B) : result B :=
  match r with
  | Ok a => k a
  | Raise e => Raise e
  end.

(** [try: r except <classes>: handler] *)
Definition try_except {A} (r : result A) (catches : exn -> bool)
    (handler : exn -> result A) : result A :=
  match r with
  | Ok a => Ok a
  | Raise e => if catches e then handler e else Raise e
  end.

Definition any_Exception (_ : exn) : bool := true.

End Py.
Import Py.

Notation "x <- r ;; k" := (Py.bind r (fun x => k))
  (at level 61, r at next level, right associativity).

(** ** Python strings

    A [str] is modelled by the sequence of its code points, each below
    256: the characters of Latin-1.  A page that holds other characters
    is outside the model; the marks that open the fixed messages of the
    bots are written as the bytes of their UTF-8 encoding and are only
    ever copied. *)

Module Str.

(** [c.isspace()], which is also what [strip], [split] and the [\s] of
    [re] take for white space: the controls 9 to 13 and 28 to 31, the
    space, NEL (133) and the no-break space (160). *)
Definition is_space (c : ascii) : bool :=
  let n := nat_of_ascii c in
  ((9 <=? n) && (n <=? 13)) || ((28 <=? n) && (n <=? 32)) ||
  (n =? 133) || (n =? 160).

(** [c.lower()]: the letters A to Z and the capital letters of Latin-1
    (192 to 222 but the multiplication sign 215). *)
Definition lower_ascii (c : ascii) : ascii :=
  let n := nat_of_ascii c in
  if ((65 <=? n) && (n <=? 90)) ||
     ((192 <=? n) && (n <=? 222) && negb (n =? 215))
  then ascii_of_nat (n + 32) else c.

(** The capital of [c] where it is a single code point below 256: the
    letters a to z and the small letters of Latin-1 (224 to 254 but the
    division sign 247).  The micro sign (181), the sharp s (223) and the
    y with diaeresis (255), whose capitals are not such code points, are
    left as they are. *)
Definition upper_ascii (c : ascii) : ascii :=
  let n := nat_of_ascii c in
  if ((97 <=? n) && (n <=? 122)) ||
     ((224 <=? n) && (n <=? 254) && negb (n =? 247))
  then ascii_of_nat (n - 32) else c.

Fixpoint lower (s : string) : string :=
  match s with
  | EmptyString => EmptyString
  | String c r => String (lower_ascii c) (lower r)
  end.

(** [s.capitalize()] *)
Definition capitalize (s : string) : string :=
  match s with
  | EmptyString => EmptyString
  | String c r => String (upper_ascii c) (lower r)
  end.

Fixpoint lstrip (s : string) : string :=
  match s with
  | EmptyString => EmptyString
  | String c r => if is_space c then lstrip r else s
  end.

(** Drops the trailing white space: a character is kept when something
    that is not white space follows it or it is not white space itself. *)
Fixpoint rstrip (s : string) : string :=
  match s with
  | EmptyString => EmptyString
  | String c r =>
      match rstrip r with
      | EmptyString => if is_space c then EmptyString else String c EmptyString
      | r' => String c r'
      end
  end.

Definition strip (s : string) : string := rstrip (lstrip s).

Fixpoint startswith (p s : string) : bool :=
  match p, s with
  | EmptyString, _ => true
  | String a p', String b s' => Ascii.eqb a b && startswith p' s'
  | String _ _, EmptyString => false
  end.

(** [needle in s] *)
Fixpoint contains (needle s : string) : bool :=
  startswith needle s ||
  match s with
  | EmptyString => false
  | String _ r => contains needle r
  end.

(** [sep.join(l)] *)
Fixpoint join (sep : string) (l : list string) : string :=
  match l with
  | [] => ""
  | [x] => x
  | x :: r => (x ++ sep ++ join sep r)%string
  end.

(** [s.split()]: the maximal runs of characters that are not white
    space.  [cur] is the run being read, reversed. *)
Fixpoint split_ws_aux (s : string) (cur : list ascii) : list string :=
  let flush (k : list string) :=
    match cur with
    | [] => k
    | _ => string_of_list_ascii (rev cur) :: k
    end in
  match s with
  | EmptyString => flush []
  | String c r =>
      if is_space c then flush (split_ws_aux r [])
      else split_ws_aux r (c :: cur)
  end.

Definition split_ws (s : string) : list string := split_ws_aux s [].

(** [s.split(sep)] for a one-character separator: empty fields are kept. *)
Fixpoint split_on_aux (sep : ascii) (s : string) (cur : list ascii)
  : list string :=
  match s with
  | EmptyString => [string_of_list_ascii (rev cur)]
  | String c r =>
      if Ascii.eqb c sep
      then string_of_list_ascii (rev cur) :: split_on_aux sep r []
      else split_on_aux sep r (c :: cur)
  end.

Definition split_on (sep : ascii) (s : string) : list string :=
  split_on_aux sep s [].

Definition mem (s : string) (l : list string) : bool :=
  existsb (String.eqb s) l.

End Str.

(** ** Python floats

    A Python [float] is an IEEE-754 binary64 number: a [spec_float] with
    53 bits of mantissa.  [x >= y] is [SFleb y x], false on a NaN. *)

Module Float.

Definition prec : Z := 53%Z.
Definition emax : Z := 1024%Z.

Definition of_Z (z : Z) : spec_float := binary_normalize prec emax z 0%Z false.

Definition f9_0 : spec_float := Eval vm_compute in of_Z 9%Z.
Definition f7_0 : spec_float := Eval vm_compute in of_Z 7%Z.
Definition f4_0 : spec_float := Eval vm_compute in of_Z 4%Z.

(** [x >= y] and [x < y] of Python. *)
Definition ge (x y : spec_float) : bool := SFleb y x.
Definition lt (x y : spec_float) : bool := SFltb x y.

(** [float(s)] on the plain decimal literals [d+] and [d+.d+] with an
    optional sign and at most 15 digits: numerator and power of ten are
    then binary64 numbers, and their correctly rounded quotient is the
    float nearest to the literal, which is what [float] returns.  The
    instance knows no other literal ([1e3], [inf], [nan], digits with
    underscores): it answers [None] there. *)
Definition digit_of (c : ascii) : option Z :=
  let n := nat_of_ascii c in
  if (48 <=? n)%nat && (n <=? 57)%nat then Some (Z.of_nat (n - 48)) else None.

Fixpoint digits (s : string) (acc : Z) (count : nat) : option (Z * nat * string) :=
  match s with
  | EmptyString => Some (acc, count, EmptyString)
  | String c r =>
      match digit_of c with
      | Some d => digits r (10 * acc + d)%Z (S count)
      | None => Some (acc, count, s)
      end
  end.

Definition unsigned_decimal (s : string) : option spec_float :=
  match digits s 0%Z 0 with
  | Some (ip, S n, EmptyString) =>
      if (S n <=? 15)%nat then Some (of_Z ip) else None
  | Some (ip, S n, String "." frac) =>
      match digits frac 0%Z 0 with
      | Some (fp, S k, EmptyString) =>
          if (S n + S k <=? 15)%nat
          then Some (SFdiv prec emax
                       (of_Z (ip * 10 ^ Z.of_nat (S k) + fp)%Z)
                       (of_Z (10 ^ Z.of_nat (S k))%Z))
          else None
      | _ => None
      end
  | _ => None
  end.

Definition decimal_literal (s : string) : option spec_float :=
  match s with
  | String "-" r => option_map SFopp (unsigned_decimal r)
  | String "+" r => unsigned_decimal r
  | _ => unsigned_decimal s
  end.

End Float.


(** ** Cells, records and the library functions of pandas *)

Module Frame.

(** What a DataFrame cell holds in this program: a string, a parsed
    date ([pd.Timestamp], counted in seconds), the missing date [NaT], or
    [None]. *)
Inductive cell : Type :=
| Str (s : string)
| Timestamp (t : Z)
| NaT
| PyNone.

Definition cell_eqb (a b : cell) : bool :=
  match a, b with
  | Str x, Str y => String.eqb x y
  | Timestamp x, Timestamp y => Z.eqb x y
  | NaT, NaT => true
  | PyNone, PyNone => true
  | _, _ => false
  end.

Definition is_na (c : cell) : bool :=
  match c with NaT | PyNone => true | _ => false end.

Definition is_datetime (c : cell) : bool :=
  match c with Timestamp _ | NaT => true | _ => false end.

(** A dict with string keys, in insertion order: one element of the
    list [data] that a scraper hands to [pd.DataFrame]. *)
Definition record : Type := list (string * cell).

(** [pd.DataFrame(data)] for a list of such dicts, row by row;
    [pd.DataFrame()] and [pd.DataFrame([])] are the empty list. *)
Definition table : Type := list record.

Fixpoint field (k : string) (r : record) : option cell :=
  match r with
  | [] => None
  | (k', v) :: r' => if String.eqb k k' then Some v else field k r'
  end.

(** The value of column [k] in a row; a row without the key shows [None]. *)
Definition col (k : string) (r : record) : cell :=
  match field k r with Some v => v | None => PyNone end.

(** [r[k] = v] *)
Fixpoint set_field (k : string) (v : cell) (r : record) : record :=
  match r with
  | [] => [(k, v)]
  | (k', v') :: r' =>
      if String.eqb k k' then (k', v) :: r' else (k', v') :: set_field k v r'
  end.

(** [df[k] = values] on the rows of a frame. *)
Fixpoint set_column (k : string) (values : list cell) (t : table) : table :=
  match t, values with
  | r :: t', v :: values' => set_field k v r :: set_column k values' t'
  | _, _ => t
  end.



(** [x] may stand before [y] in a column sorted by [sort_values]: the
    missing values come last in both directions ([na_position='last']). *)
Definition cell_before (ascending : bool) (x y : cell) : bool :=
  match x, y with
  | _, (NaT | PyNone) => true
  | (NaT | PyNone), _ => false
  | Timestamp a, Timestamp b => if ascending then (a <=? b)%Z else (b <=? a)%Z
  | Str a, Str b => if ascending then String.leb a b else String.leb b a
  | Str _, Timestamp _ => true
  | Timestamp _, Str _ => false
  end.

(** A column that [sort_values] can compare: its values that are not
    missing are all strings or all dates (Python raises [TypeError] when
    it has to compare a [str] with a [Timestamp]). *)
Definition sortable (l : list cell) : bool :=
  forallb (fun c => match c with Timestamp _ => false | _ => true end) l
  || forallb (fun c => match c with Str _ => false | _ => true end) l.

(** [df.drop_duplicates(subset=[k], keep="first")]: a row stays when no
    earlier row of the frame has its key. *)
Fixpoint drop_duplicates_from {A} (key : A -> cell) (seen : list cell)
    (l : list A) : list A :=
  match l with
  | [] => []
  | r :: l' =>
      if existsb (cell_eqb (key r)) seen
      then drop_duplicates_from key seen l'
      else r :: drop_duplicates_from key (key r :: seen) l'
  end.

Definition drop_duplicates {A} (key : A -> cell) (l : list A) : list A :=
  drop_duplicates_from key [] l.

End Frame.
Import Frame.

(** The library functions whose algorithm lies outside the repository.
    - [float s] is the builtin [float] on a [str]: [None] is [ValueError];
    - [to_datetime c] is [pd.to_datetime(c, errors='coerce')] on a column;
    - [sort_values key ascending rows] is [DataFrame.sort_values] with its
      default [kind] and [na_position], on a frame whose sort column is
      read by [key]. *)
Class PyLib : Type := {
  float : string -> option spec_float;
  to_datetime : list cell -> list cell;
  sort_values : forall A : Type, (A -> cell) -> bool -> list A -> list A
}.
Arguments sort_values {_} {A} key ascending rows.

(** What the theorems below assume of the library, one property each. *)
Module Contract.

(** [to_datetime] gives one date or [NaT] for every value. *)
Definition coerces (L : PyLib) : Prop :=
  forall c, List.length (to_datetime c) = List.length c /\
            forallb is_datetime (to_datetime c) = true.

(** [sort_values] reorders the rows and invents none. *)
Definition permutes (L : PyLib) : Prop :=
  forall A (key : A -> cell) asc (l : list A),
    Permutation (sort_values key asc l) l.

(** On a date column the result is ordered, [NaT] last. *)
Definition orders_dates (L : PyLib) : Prop :=
  forall A (key : A -> cell) asc (l : list A),
    forallb (fun r => is_datetime (key r)) l = true ->
    StronglySorted
      (fun a b => cell_before asc (key a) (key b) = true)
      (sort_values key asc l).

(** Rows with the same key keep their relative order. *)
Definition stable (L : PyLib) : Prop :=
  forall A (key : A -> cell) asc (l : list A) (k : cell),
    filter (fun r => cell_eqb (key r) k) (sort_values key asc l)
    = filter (fun r => cell_eqb (key r) k) l.

(** In the sort of this frame the rows whose key is [k] keep their
    relative order. *)
Definition keeps_order (L : PyLib) {A : Type} (key : A -> cell) (asc : bool)
    (l : list A) (k : cell) : Prop :=
  filter (fun r => cell_eqb (key r) k) (sort_values key asc l)
  = filter (fun r => cell_eqb (key r) k) l.

End Contract.

(** A reference library: decimal literals for [float], ISO dates for
    [to_datetime], and for [sort_values] a stable insertion sort, which
    is how numpy sorts a column of up to 17 rows. *)
Module Ref.

Fixpoint insert {A} (before : A -> A -> bool) (x : A) (l : list A) : list A :=
  match l with
  | [] => [x]
  | y :: l' => if before x y then x :: l else y :: insert before x l'
  end.

Fixpoint isort {A} (before : A -> A -> bool) (l : list A) : list A :=
  match l with
  | [] => []
  | x :: l' => insert before x (isort before l')
  end.

Definition two_digits (a b : ascii) : option Z :=
  match Float.digit_of a, Float.digit_of b with
  | Some x, Some y => Some (10 * x + y)%Z
  | _, _ => None
  end.

(** Days from 1970-01-01 to the civil date, proleptic Gregorian. *)
Definition days_from_civil (y m d : Z) : Z :=
  let y' := (if m <=? 2 then y - 1 else y)%Z in
  let era := (y' / 400)%Z in
  let yoe := (y' - era * 400)%Z in
  let mp := ((m + 9) mod 12)%Z in
  let doy := ((153 * mp + 2) / 5 + d - 1)%Z in
  let doe := (yoe * 365 + yoe / 4 - yoe / 100 + doy)%Z in
  (era * 146097 + doe - 719468)%Z.

Definition days_in_month (y m : Z) : Z :=
  if (m =? 2)%Z then
    if ((y mod 4 =? 0) && (negb (y mod 100 =? 0) || (y mod 400 =? 0)))%Z
    then 29%Z else 28%Z
  else if ((m =? 4) || (m =? 6) || (m =? 9) || (m =? 11))%Z then 30%Z
  else 31%Z.

(** [YYYY-MM-DD], alone or followed by [ 00:00:00]. *)
Definition iso_date (s : string) : cell :=
  match s with
  | String y1 (String y2 (String y3 (String y4 (String "-"
      (String m1 (String m2 (String "-" (String d1 (String d2 rest))))))))) =>
      match two_digits y1 y2, two_digits y3 y4,
            two_digits m1 m2, two_digits d1 d2 with
      | Some yh, Some yl, Some m, Some d =>
          let y := (100 * yh + yl)%Z in
          if ((1 <=? m) && (m <=? 12) && (1 <=? d)
              && (d <=? days_in_month y m))%Z
             && (String.eqb rest "" || String.eqb rest " 00:00:00")
          then Timestamp (86400 * days_from_civil y m d)
          else NaT
      | _, _, _, _ => NaT
      end
  | _ => NaT
  end.

Definition iso_cell (c : cell) : cell :=
  match c with
  | Str s => iso_date s
  | Timestamp t => Timestamp t
  | NaT | PyNone => NaT
  end.

Definition lib : PyLib := {|
  float := Float.decimal_literal;
  to_datetime := map iso_cell;
  sort_values := fun A key asc l =>
    isort (fun a b => cell_before asc (key a) (key b)) l
|}.

End Ref.

(** The library as numpy runs it on a column of Python objects.
    [sort_values] takes its order from [nargsort] (pandas/core/sorting.py),
    which hands the values that are not missing to [ndarray.argsort] with
    [kind="quicksort"]; for an object array that is the generic
    [npy_aquicksort] of numpy (npysort/quicksort.cpp): an introsort over
    an array [tosort] of row numbers, with a median-of-three pivot,
    insertion sort on stretches of at most 17 entries, and a heap sort
    when the recursion gets deeper than twice the bit length of the
    input. *)
Module Numpy.

Definition at_ (a : list nat) (i : nat) : nat := nth i a 0.

Fixpoint put (a : list nat) (i x : nat) : list nat :=
  match a, i with
  | [], _ => []
  | _ :: r, 0 => x :: r
  | y :: r, S i' => y :: put r i' x
  end.

(** [INTP_SWAP(a[i], a[j])] *)
Definition swap (a : list nat) (i j : nat) : list nat :=
  put (put a i (at_ a j)) j (at_ a i).

Section Argsort.
(** [less i j]: [cmp(v + i*elsize, v + j*elsize, arr) < 0] *)
Variable less : nat -> nat -> bool.

(** [do { ++pi; } while (cmp(v[*pi], vp) < 0)]; the pivot at [pr - 1]
    stops the scan, so [fuel], the length of the array, is never used
    up.  [vp] is the row number of the pivot. *)
Fixpoint scan_up (fuel : nat) (a : list nat) (vp pi : nat) : nat :=
  match fuel with
  | 0 => pi
  | S f =>
      if less (at_ a (S pi)) vp then scan_up f a vp (S pi) else S pi
  end.

(** [do { --pj; } while (cmp(vp, v[*pj]) < 0)]; the entry at [pl] stops
    the scan. *)
Fixpoint scan_down (fuel : nat) (a : list nat) (vp pj : nat) : nat :=
  match fuel with
  | 0 => pj
  | S f =>
      if less vp (at_ a (pj - 1)) then scan_down f a vp (pj - 1)
      else pj - 1
  end.

(** The [for (;;)] of the partition: the array and [pi] at the break. *)
Fixpoint partition (fuel : nat) (a : list nat) (vp pi pj : nat)
  : list nat * nat :=
  match fuel with
  | 0 => (a, pi)
  | S f =>
      let pi := scan_up (List.length a) a vp pi in
      let pj := scan_down (List.length a) a vp pj in
      if pj <=? pi then (a, pi) else partition f (swap a pi pj) vp pi pj
  end.

(** [while (pj > pl && cmp(vp, v[*pk]) < 0) { *pj-- = *pk--; } *pj = vi] *)
Fixpoint sift (fuel : nat) (a : list nat) (pl vi pj : nat) : list nat :=
  match fuel with
  | 0 => put a pj vi
  | S f =>
      if (pl <? pj) && less vi (at_ a (pj - 1))
      then sift f (put a pj (at_ a (pj - 1))) pl vi (pj - 1)
      else put a pj vi
  end.

(** [for (pi = pl + 1; pi <= pr; ++pi)], with [count] passes to go. *)
Fixpoint insertion (count : nat) (a : list nat) (pl pi : nat) : list nat :=
  match count with
  | 0 => a
  | S c =>
      insertion c (sift (List.length a) a pl (at_ a pi) pi) pl (S pi)
  end.

Definition insertion_sort (a : list nat) (pl pr : nat) : list nat :=
  insertion (pr - pl) a pl (S pl).

(** The stretch [pl..pr] of [a], sorted.  The two parts that a
    partition leaves are sorted one after the other (the C code keeps
    the larger one on a stack).  [None]: the recursion is as deep as
    [cdepth] allows, where numpy may turn to its heap sort, which is not
    followed here. *)
Fixpoint aquicksort (cdepth : nat) (a : list nat) (pl pr : nat)
  : option (list nat) :=
  match cdepth with
  | 0 => None
  | S d =>
      if 16 <? pr - pl then
        let pm := pl + (pr - pl) / 2 in
        let a := if less (at_ a pm) (at_ a pl) then swap a pm pl else a in
        let a := if less (at_ a pr) (at_ a pm) then swap a pr pm else a in
        let a := if less (at_ a pm) (at_ a pl) then swap a pm pl else a in
        let vp := at_ a pm in
        let a := swap a pm (pr - 1) in
        let '(a, pi) := partition (List.length a) a vp pl (pr - 1) in
        let a := swap a pi (pr - 1) in
        match aquicksort d a pl (pi - 1) with
        | None => None
        | Some a => aquicksort d a (pi + 1) pr
        end
      else Some (insertion_sort a pl pr)
  end.
End Argsort.

(** [a < b] on the values of a column. *)
Definition cell_lt (x y : cell) : bool :=
  match x, y with
  | Str a, Str b => String.ltb a b
  | Timestamp a, Timestamp b => (a <? b)%Z
  | _, _ => false
  end.

(** [values.argsort(kind="quicksort")] *)
Definition argsort (values : list cell) : option (list nat) :=
  let n := List.length values in
  aquicksort
    (fun i j => cell_lt (nth i values PyNone) (nth j values PyNone))
    (2 * Nat.log2 n + 1) (seq 0 n) 0 (n - 1).

(** [nargsort(items, kind="quicksort", ascending, na_position="last")] *)
Definition nargsort (items : list cell) (ascending : bool)
  : option (list nat) :=
  let idx := seq 0 (List.length items) in
  let missing i := is_na (nth i items PyNone) in
  let non_nan_idx := filter (fun i => negb (missing i)) idx in
  let nan_idx := filter missing idx in
  let non_nan_idx := if ascending then non_nan_idx else rev non_nan_idx in
  let non_nans := map (fun i => nth i items PyNone) non_nan_idx in
  match argsort non_nans with
  | None => None
  | Some order =>
      let indexer := map (fun p => nth p non_nan_idx 0) order in
      let indexer := if ascending then indexer else rev indexer in
      Some (indexer ++ nan_idx)
  end.

(** [df.take(indexer)] *)
Definition take {A} (l : list A) (indexer : list nat) : list A :=
  flat_map (fun i => match nth_error l i with Some x => [x] | None => [] end)
    indexer.

Definition lib : PyLib := {|
  float := Float.decimal_literal;
  to_datetime := map Ref.iso_cell;
  sort_values := fun A key asc l =>
    match nargsort (map key l) asc with
    | Some indexer => take l indexer
    | None => l
    end
|}.

End Numpy.

(** ** utils.py: the NVD enrichment client *)

Module Nvd.

(** A decoded JSON document, as [response.json()] returns it. *)
#[warnings="-register-all"]
Inductive pyval : Type :=
| PNone
| PBool (b : bool)
| PInt (z : Z)
| PFloat (f : spec_float)
| PStr (s : string)
| PList (l : list pyval)
| PDict (d : list (string * pyval)).

Fixpoint lookup (k : string) (d : list (string * pyval)) : option pyval :=
  match d with
  | [] => None
  | (k', v) :: d' => if String.eqb k k' then Some v else lookup k d'
  end.

Definition is_str (k : string) (v : pyval) : bool :=
  match v with PStr s => String.eqb k s | _ => false end.

(** [k in v] for a string [k]. *)
Definition py_in (k : string) (v : pyval) : result bool :=
  match v with
  | PDict d => Ok (match lookup k d with Some _ => true | None => false end)
  | PList l => Ok (existsb (is_str k) l)
  | PStr s => Ok (Str.contains k s)
  | _ => Raise TypeError
  end.

(** [v[k]] for a string [k]. *)
Definition getitem (v : pyval) (k : string) : result pyval :=
  match v with
  | PDict d => match lookup k d with Some x => Ok x | None => Raise KeyError end
  | _ => Raise TypeError
  end.

(** [v[0]]; the keys of a decoded JSON object are strings, never [0]. *)
Definition getitem0 (v : pyval) : result pyval :=
  match v with
  | PList (x :: _) => Ok x
  | PList [] => Raise IndexError
  | PStr (String c _) => Ok (PStr (String c EmptyString))
  | PStr EmptyString => Raise IndexError
  | PDict _ => Raise KeyError
  | _ => Raise TypeError
  end.

(** [v.get(k, default)] *)
Definition get (v : pyval) (k : string) (default : pyval) : result pyval :=
  match v with
  | PDict d => Ok (match lookup k d with Some x => x | None => default end)
  | _ => Raise AttributeError
  end.

Definition truthy (v : pyval) : bool :=
  match v with
  | PNone => false
  | PBool b => b
  | PInt z => negb (z =? 0)%Z
  | PFloat (S754_zero _) => false
  | PFloat _ => true
  | PStr s => negb (String.eqb s "")
  | PList l => match l with [] => false | _ => true end
  | PDict d => match d with [] => false | _ => true end
  end.

(** [v.lower()] *)
Definition py_lower (v : pyval) : result string :=
  match v with
  | PStr s => Ok (Str.lower s)
  | _ => Raise AttributeError
  end.

Fixpoint chars (s : string) : list pyval :=
  match s with
  | EmptyString => []
  | String c r => PStr (String c EmptyString) :: chars r
  end.

(** [iter(v)], unrolled *)
Definition py_iter (v : pyval) : result (list pyval) :=
  match v with
  | PList l => Ok l
  | PDict d => Ok (map (fun kv => PStr (fst kv)) d)
  | PStr s => Ok (chars s)
  | _ => Raise TypeError
  end.

(** The dict that [fetch_nvd_data] returns. *)
Record nvd_data : Type := {
  cvss_score : pyval;        (* "CVSS Score" *)
  severity_level : pyval;    (* "Severity Level" *)
  mitigation_strategy : pyval (* "Mitigation Strategy" *)
}.

Definition unknown : nvd_data :=
  {| cvss_score := PStr "N/A";
     severity_level := PStr "N/A";
     mitigation_strategy := PStr "N/A" |}.

Record response : Type := {
  raise_for_status : result unit;
  json : result pyval
}.

(** [requests.get(url, headers=..., timeout=10)]: a response, or the
    exception of a network failure or a timeout. *)
Definition network : Type := string -> result response.

Definition nvd_url (cve_id : string) : string :=
  ("https://services.nvd.nist.gov/rest/json/cves/2.0?cveId=" ++ cve_id)%string.

(** [cve["metrics"].get("cvssMetricV31", [{}])[0].get("cvssData", {}).get(k, "N/A")] *)
Definition cvss_data (cve : pyval) (k : string) : result pyval :=
  metrics <- getitem cve "metrics" ;;
  v31 <- get metrics "cvssMetricV31" (PList [PDict []]) ;;
  first <- getitem0 v31 ;;
  data <- get first "cvssData" (PDict []) ;;
  get data k (PStr "N/A").

(** [next((desc["value"] for desc in descs if "mitigation" in
    desc["value"].lower()), "N/A")]: the generator is read up to its first
    hit, so a later ill-formed description is never touched. *)
Fixpoint first_mitigation (descs : list pyval) : result pyval :=
  match descs with
  | [] => Ok (PStr "N/A")
  | desc :: rest =>
      value <- getitem desc "value" ;;
      low <- py_lower value ;;
      if Str.contains "mitigation" low
      then value' <- getitem desc "value" ;; Ok value'
      else first_mitigation rest
  end.

(** The body of the [try] block. *)
Definition fetch_body (net : network) (cve_id : string) : result nvd_data :=
  response <- net (nvd_url cve_id) ;;
  _ <- raise_for_status response ;;
  data <- json response ;;
  present <- py_in "vulnerabilities" data ;;
  nonempty <- (if present
               then v <- getitem data "vulnerabilities" ;; Ok (truthy v)
               else Ok false) ;;
  if nonempty then
    vulns <- getitem data "vulnerabilities" ;;
    first <- getitem0 vulns ;;
    cve <- getitem first "cve" ;;
    score <- cvss_data cve "baseScore" ;;
    severity <- cvss_data cve "baseSeverity" ;;
    descs <- getitem cve "descriptions" ;;
    descs' <- py_iter descs ;;
    mitigation <- first_mitigation descs' ;;
    Ok {| cvss_score := score;
          severity_level := severity;
          mitigation_strategy := mitigation |}
  else Ok unknown.

(** [fetch_nvd_data(cve_id)], with the module constant [NVD_API_KEY]. *)
Definition fetch_nvd_data (NVD_API_KEY : string) (net : network)
    (cve_id : string) : result nvd_data :=
  if String.eqb NVD_API_KEY "" then Ok unknown
  else try_except (fetch_body net cve_id) any_Exception
         (fun _ => Ok unknown).

(** What the scrapers do with the answer:
    [nvd["Severity Level"].capitalize() if nvd["Severity Level"] != "N/A"
     else fallback]. *)
Definition capitalized_severity (nvd : nvd_data) (fallback : string)
  : result string :=
  match severity_level nvd with
  | PStr s => if String.eqb s "N/A" then Ok fallback else Ok (Str.capitalize s)
  | _ => Raise AttributeError
  end.

End Nvd.

(** ** What BeautifulSoup finds in a page *)

Module Soup.

(** An [<a>] element: its text and its [href] attribute, if it has one. *)
Record anchor : Type := { a_text : string; a_href : option string }.

(** A [<td>]: its text, the first [<a>] inside it, the texts of the
    [<div>]s inside it. *)
Record td : Type := {
  td_text : string;
  td_a : option anchor;
  td_divs : list string
}.

(** [a["href"] if a else default]: a tag without the attribute raises. *)
Definition href_or (default : string) (a : option anchor) : result string :=
  match a with
  | Some a => match a_href a with Some h => Ok h | None => Raise KeyError end
  | None => Ok default
  end.

(** [[d.text.strip() for d in cell.find_all("div") if d.text.strip()]] *)
Definition div_texts (c : td) : list string :=
  filter (fun t => negb (String.eqb t "")) (map Str.strip (td_divs c)).

End Soup.
Import Soup.

(** ** paloalto_scraper.py *)

Module PaloAlto.

Section WithLibrary.
Context {L : PyLib}.

(** The [severity] computed for a row from its [cvss_score]. *)
Definition severity (cvss_score : string) : string :=
  if String.eqb (Str.lower cvss_score) "i" then "Informational"
  else
    match float cvss_score with
    | None => "N/A"
    | Some score =>
        if Float.ge score Float.f9_0 then "Critical"
        else if Float.ge score Float.f7_0 then "High"
        else if Float.ge score Float.f4_0 then "Medium"
        else "Low"
    end.

(** [summary.split()[0] if summary.startswith("CVE-") or
    summary.startswith("PAN-SA-") else "N/A"] *)
Definition cve_id_of (summary : string) : result string :=
  if Str.startswith "CVE-" summary || Str.startswith "PAN-SA-" summary
  then match Str.split_ws summary with
       | x :: _ => Ok x
       | [] => Raise IndexError
       end
  else Ok "N/A".

(** The body of [for row in rows]: [None] is [continue]. *)
Definition row (cols : list td) : result (option record) :=
  match cols with
  | [c0; c1; c2; c3; c4; c5; c6] =>
      let cvss_score := Str.strip (td_text c0) in
      let summary :=
        match td_a c1 with Some a => Str.strip (a_text a) | None => "N/A" end in
      url <- href_or "N/A" (td_a c1) ;;
      let url :=
        if negb (String.eqb url "N/A") && negb (Str.startswith "http" url)
        then ("https://security.paloaltonetworks.com" ++ url)%string
        else url in
      cve_id <- cve_id_of summary ;;
      let versions := div_texts c2 in
      let product_name :=
        match versions with v :: _ => v | [] => "Unknown" end in
      let affected := div_texts c3 in
      let unaffected := div_texts c4 in
      let published_date := Str.strip (td_text c5) in
      let updated_date := Str.strip (td_text c6) in
      Ok (Some
        [ ("Product Name", Str product_name);
          ("Product Version",
             Str (if 1 <? List.length versions
                  then Str.join ", " (tl versions) else "N/A"));
          ("OEM Name", Str "Palo Alto Networks");
          ("Vulnerability", Str summary);
          ("Description", Str cve_id);
          ("Published Date", Str published_date);
          ("Last Updated", Str updated_date);
          ("Unique ID", Str cve_id);
          ("URL", Str url);
          ("Severity Level", Str (severity cvss_score));
          ("Affected Versions", Str (Str.join "; " affected));
          ("Unaffected Versions", Str (Str.join "; " unaffected)) ])
  | _ => Ok None
  end.

(** [for row in rows: ...; data.append(...)]: the list [data] as the loop
    leaves it, and the exception that stopped it, if one did. *)
Fixpoint process (rows : list (list td)) (data : table)
  : table * result unit :=
  match rows with
  | [] => (data, Ok tt)
  | r :: rest =>
      match row r with
      | Raise e => (data, Raise e)
      | Ok None => process rest data
      | Ok (Some d) => process rest (data ++ [d])
      end
  end.

(** [df.sort_values(by="Unique ID").drop_duplicates(subset=["Unique ID"],
    keep="first")] *)
Definition deduplicate (df : table) : table :=
  drop_duplicates (col "Unique ID") (sort_values (col "Unique ID") true df).

(** What the browser and the file system answer during one run.  The
    "Load More" loop sits in a bare [try/except] and only changes the
    page; [soup] is the table of the page after it: [None] when
    [soup.find("table", class_="tbl salist wide")] finds nothing, else its
    [<tbody>]s, each with its [<tr>]s, each with its [<td>]s. *)
Record browser : Type := {
  chrome : result unit;       (* webdriver.Chrome(...) *)
  get : result unit;          (* driver.get(url) *)
  wait_table : result unit;   (* WebDriverWait(driver, 60).until(table) *)
  find_table : result bool;   (* after the sleep: is find_elements non-empty *)
  scroll : result unit;       (* execute_script(scrollIntoView) *)
  wait_rows : result unit;    (* WebDriverWait(driver, 60).until(rows) *)
  find_rows : result bool;
  diagnostics : result unit;  (* screenshot, console log, page source files *)
  soup : option (list (list (list td)));
  to_csv : result unit        (* df.to_csv("paloalto_vulnerabilities.csv") *)
}.

(** The [try] block up to [rows]. *)
Definition harvest (b : browser) : result (list (list td)) :=
  _ <- chrome b ;;
  _ <- get b ;;
  _ <- try_except (wait_table b) any_Exception
         (fun _ => found <- find_table b ;;
                   if found then Ok tt
                   else Raise (Exception_ "Table not found")) ;;
  _ <- scroll b ;;
  _ <- try_except (wait_rows b) any_Exception
         (fun _ => found <- find_rows b ;;
                   if found then Ok tt
                   else Raise (Exception_ "Rows not found")) ;;
  _ <- diagnostics b ;;
  match soup b with
  | None => Raise (Exception_ "Table not found in page source")
  | Some [] => Raise (Exception_ "No tbody tags found")
  | Some tbodies =>
      match concat tbodies with
      | [] => Raise (Exception_ "No rows found")
      | rows => Ok rows
      end
  end.

(** From [df = pd.DataFrame(data)] to [return df]. *)
Definition finish (b : browser) (data : table) : result table :=
  match data with
  | [] => Ok []
  | _ =>
      let df := deduplicate data in
      let df :=
        set_column "Published Date"
          (to_datetime (map (col "Published Date") df)) df in
      let df := sort_values (col "Published Date") false df in
      _ <- to_csv b ;;
      Ok df
  end.

(** [except Exception: return pd.DataFrame(data)]; the [finally] clause
    quits the driver. *)
Definition scrape_palo_alto (b : browser) : result table :=
  match harvest b with
  | Raise _ => Ok []
  | Ok rows =>
      let '(data, r) := process rows [] in
      match (_ <- r ;; finish b data) with
      | Ok df => Ok df
      | Raise _ => Ok data
      end
  end.

End WithLibrary.

(** The values that [severity] takes. *)
Definition levels : list string :=
  ["Critical"; "High"; "Medium"; "Low"; "Informational"; "N/A"].

(** [x] has the vendor and the identifier of [r]. *)
Definition same_key (r x : record) : bool :=
  cell_eqb (col "OEM Name" x) (col "OEM Name" r)
  && cell_eqb (col "Unique ID" x) (col "Unique ID" r).

(** The run hits a wait timeout: a wait fails and the look after the
    sleep finds nothing either. *)
Definition timed_out (b : browser) : Prop :=
  chrome b = Ok tt /\ get b = Ok tt /\
  ((exists e, wait_table b = Raise e /\ find_table b = Ok false) \/
   ((wait_table b = Ok tt \/
     exists e, wait_table b = Raise e /\ find_table b = Ok true) /\
    scroll b = Ok tt /\
    exists e, wait_rows b = Raise e /\ find_rows b = Ok false)).

(** The expected table is not in the page: no table, no [<tbody>], no
    [<tr>], or no [<tr>] with seven cells. *)
Definition mismatch (b : browser) : Prop :=
  match soup b with
  | None => True
  | Some tbodies =>
      forallb (fun r => negb (List.length r =? 7)) (concat tbodies) = true
  end.

End PaloAlto.

(** ** nvidia_scraper.py *)

Module Nvidia.

Definition newline : ascii := ascii_of_nat 10.

(** [re.sub(r'<.*?>', '', s)]: from a [<] to the next [>] of the same
    line.  [pending] holds, reversed, the characters read since a [<] that
    is still waiting for its [>]. *)
Fixpoint remove_tags_aux (s : string) (pending : option (list ascii))
  : string :=
  match s with
  | EmptyString =>
      match pending with
      | Some buf => string_of_list_ascii (rev buf)
      | None => EmptyString
      end
  | String c r =>
      match pending with
      | None =>
          if Ascii.eqb c "<" then remove_tags_aux r (Some [c])
          else String c (remove_tags_aux r None)
      | Some buf =>
          if Ascii.eqb c ">" then remove_tags_aux r None
          else if Ascii.eqb c newline
          then (string_of_list_ascii (rev (c :: buf))
                  ++ remove_tags_aux r None)%string
          else remove_tags_aux r (Some (c :: buf))
      end
  end.

Definition remove_tags (s : string) : string := remove_tags_aux s None.

(** [re.split(r' - | \(', s)[0]] *)
Fixpoint before_separator (s : string) : string :=
  if Str.startswith " - " s || Str.startswith " (" s then EmptyString
  else
    match s with
    | EmptyString => EmptyString
    | String c r => String c (before_separator r)
    end.

Definition clean_publish_date (text : string) : string :=
  Str.strip (before_separator (remove_tags (Str.strip text))).

Definition valid_severities : list string :=
  ["N/A"; "None"; "NVIDIA products are not affected";
   "Low"; "Medium"; "High"; "Critical"].

(** What Selenium reads in a row with six cells or more. *)
Record cells : Type := {
  title : string;                 (* title_link.text *)
  href : option string;           (* title_link.get_attribute("href") *)
  bulletin : string;              (* cols[1].text *)
  severity_data : option string;  (* cols[2].get_attribute("data") *)
  severity_text : string;         (* cols[2].text *)
  cve : string;                   (* cols[3].text *)
  publish : string;               (* cols[4].text *)
  updated : string                (* cols[5].text *)
}.

(** A [<tr>] of the table: reading it raises, or it has fewer than six
    cells, or it yields its cells. *)
Inductive tr : Type :=
| Broken (e : exn)
| Short
| Cells (c : cells).

Definition severity (c : cells) : string :=
  let severity :=
    match severity_data c with
    | Some d => if String.eqb d "" then Str.strip (severity_text c) else d
    | None => Str.strip (severity_text c)
    end in
  if Str.mem severity valid_severities then severity else "N/A".

Fixpoint replace_newlines (s : string) : string :=
  match s with
  | EmptyString => EmptyString
  | String c r =>
      String (if Ascii.eqb c newline then " "%char else c) (replace_newlines r)
  end.

Definition record_of (c : cells) : record :=
  [ ("Title", Str (Str.strip (title c)));
    ("Bulletin ID", Str (Str.strip (bulletin c)));
    ("Severity", Str (severity c));
    ("CVE Identifier(s)", Str (replace_newlines (Str.strip (cve c))));
    ("Publish Date", Str (clean_publish_date (publish c)));
    ("Last Updated", Str (Str.strip (updated c)));
    ("URL", match href c with Some h => Str h | None => PyNone end) ].

(** The inner [for]: [true] when it runs to its end (the [else] clause
    then leaves the retry loop), [false] when a stale element breaks it. *)
Fixpoint rows_loop (rows : list tr) (data : table) : result (table * bool) :=
  match rows with
  | [] => Ok (data, true)
  | Broken e :: _ => if is_Stale e then Ok (data, false) else Raise e
  | Short :: rest => rows_loop rest data
  | Cells c :: rest => rows_loop rest (data ++ [record_of c])
  end.

Record browser : Type := {
  setup_driver : result unit;
  get : result unit;
  wait_body : result unit;
  wait_table : result unit;
  (** the rows below the header that attempt [n] finds *)
  find_rows : nat -> result (list tr)
}.

(** [for attempt in range(max_attempts)], with [left] attempts to go;
    [data] is not cleared between attempts. *)
Fixpoint attempts (b : browser) (left attempt : nat) (data : table)
  : result table :=
  match left with
  | 0 => Ok data
  | S left' =>
      match find_rows b attempt with
      | Raise e =>
          if is_Stale e then attempts b left' (S attempt) data else Raise e
      | Ok rows =>
          match rows_loop rows data with
          | Raise e => Raise e
          | Ok (data', true) => Ok data'
          | Ok (data', false) => attempts b left' (S attempt) data'
          end
      end
  end.

Definition scrape_nvidia (b : browser) : result table :=
  _ <- setup_driver b ;;
  try_except
    (_ <- get b ;;
     _ <- wait_body b ;;
     _ <- wait_table b ;;
     attempts b 3 0 [])
    is_WebDriverException
    (fun _ => Ok []).

(** Reading the row raises [StaleElementReferenceException]. *)
Definition stale (r : tr) : bool :=
  match r with Broken e => is_Stale e | _ => false end.

(** The dicts of the rows of the table that have six cells or more, top
    to bottom. *)
Definition in_page_order (rows : list tr) : table :=
  flat_map (fun r => match r with Cells c => [record_of c] | _ => [] end) rows.

Definition timed_out (b : browser) : Prop :=
  setup_driver b = Ok tt /\ get b = Ok tt /\
  (wait_body b = Raise TimeoutException \/
   (wait_body b = Ok tt /\ wait_table b = Raise TimeoutException)).

(** The table is there and no row of it has six cells. *)
Definition mismatch (b : browser) : Prop :=
  setup_driver b = Ok tt /\ get b = Ok tt /\
  wait_body b = Ok tt /\ wait_table b = Ok tt /\
  exists rows, find_rows b 0 = Ok rows /\
    forallb (fun r => match r with Short => true | _ => false end) rows = true.

End Nvidia.

(** ** adobe_scraper.py *)

Module Adobe.

(** A [<tr>] read with Selenium: the texts of its [<td>]s, or the
    exception raised while reading it. *)
Definition tr : Type := result (list string).

Definition record_of (section : string) (cols : list string) : option record :=
  match cols with
  | c0 :: c1 :: c2 :: _ =>
      Some [ ("Section", Str section);
             ("Title", Str (Str.strip c0));
             ("Posted", Str (Str.strip c1));
             ("Updated", Str (Str.strip c2));
             ("Severity Level", Str "N/A") ]
  | _ => None
  end.

(** [for row in rows] inside the [try] of one section: an exception ends
    the section and is logged; the rows appended before it stay. *)
Fixpoint section_rows (section : string) (rows : list tr) (data : table)
  : table :=
  match rows with
  | [] => data
  | Raise _ :: _ => data
  | Ok cols :: rest =>
      match record_of section cols with
      | Some d => section_rows section rest (data ++ [d])
      | None => section_rows section rest data
      end
  end.

(** An [<h4>]: its text, and the rows below the header row of the table
    that follows it. *)
Record header : Type := {
  text : result string;
  rows : result (list tr)
}.

Fixpoint headers_loop (hs : list header) (data : table) : table :=
  match hs with
  | [] => data
  | h :: rest =>
      match text h with
      | Raise _ => data
      | Ok name =>
          headers_loop rest
            (match rows h with
             | Raise _ => data
             | Ok rs => section_rows (Str.strip name) rs data
             end)
      end
  end.

Record browser : Type := {
  chrome : result unit;
  get : result unit;
  wait : result unit;        (* //h2[@id='acrobat'] | //h4 present *)
  save_page : result unit;
  acrobat : result (list tr);  (* rows of the table after h2#acrobat *)
  h4_headers : result (list header)
}.

Definition scrape_adobe (b : browser) : result table :=
  _ <- chrome b ;;
  Ok (match (_ <- get b ;; _ <- wait b ;; save_page b) with
      | Raise _ => []
      | Ok _ =>
          let data :=
            match acrobat b with
            | Raise _ => []
            | Ok rs => section_rows "Adobe Acrobat" rs []
            end in
          match h4_headers b with
          | Raise _ => data
          | Ok hs => headers_loop hs data
          end
      end).

(** The rows of a table, top to bottom, up to the first one that
    cannot be read. *)
Fixpoint readable (rows : list tr) : list (list string) :=
  match rows with
  | Ok cols :: rest => cols :: readable rest
  | _ => []
  end.

(** The dicts of the readable rows of a section that have three cells or
    more, top to bottom; none when its table is not found. *)
Definition records (section : string) (rows : result (list tr)) : table :=
  match rows with
  | Raise _ => []
  | Ok rs =>
      flat_map (fun cols => match record_of section cols with
                            | Some d => [d]
                            | None => []
                            end) (readable rs)
  end.

(** The [<h4>] sections in page order, up to the first heading whose
    text cannot be read: the name and the rows of each. *)
Fixpoint named (hs : list header) : list (string * result (list tr)) :=
  match hs with
  | [] => []
  | h :: rest =>
      match text h with
      | Ok name => (Str.strip name, rows h) :: named rest
      | Raise _ => []
      end
  end.

(** The rows of the page in the order of the page: those of the Acrobat
    table, then those of each [<h4>] section. *)
Definition in_page_order (b : browser) : table :=
  records "Adobe Acrobat" (acrobat b)
  ++ flat_map (fun s => records (fst s) (snd s))
       (match h4_headers b with Ok hs => named hs | Raise _ => [] end).

Definition timed_out (b : browser) : Prop :=
  chrome b = Ok tt /\ get b = Ok tt /\ wait b = Raise TimeoutException.

Definition usable (r : tr) : bool :=
  match r with Ok (_ :: _ :: _ :: _) => true | _ => false end.

Definition no_rows (rs : result (list tr)) : bool :=
  match rs with
  | Raise _ => true
  | Ok l => forallb (fun r => negb (usable r)) l
  end.

(** No section of the page has a table with a row of three cells. *)
Definition mismatch (b : browser) : Prop :=
  chrome b = Ok tt /\
  no_rows (acrobat b) = true /\
  match h4_headers b with
  | Raise _ => True
  | Ok hs => forallb (fun h => no_rows (rows h)) hs = true
  end.

End Adobe.

(** ** The scrapers that call the enrichment client

    Each of them returns, next to its result, the identifiers it passed
    to [fetch_nvd_data], in call order. *)

Module Enrich.

(** [cve_ids[0] if cve_ids else "N/A"] *)
Definition first_cve (tokens : list string) : string :=
  match filter (Str.startswith "CVE-") (map Str.strip tokens) with
  | x :: _ => x
  | [] => "N/A"
  end.

(** [fetch_nvd_data(cve_id) if cve_id != "N/A" else {...: "N/A"}] and the
    identifier looked up, if one was. *)
Definition nvd_for (key : string) (net : Nvd.network) (cve_id : string)
  : list string * result Nvd.nvd_data :=
  if String.eqb cve_id "N/A" then ([], Ok Nvd.unknown)
  else ([cve_id], Nvd.fetch_nvd_data key net cve_id).

(** The loop of the three scrapers over their rows:
    [for row in rows: ...; data.append({...})].  [row] gives the lookups
    of one pass through the body and the dict it appends ([None] when the
    body ends in [continue]); an exception ends the loop. *)
Fixpoint rows_loop {R : Type}
    (row : R -> list string * result (option record))
    (rows : list R) (calls : list string) (data : table)
  : list string * result table :=
  match rows with
  | [] => (calls, Ok data)
  | r :: rest =>
      let '(c, d) := row r in
      match d with
      | Raise e => (calls ++ c, Raise e)
      | Ok None => rows_loop row rest (calls ++ c) data
      | Ok (Some x) => rows_loop row rest (calls ++ c) (data ++ [x])
      end
  end.

End Enrich.

(** ** intel_scraper.py *)

Module Intel.

Section WithNvd.
Variable NVD_API_KEY : string.
Variable net : Nvd.network.

Definition cve_id_of (cols : list td) : string :=
  match cols with
  | _ :: c1 :: _ => Enrich.first_cve (Str.split_ws (Str.strip (td_text c1)))
  | _ => "N/A"
  end.

(** The body of the loop: the lookups it makes, and the record it
    appends ([None] is [continue]). *)
Definition row (cols : list td) : list string * result (option record) :=
  match cols with
  | c0 :: c1 :: c2 :: c3 :: _ =>
      let title := Str.strip (td_text c0) in
      match href_or "#" (td_a c0) with
      | Raise e => ([], Raise e)
      | Ok link =>
          let full_url :=
            if Str.startswith "/" link
            then ("https://www.intel.com" ++ link)%string else link in
          let updated := Str.strip (td_text c2) in
          let pub_date := Str.strip (td_text c3) in
          let '(calls, nvd) :=
            Enrich.nvd_for NVD_API_KEY net (cve_id_of cols) in
          (calls,
           nvd <- nvd ;;
           _ <- Nvd.capitalized_severity nvd "N/A" ;;
           Ok (Some [ ("OEM Name", Str "Intel");
                      ("Vulnerability", Str title);
                      ("Published Date", Str pub_date);
                      ("URL", Str full_url);
                      ("Last Updated", Str updated) ]))
      end
  | _ => ([], Ok None)
  end.

Record browser : Type := {
  setup_driver : result unit;
  set_user_agent : result unit;   (* execute_cdp_cmd *)
  get : result unit;
  wait_body : result unit;
  view_all : result unit;         (* wait for "View all", then click it *)
  wait_ready : result unit;       (* document.readyState == "complete" *)
  rows : list (list td)           (* soup.find_all("tr", class_="data") *)
}.

Definition scrape_intel (b : browser) : list string * result table :=
  match (_ <- setup_driver b ;; set_user_agent b) with
  | Raise e => ([], Raise e)
  | Ok _ =>
      match (_ <- get b ;;
             _ <- wait_body b ;;
             _ <- try_except (view_all b) is_TimeoutException
                    (fun _ => Ok tt) ;;
             wait_ready b) with
      | Raise e => ([], if is_WebDriverException e then Ok [] else Raise e)
      | Ok _ =>
          match rows b with
          | [] => ([], Ok [])
          | _ =>
              let '(calls, r) := Enrich.rows_loop row (firstn 100 (rows b)) [] [] in
              (calls,
               try_except r is_WebDriverException (fun _ => Ok []))
          end
      end
  end.

End WithNvd.

Definition timed_out (b : browser) : Prop :=
  setup_driver b = Ok tt /\ set_user_agent b = Ok tt /\ get b = Ok tt /\
  (wait_body b = Raise TimeoutException \/
   (wait_body b = Ok tt /\
    (view_all b = Ok tt \/ view_all b = Raise TimeoutException) /\
    wait_ready b = Raise TimeoutException)).

(** The page loads and has no [tr.data] row with four cells. *)
Definition mismatch (b : browser) : Prop :=
  setup_driver b = Ok tt /\ set_user_agent b = Ok tt /\ get b = Ok tt /\
  wait_body b = Ok tt /\
  (view_all b = Ok tt \/ view_all b = Raise TimeoutException) /\
  wait_ready b = Ok tt /\
  forallb (fun r => List.length r <? 4) (rows b) = true.

End Intel.

(** ** dell_scraper.py *)

Module Dell.

(** A [div.dds__td] cell, by what the scraper looks for in it. *)
Record cell_div : Type := {
  badge : option string;       (* span.dds__badge__label *)
  link : option anchor;        (* a.dds__link *)
  type_span : option string;   (* span.dds__table__cell *)
  cve_span : option string;    (* span.dds__table__cell.dds__ellipses *)
  named_div : option string    (* div with a name attribute *)
}.

Definition text_or (default : string) (o : option string) : string :=
  match o with Some t => Str.strip t | None => default end.

Section WithNvd.
Variable NVD_API_KEY : string.
Variable net : Nvd.network.

Definition cve_id_of (cells : list cell_div) : string :=
  match cells with
  | _ :: _ :: _ :: c3 :: _ =>
      Enrich.first_cve (Str.split_on "," (text_or "N/A" (cve_span c3)))
  | _ => "N/A"
  end.

Definition row (cells : list cell_div)
  : list string * result (option record) :=
  match cells with
  | c0 :: c1 :: c2 :: c3 :: c4 :: c5 :: _ =>
      let impact_text := text_or "N/A" (badge c0) in
      let title_text :=
        match link c1 with Some a => Str.strip (a_text a) | None => "Unknown" end in
      match href_or "#" (link c1) with
      | Raise e => ([], Raise e)
      | Ok full_url =>
          let full_url :=
            if Str.startswith "/" full_url
            then ("https://www.dell.com" ++ full_url)%string else full_url in
          let published_text := text_or "N/A" (named_div c4) in
          let updated_text := text_or "N/A" (named_div c5) in
          let cve_id := cve_id_of cells in
          let '(calls, nvd) := Enrich.nvd_for NVD_API_KEY net cve_id in
          (calls,
           nvd <- nvd ;;
           severity <- Nvd.capitalized_severity nvd impact_text ;;
           Ok (Some [ ("OEM Name", Str "Dell");
                      ("Vulnerability", Str title_text);
                      ("Description", Str severity);
                      ("Published Date", Str published_text);
                      ("Unique ID", Str cve_id);
                      ("URL", Str full_url);
                      ("Last Updated", Str updated_text) ]))
      end
  | _ => ([], Ok None)
  end.

Record browser : Type := {
  chrome : result unit;
  get : result unit;
  select_100 : result unit;  (* find the per-page select, choose "100" *)
  rows : list (list cell_div)  (* soup.find_all("div", class_="dds__tr", role="row") *)
}.

Definition scrape_dell (b : browser) : list string * result table :=
  match chrome b with
  | Raise e => ([], Raise e)
  | Ok _ =>
      match (_ <- get b ;; select_100 b) with
      | Raise _ => ([], Ok [])
      | Ok _ =>
          match rows b with
          | [] => ([], Ok [])
          | _ =>
              let '(calls, r) := Enrich.rows_loop row (firstn 100 (rows b)) [] [] in
              (calls, try_except r any_Exception (fun _ => Ok []))
          end
      end
  end.

End WithNvd.

(** The page lacks the per-page control, or has no row with six cells. *)
Definition mismatch (b : browser) : Prop :=
  chrome b = Ok tt /\ get b = Ok tt /\
  ((exists e, select_100 b = Raise e) \/
   forallb (fun r => List.length r <? 6) (rows b) = true).

End Dell.

(** ** cisco_scraper.py *)

Module Cisco.

(** A [tr.rowRepeat] read with Selenium, field by field; each read may
    raise. *)
Record tr : Type := {
  advisory : result (string * option string);  (* link text and href *)
  impact : result string;                      (* td.impactTD *)
  cve : result string;                         (* td:nth-child(3) *)
  (** the text of the date span and, for an empty text, what the
      [innerText] script returns *)
  last_updated : result (string * result string);
  version : result string
}.

Definition or_na (r : result string) : string :=
  match r with Ok t => Str.strip t | Raise _ => "N/A" end.

Section WithNvd.
Variable NVD_API_KEY : string.
Variable net : Nvd.network.

Definition cve_id_of (r : tr) : string :=
  Enrich.first_cve (Str.split_ws (or_na (cve r))).

(** The body of the loop; it has no [continue]. *)
Definition row (r : tr) : list string * result (option record) :=
  let '(advisory_title, href) :=
    match advisory r with
    | Ok (t, Some h) => (Str.strip t, Str h)
    | Ok (t, None) => (Str.strip t, PyNone)
    | Raise _ => ("N/A", Str "#")
    end in
  let impact := or_na (impact r) in
  let last_updated :=
    match last_updated r with
    | Ok (t, inner) =>
        if String.eqb (Str.strip t) "" then or_na inner else Str.strip t
    | Raise _ => "N/A"
    end in
  let '(calls, nvd) := Enrich.nvd_for NVD_API_KEY net (cve_id_of r) in
  (calls,
   nvd <- nvd ;;
   _ <- Nvd.capitalized_severity nvd "N/A" ;;
   Ok (Some [ ("OEM Name", Str "Cisco");
              ("Vulnerability", Str advisory_title);
              ("Description", Str impact);
              ("URL", href);
              ("Last Updated", Str last_updated) ])).

Record browser : Type := {
  setup_driver : result unit;
  set_user_agent : result unit;
  get : result unit;
  wait_rows : result unit;        (* a tr.rowRepeat present within 120 s *)
  rows : result (list tr)         (* find_elements("tr.rowRepeat") *)
}.

Definition scrape_cisco (b : browser) : list string * result table :=
  match (_ <- setup_driver b ;; set_user_agent b) with
  | Raise e => ([], Raise e)
  | Ok _ =>
      match (_ <- get b ;; _ <- wait_rows b ;; rows b) with
      | Raise e => ([], if is_WebDriverException e then Ok [] else Raise e)
      | Ok [] => ([], Ok [])
      | Ok rs =>
          let '(calls, r) := Enrich.rows_loop row rs [] [] in
          (calls, try_except r is_WebDriverException (fun _ => Ok []))
      end
  end.

End WithNvd.

(** The rows that [find_elements] gives, none when it raises. *)
Definition found_rows (b : browser) : list tr :=
  match rows b with Ok rs => rs | Raise _ => [] end.

Definition timed_out (b : browser) : Prop :=
  setup_driver b = Ok tt /\ set_user_agent b = Ok tt /\ get b = Ok tt /\
  wait_rows b = Raise TimeoutException.

(** The wait passes and [find_elements] gives no row. *)
Definition mismatch (b : browser) : Prop :=
  setup_driver b = Ok tt /\ set_user_agent b = Ok tt /\ get b = Ok tt /\
  wait_rows b = Ok tt /\ rows b = Ok [].

End Cisco.

(** ** The query bots: cisco_queries.py, nvidia_queries.py,
    palo_alto_queries.py *)

Module Queries.

(** A DataFrame: its column labels and its rows, each row a dict from
    label to value. *)
Record DataFrame : Type := {
  columns : list string;
  rows : table
}.

(** [pd.DataFrame([{"Response": msg}])] *)
Definition response (msg : string) : DataFrame :=
  {| columns := ["Response"]; rows := [[("Response", Str msg)]] |}.

(** What a bot returns.  A question that passes the column check and is
    not a "latest" question goes to the rules that follow in the source
    (severity, product, identifier, date); they select rows of [df] into
    a new frame and assign nothing: [Later_rule] stands for their answer. *)
Inductive answer : Type :=
| Answer (df : DataFrame)
| Later_rule.

Definition clean_text (text : string) : string :=
  Str.strip (Str.lower text).

(** [[col for col in required_columns if col not in df.columns]] *)
Definition missing_columns (required : list string) (df : DataFrame)
  : list string :=
  filter (fun c => negb (Str.mem c (columns df))) required.

(** [out] is a frame of one row and of the one column "Response", and
    the cell is the message that names, in the order of [required] and
    separated by ", ", exactly the labels of [required] that are not
    labels of [df], followed by [ending]. *)
Definition missing_report (required : list string) (ending : string)
    (df out : DataFrame) : Prop :=
  exists absent : string -> bool,
    (forall c, In c required -> (absent c = true <-> ~ In c (columns df))) /\
    columns out = ["Response"] /\
    rows out
    = [[("Response",
         Str ("❌ Missing required columns: "
              ++ Str.join ", " (filter absent required) ++ ending))]].

(** [N = 5; if "10" in question: N = 10; elif "5" in question: N = 5] *)
Definition latest_count (question : string) : nat :=
  if Str.contains "10" question then 10
  else if Str.contains "5" question then 5
  else 5.

Definition is_latest (question : string) : bool :=
  Str.contains "latest" question || Str.contains "recent" question.

Section WithLibrary.
Context {L : PyLib}.

(** [df[k] = pd.to_datetime(df[k], errors='coerce')] *)
Definition convert_dates (k : string) (df : DataFrame) : DataFrame :=
  {| columns := columns df;
     rows := set_column k (to_datetime (map (col k) (rows df))) (rows df) |}.

(** [df.sort_values(by=k, ascending=False).head(N)] *)
Definition latest (k : string) (N : nat) (df : DataFrame) : DataFrame :=
  {| columns := columns df;
     rows := firstn N (sort_values (col k) false (rows df)) |}.

Definition cisco_required : list string :=
  ["oem_name"; "vulnerability"; "severity"; "url"; "last_updated";
   "severity_level"].

(** The answer, and the caller's frame [df] as the call leaves it. *)
Definition query_cisco_bot (question : string) (df : DataFrame)
  : DataFrame * answer :=
  let question := clean_text question in
  match missing_columns cisco_required df with
  | (_ :: _) as missing =>
      (df, Answer (response ("❌ Missing required columns: "
                              ++ Str.join ", " missing ++ ".")%string))
  | [] =>
      let df := convert_dates "last_updated" df in
      if is_latest question
      then (df, Answer (latest "last_updated" (latest_count question) df))
      else (df, Later_rule)
  end.

Definition palo_alto_required : list string :=
  ["product_name"; "vulnerability"; "published_date"; "severity_level";
   "unique_id"; "affected_versions"; "unaffected_versions"].

Definition query_palo_alto_bot (question : string) (df : DataFrame)
  : DataFrame * answer :=
  let question := clean_text question in
  match missing_columns palo_alto_required df with
  | (_ :: _) as missing =>
      (df, Answer (response ("❌ Missing required columns: "
                              ++ Str.join ", " missing ++ ".")%string))
  | [] =>
      let df := convert_dates "published_date" df in
      if is_latest question
      then (df, Answer (latest "published_date" (latest_count question) df))
      else (df, Later_rule)
  end.

Definition nvidia_required : list string :=
  ["title"; "bulletin_id"; "severity"; "cve_identifier(s)"; "publish_date";
   "last_updated"; "url"; "severity_level"].

(** The NVIDIA bot sorts the column as it finds it; a column that mixes
    strings and dates cannot be compared. *)
Definition query_nvidia_bot (question : string) (df : DataFrame)
  : DataFrame * result answer :=
  let question := clean_text question in
  match missing_columns nvidia_required df with
  | (_ :: _) as missing =>
      (df, Ok (Answer (response
         ("❌ Missing required columns: " ++ Str.join ", " missing
          ++ ". Please ensure the data includes these columns.")%string)))
  | [] =>
      if is_latest question
      then (df,
            if sortable (map (col "publish_date") (rows df))
            then Ok (Answer (latest "publish_date" (latest_count question) df))
            else Raise TypeError)
      else (df, Ok Later_rule)
  end.

(** [out] holds the first [N] rows of [df] with its column [k] parsed to
    dates and sorted on it, latest first and unknown dates last. *)
Definition latest_view (k : string) (N : nat) (df out : DataFrame) : Prop :=
  columns out = columns df /\
  List.length (rows out) = Nat.min N (List.length (rows df)) /\
  exists sorted,
    Permutation sorted (rows (convert_dates k df)) /\
    StronglySorted
      (fun a b => cell_before false (col k a) (col k b) = true) sorted /\
    rows out = firstn N sorted.

(** On a frame of four rows dated [a], [b], [b] and unknown, with
    [b < a], [out] starts with the first row and ends with the fourth. *)
Definition first_and_last (k : string) (df out : DataFrame) : Prop :=
  forall r1 r2 r3 r4 a b,
    rows df = [r1; r2; r3; r4] ->
    to_datetime (map (col k) (rows df))
    = [Timestamp a; Timestamp b; Timestamp b; NaT] ->
    (b < a)%Z ->
    exists x y,
      rows out
      = [set_field k (Timestamp a) r1; x; y; set_field k NaT r4].

End WithLibrary.

End Queries.

(** ** The regular expressions of the query bots

    The patterns that the bots hand to [re.search] are sequences of
    literal text and of character classes repeated greedily, with one
    group. *)

Module Re.

Inductive item : Type :=
| Lit (s : string)               (* the characters of [s] *)
| LitI (s : string)              (* the same under [re.IGNORECASE] *)
| AltI (words : list string)     (* [(?:w1|w2|...)] under [re.IGNORECASE] *)
| Opt (s : string)               (* [(?:s)?] *)
| Many (p : ascii -> bool) (lo : nat) (hi : option nat)
                                 (* [p{lo,hi}], [p+] is [Many p 1 None] *)
| Open                           (* ( *)
| Close.                         (* ) *)

Definition pattern : Type := list item.

Definition newline : ascii := ascii_of_nat 10.

(** The classes [\s], [\S], [\d], [.] and [[A-Z0-9-]]. *)
Definition space (c : ascii) : bool := Str.is_space c.
Definition non_space (c : ascii) : bool := negb (Str.is_space c).
Definition digit (c : ascii) : bool :=
  let n := nat_of_ascii c in (48 <=? n) && (n <=? 57).
Definition dot (c : ascii) : bool := negb (Ascii.eqb c newline).
Definition upper_digit_hyphen (c : ascii) : bool :=
  let n := nat_of_ascii c in
  ((65 <=? n) && (n <=? 90)) || ((48 <=? n) && (n <=? 57)) || (n =? 45).
Definition is_char (a : ascii) (c : ascii) : bool := Ascii.eqb c a.

(** [s] without its prefix [p]. *)
Fixpoint after_prefix (p s : string) : option string :=
  match p, s with
  | EmptyString, _ => Some s
  | String a p', String b s' => if Ascii.eqb a b then after_prefix p' s' else None
  | String _ _, EmptyString => None
  end.

(** The same, letters compared without their case. *)
Fixpoint after_prefix_i (p s : string) : option string :=
  match p, s with
  | EmptyString, _ => Some s
  | String a p', String b s' =>
      if Ascii.eqb (Str.lower_ascii a) (Str.lower_ascii b)
      then after_prefix_i p' s' else None
  | String _ _, EmptyString => None
  end.

(** The first alternative, in their order, after which [k] succeeds. *)
Fixpoint first_some {A B : Type} (k : A -> option B) (l : list A) : option B :=
  match l with
  | [] => None
  | x :: r => match k x with Some y => Some y | None => first_some k r end
  end.

(** [p{lo,hi}] at the start of [s], then [k] on the rest.  One more
    character is tried first; when the rest of the pattern fails after
    every longer repetition, the repetition stops here, if it may. *)
Fixpoint many {A : Type} (p : ascii -> bool) (lo : nat) (hi : option nat)
    (s : string) (k : string -> option A) : option A :=
  let stop := if lo =? 0 then k s else None in
  match s with
  | String c r =>
      if p c && match hi with Some 0 => false | _ => true end
      then match many p (pred lo) (option_map pred hi) r k with
           | Some x => Some x
           | None => stop
           end
      else stop
  | EmptyString => stop
  end.

(** The pattern at the start of [s]: the text of its group.  [opened] is
    what was left of the subject at the [(]. *)
Fixpoint match_here (pat : pattern) (opened captured : string) (s : string)
  : option string :=
  match pat with
  | [] => Some captured
  | Lit l :: rest =>
      match after_prefix l s with
      | Some s' => match_here rest opened captured s'
      | None => None
      end
  | LitI l :: rest =>
      match after_prefix_i l s with
      | Some s' => match_here rest opened captured s'
      | None => None
      end
  | AltI words :: rest =>
      first_some
        (fun w => match after_prefix_i w s with
                  | Some s' => match_here rest opened captured s'
                  | None => None
                  end)
        words
  | Opt l :: rest =>
      match match after_prefix l s with
            | Some s' => match_here rest opened captured s'
            | None => None
            end with
      | Some g => Some g
      | None => match_here rest opened captured s
      end
  | Many p lo hi :: rest => many p lo hi s (match_here rest opened captured)
  | Open :: rest => match_here rest s captured s
  | Close :: rest =>
      match_here rest opened
        (substring 0 (String.length opened - String.length s) opened) s
  end.

(** [re.search(pat, s)]: the group of the leftmost match. *)
Fixpoint search (pat : pattern) (s : string) : option string :=
  match match_here pat "" "" s with
  | Some g => Some g
  | None =>
      match s with
      | EmptyString => None
      | String _ r => search pat r
      end
  end.

End Re.

(** ** cisco_queries.py, palo_alto_queries.py: the rule that answers

    On a frame that has the required columns, which [return] of a bot
    answers is decided by the question. *)

Module Rules.

Definition severities : list string := ["critical"; "high"; "medium"; "low"].

(** [for level in severities: if f"{level} severity" in question or
    f"{level} vulnerabilities" in question] *)
Definition severity_level (question : string) : option string :=
  find (fun level =>
          Str.contains (level ++ " severity") question
          || Str.contains (level ++ " vulnerabilities") question)
    severities.

(** [r'for\s+(.+)'] *)
Definition for_any : Re.pattern :=
  [Re.Lit "for"; Re.Many Re.space 1 None; Re.Open; Re.Many Re.dot 1 None;
   Re.Close].

(** [r'details for\s+(https?://\S+)'] *)
Definition details_url : Re.pattern :=
  [Re.Lit "details for"; Re.Many Re.space 1 None; Re.Open; Re.Lit "http";
   Re.Many (Re.is_char "s") 0 (Some 1); Re.Lit "://";
   Re.Many Re.non_space 1 None; Re.Close].

(** [r'after\s+(\d{4})'] *)
Definition after_year : Re.pattern :=
  [Re.Lit "after"; Re.Many Re.space 1 None; Re.Open;
   Re.Many Re.digit 4 (Some 4); Re.Close].

(** [r'cve-\d{4}-\d{4,7}'], read with [.group()]: the whole match *)
Definition cve_id : Re.pattern :=
  [Re.Open; Re.Lit "cve-"; Re.Many Re.digit 4 (Some 4); Re.Lit "-";
   Re.Many Re.digit 4 (Some 7); Re.Close].

(** [r'for\s+([A-Z0-9-]+)'] *)
Definition for_id : Re.pattern :=
  [Re.Lit "for"; Re.Many Re.space 1 None; Re.Open;
   Re.Many Re.upper_digit_hyphen 1 None; Re.Close].

(** [if "after" in question: year_match = re.search(...)] *)
Definition after (question : string) : option string :=
  if Str.contains "after" question then Re.search after_year question
  else None.

(** The [return] statements of [query_cisco_bot], with what they filter
    on. *)
Inductive cisco_rule : Type :=
| Cisco_latest (N : nat)           (* sort_values(by="last_updated").head(N) *)
| Cisco_severity (level : string)  (* df["severity_level"].str.lower() == level *)
| Cisco_product (product : string) (* df["vulnerability"].str.contains(product) *)
| Cisco_url (url : string)         (* df["url"] == url *)
| Cisco_after (year : string)      (* df["last_updated"] > cutoff_date *)
| Cisco_default.                   (* "I couldn't understand the question" *)

Definition cisco (question : string) : cisco_rule :=
  let question := Queries.clean_text question in
  if Queries.is_latest question
  then Cisco_latest (Queries.latest_count question)
  else
    match severity_level question with
    | Some level => Cisco_severity level
    | None =>
        match Re.search for_any question with
        | Some product => Cisco_product (Str.strip product)
        | None =>
            match Re.search details_url question with
            | Some url => Cisco_url url
            | None =>
                match after question with
                | Some year => Cisco_after year
                | None => Cisco_default
                end
            end
        end
    end.

(** The [return] statements of [query_palo_alto_bot]. *)
Inductive palo_alto_rule : Type :=
| PA_latest (N : nat)
| PA_severity (level : string)
| PA_product (product : string)    (* df["product_name"].str.contains(product) *)
| PA_cve (cve_id : string)         (* df["unique_id"].str.contains(cve_id) *)
| PA_after (year : string)         (* df["published_date"] > cutoff_date *)
| PA_affected (advisory_id : string)    (* {"Affected Versions": ...} *)
| PA_unaffected (advisory_id : string)  (* {"Unaffected Versions": ...} *)
| PA_default.

(** [known id] says whether [df[df["unique_id"] == id]] has a row. *)
Definition palo_alto (known : string -> bool) (question : string)
  : palo_alto_rule :=
  let question := Queries.clean_text question in
  if Queries.is_latest question
  then PA_latest (Queries.latest_count question)
  else
    match severity_level question with
    | Some level => PA_severity level
    | None =>
        match Re.search for_any question with
        | Some product => PA_product (Str.strip product)
        | None =>
            match Re.search cve_id question with
            | Some id => PA_cve id
            | None =>
                match after question with
                | Some year => PA_after year
                | None =>
                    let unaffected :=
                      match (if Str.contains "unaffected versions for" question
                             then Re.search for_id question else None) with
                      | Some id => if known id then PA_unaffected id else PA_default
                      | None => PA_default
                      end in
                    match (if Str.contains "affected versions for" question
                           then Re.search for_id question else None) with
                    | Some id => if known id then PA_affected id else unaffected
                    | None => unaffected
                    end
                end
            end
        end
    end.

End Rules.

(** ** processing.py *)

Module Processing.

Definition possible_columns : list string :=
  ["Impact"; "impact"; "Severity"; "severity"; "RiskLevel"].

(** ["impact" in col.lower() or "severity" in col.lower() or
    "risk" in col.lower()] *)
Definition likely (col : string) : bool :=
  Str.contains "impact" (Str.lower col)
  || Str.contains "severity" (Str.lower col)
  || Str.contains "risk" (Str.lower col).

(** [find_impact_column(df)], on the column labels of [df] in their
    order: the first label that is one of the five names, else the first
    label that looks like one. *)
Definition find_impact_column (columns : list string) : option string :=
  match find (fun col => Str.mem col possible_columns) columns with
  | Some col => Some col
  | None => find likely columns
  end.

(** A value of the impact column, by what [is_critical] and [is_high]
    ask of it. *)
Inductive value : Type :=
| Missing                  (* None or NaN: pd.isna(value) *)
| Text (s : string)        (* a str *)
| Number (x : spec_float)  (* a float, or an int as float(value) gives it *)
| Other.                   (* a Timestamp and the like: float() raises TypeError *)

(** The two functions that [ai_generate_summary] applies to the column. *)
Definition is_critical (v : value) : bool :=
  match v with
  | Missing => false
  | Text s =>
      Str.contains "critical" (Str.lower s) || Str.contains "crit" (Str.lower s)
  | Number x => Float.ge x Float.f9_0
  | Other => false
  end.

Definition is_high (v : value) : bool :=
  match v with
  | Missing => false
  | Text s => Str.contains "high" (Str.lower s)
  | Number x => Float.ge x Float.f7_0 && Float.lt x Float.f9_0
  | Other => false
  end.

(** [df[impact_col].apply(f).sum()] *)
Definition count (f : value -> bool) (column : list value) : nat :=
  List.length (filter f column).

End Processing.

(** ** streamlit_app.py: from the stored frame to a query bot *)

Module Dashboard.

(** [df.rename(columns=mapping)]: a label that is a key of [mapping] is
    replaced, the others stay. *)
Definition rename_label (mapping : list (string * string)) (c : string)
  : string :=
  match find (fun kv => String.eqb (fst kv) c) mapping with
  | Some kv => snd kv
  | None => c
  end.

Definition rename (mapping : list (string * string)) (df : Queries.DataFrame)
  : Queries.DataFrame :=
  {| Queries.columns := map (rename_label mapping) (Queries.columns df);
     Queries.rows :=
       map (map (fun kv => (rename_label mapping (fst kv), snd kv)))
         (Queries.rows df) |}.

Definition nvidia_column_mapping : list (string * string) :=
  [ ("title", "vulnerability");
    ("bulletin_id", "oem_name");
    ("severity", "severity_level");
    ("cve_identifier(s)", "unique_id");
    ("publish_date", "published_date");
    ("last_updated", "last_updated");
    ("url", "url") ].

Definition cisco_column_mapping : list (string * string) :=
  [ ("description", "severity") ].

Section WithLibrary.
Context {L : PyLib}.

(** [str(v)] for the value of a cell, as [Series.astype(str)] applies it. *)
Variable astype_str : cell -> string.

(** [.astype(str).replace("nan", "N/A").replace("", "N/A")] on one value *)
Definition date_text (c : cell) : cell :=
  let s := astype_str c in
  let s := if String.eqb s "nan" then "N/A" else s in
  Str (if String.eqb s "" then "N/A" else s).

(** [if date_col in df.columns: df[date_col] = ...] on the copy *)
Definition dates_as_text (date_col : string) (df : Queries.DataFrame)
  : Queries.DataFrame :=
  if Str.mem date_col (Queries.columns df)
  then {| Queries.columns := Queries.columns df;
          Queries.rows :=
            set_column date_col
              (map (fun r => date_text (col date_col r)) (Queries.rows df))
              (Queries.rows df) |}
  else df.

(** What the "Query" button computes as [result_df] for a non-empty
    [query]: the answer of the bot of the selected OEM on a copy of the
    stored frame, [None] for an OEM without a bot. *)
Definition route (selected_oem query : string)
    (scraped_data : Queries.DataFrame) : option (result Queries.answer) :=
  let df :=
    dates_as_text "last_updated"
      (dates_as_text "published_date" scraped_data) in
  if String.eqb selected_oem "NVIDIA" then
    let df_nvidia := rename nvidia_column_mapping df in
    Some (snd (Queries.query_nvidia_bot query df_nvidia))
  else if String.eqb selected_oem "Palo Alto Networks" then
    Some (Ok (snd (Queries.query_palo_alto_bot query df)))
  else if String.eqb selected_oem "Cisco" then
    let df_cisco := rename cisco_column_mapping df in
    Some (Ok (snd (Queries.query_cisco_bot query df_cisco)))
  else None.

End WithLibrary.

End Dashboard.

(** ** streamlit_app.py: what a scan stores

    The "Start Scan" button takes the frame of the scraper, puts its
    labels in lower case with underscores, names its date column
    "published_date", turns its dates into text, gives every row a
    "severity_level" and keeps the rows whose level is selected in the
    severity filter. *)

Module Scan.

(** [pd.DataFrame(data)] for a list of dicts: the labels are the keys in
    the order in which the rows bring them up. *)
Definition add_label (seen : list string) (k : string) : list string :=
  if Str.mem k seen then seen else seen ++ [k].

Definition labels (t : table) : list string :=
  fold_left (fun seen r => fold_left add_label (map fst r) seen) t [].

Definition frame_of (t : table) : Queries.DataFrame :=
  {| Queries.columns := labels t; Queries.rows := t |}.

Fixpoint underscores (s : string) : string :=
  match s with
  | EmptyString => EmptyString
  | String c r =>
      String (if Ascii.eqb c " " then "_"%char else c) (underscores r)
  end.

(** [df.columns.str.lower().str.replace(" ", "_")] on one label *)
Definition normalize_label (c : string) : string := underscores (Str.lower c).

Definition normalize (df : Queries.DataFrame) : Queries.DataFrame :=
  {| Queries.columns := map normalize_label (Queries.columns df);
     Queries.rows :=
       map (map (fun kv => (normalize_label (fst kv), snd kv)))
         (Queries.rows df) |}.

Definition date_columns : list string :=
  ["date"; "published"; "date_published"; "publication_date"; "release_date";
   "publisheddate"; "issue_date"; "posted_date"; "posted"; "last_modified"].

(** The first label that is one of [date_columns] becomes
    "published_date". *)
Definition rename_date_column (df : Queries.DataFrame) : Queries.DataFrame :=
  match find (fun c => Str.mem c date_columns) (Queries.columns df) with
  | Some found => Dashboard.rename [(found, "published_date")] df
  | None => df
  end.

(** The options of the severity filter; all are selected by default. *)
Definition severity_options : list string :=
  ["N/A"; "Low"; "Medium"; "High"; "Critical"; "Informational"].

Definition severity_cols : list string :=
  ["severity"; "impact"; "description"; "cvss_score"; "severity_rating";
   "base_score"; "cvss_base_score"; "cvss"].

Definition level_words : list string :=
  ["Critical"; "High"; "Medium"; "Low"; "Informational"].

(** [r'(Critical|High|Medium|Low|Informational)'], [re.IGNORECASE] *)
Definition level : Re.pattern :=
  [Re.Open; Re.AltI level_words; Re.Close].

(** [r'CVSS: \d+\.\d+ \((Critical|High|Medium|Low|Informational)\)'],
    [re.IGNORECASE] *)
Definition cvss_level : Re.pattern :=
  [Re.LitI "CVSS: "; Re.Many Re.digit 1 None; Re.LitI ".";
   Re.Many Re.digit 1 None; Re.LitI " ("; Re.Open; Re.AltI level_words;
   Re.Close; Re.LitI ")"].

(** [r'(?:Severity|Rating): (Critical|High|Medium|Low|Informational)'],
    [re.IGNORECASE] *)
Definition labelled_level : Re.pattern :=
  [Re.AltI ["Severity"; "Rating"]; Re.LitI ": "; Re.Open;
   Re.AltI level_words; Re.Close].

(** [r'(?:CVSS: )?(\d+\.\d+)'] *)
Definition cvss_number : Re.pattern :=
  [Re.Opt "CVSS: "; Re.Open; Re.Many Re.digit 1 None; Re.Lit ".";
   Re.Many Re.digit 1 None; Re.Close].

(** [r'(Critical|High|Medium|Low|Informational) \(CVSS \d+\.\d+\)'],
    [re.IGNORECASE] *)
Definition level_cvss : Re.pattern :=
  [Re.Open; Re.AltI level_words; Re.Close; Re.LitI " (CVSS ";
   Re.Many Re.digit 1 None; Re.LitI "."; Re.Many Re.digit 1 None;
   Re.LitI ")"].

(** [Series.str.extract(pat, expand=False)] on one value: the group of
    the first match, NaN ([None]) for a value that is no text or has no
    match. *)
Definition extract (pat : Re.pattern) (c : cell) : option string :=
  match c with
  | Str s => Re.search pat s
  | _ => None
  end.

Definition column (k : string) (df : Queries.DataFrame) : list cell :=
  map (col k) (Queries.rows df).

(** [.notna().any()] *)
Definition notna_any {A : Type} (l : list (option A)) : bool :=
  existsb (fun o => match o with Some _ => true | None => false end) l.

(** The [.str] accessor refuses a column of dates. *)
Definition str_accessor (c : list cell) : result unit :=
  match c with
  | [] => Ok tt
  | _ => if forallb is_datetime c then Raise AttributeError else Ok tt
  end.

Section WithLibrary.
Context {L : PyLib}.

(** [str(v)] for the value of a cell, as [Series.astype(str)] applies it. *)
Variable astype_str : cell -> string.

(** [.astype(float)] on the extracted texts *)
Fixpoint floats (l : list (option string))
  : result (list (option spec_float)) :=
  match l with
  | [] => Ok []
  | None :: r => xs <- floats r ;; Ok (None :: xs)
  | Some s :: r =>
      match float s with
      | Some x => xs <- floats r ;; Ok (Some x :: xs)
      | None => Raise ValueError
      end
  end.

Definition is_number (x : option spec_float) : bool :=
  match x with
  | Some S754_nan => false
  | Some _ => true
  | None => false
  end.

(** [lambda x: 'Critical' if x >= 9.0 else 'High' if x >= 7.0 else
    'Medium' if x >= 4.0 else 'Low' if x > 0 else 'N/A'] *)
Definition level_of_score (x : option spec_float) : string :=
  match x with
  | None => "N/A"
  | Some x =>
      if Float.ge x Float.f9_0 then "Critical"
      else if Float.ge x Float.f7_0 then "High"
      else if Float.ge x Float.f4_0 then "Medium"
      else if Float.lt (S754_zero false) x then "Low"
      else "N/A"
  end.

(** The levels mapped from the CVSS scores of column [k], when a row has
    one. *)
Definition scored (k : string) (df : Queries.DataFrame)
  : result (option (list (option string))) :=
  cvss_scores <- floats (map (extract cvss_number) (column k df)) ;;
  Ok (if existsb is_number cvss_scores
      then Some (map (fun x => Some (level_of_score x)) cvss_scores)
      else None).

(** The branch for NVIDIA; [None] leaves [severity_found] false. *)
Definition nvidia_levels (k : string) (df : Queries.DataFrame)
  : result (option (list (option string))) :=
  _ <- str_accessor (column k df) ;;
  let words := map (extract level) (column k df) in
  if notna_any words then Ok (Some words) else scored k df.

(** [for col in severity_cols: if col in df.columns: ...] *)
Fixpoint generic_levels (selected_oem : string) (cols : list string)
    (df : Queries.DataFrame) : result (option (list (option string))) :=
  match cols with
  | [] => Ok None
  | k :: rest =>
      if negb (Str.mem k (Queries.columns df))
      then generic_levels selected_oem rest df
      else
        _ <- str_accessor (column k df) ;;
        let extracted pat := map (extract pat) (column k df) in
        if notna_any (extracted level) then Ok (Some (extracted level))
        else if notna_any (extracted cvss_level)
        then Ok (Some (extracted cvss_level))
        else if notna_any (extracted labelled_level)
        then Ok (Some (extracted labelled_level))
        else
          found <- scored k df ;;
          match found with
          | Some levels => Ok (Some levels)
          | None =>
              if String.eqb selected_oem "Cisco"
                 && notna_any (extracted level_cvss)
              then Ok (Some (extracted level_cvss))
              else generic_levels selected_oem rest df
          end
  end.

(** The column "severity_level" that is assigned to a frame without
    one. *)
Definition assigned_levels (selected_oem : string) (df : Queries.DataFrame)
  : result (list (option string)) :=
  if String.eqb selected_oem "Dell"
     && Str.mem "description" (Queries.columns df)
  then
    _ <- str_accessor (column "description" df) ;;
    Ok (map (fun o => Some (Str.lower (match o with
                                       | Some s => s
                                       | None => "N/A"
                                       end)))
          (map (extract level) (column "description" df)))
  else
    found <-
      match (if String.eqb selected_oem "NVIDIA"
             then find (fun c => Str.mem c severity_cols) (Queries.columns df)
             else None) with
      | Some k => nvidia_levels k df
      | None => generic_levels selected_oem severity_cols df
      end ;;
    Ok (match found with
        | Some levels => levels
        | None => map (fun _ => Some "N/A") (Queries.rows df)
        end).

(** The value of "severity_level" in each row when the filter is
    applied, [None] for NaN. *)
Definition levels (selected_oem : string) (df : Queries.DataFrame)
  : result (list (option string)) :=
  if Str.mem "severity_level" (Queries.columns df)
  then
    _ <- str_accessor (column "severity_level" df) ;;
    Ok (map (fun c => match c with Str s => Some s | _ => None end)
          (column "severity_level" df))
  else assigned_levels selected_oem df.

(** [df["severity_level"] = df["severity_level"].str.lower()] and
    [df[df["severity_level"].isin(severity_filter_lower)]] *)
Fixpoint kept (selected : list string) (rows : table)
    (levels : list (option string)) : table :=
  match rows, levels with
  | r :: rows', Some l :: levels' =>
      if Str.mem (Str.lower l) selected
      then set_field "severity_level" (Str (Str.lower l)) r
             :: kept selected rows' levels'
      else kept selected rows' levels'
  | _ :: rows', None :: levels' => kept selected rows' levels'
  | _, _ => []
  end.

(** The frame before its severity is looked at: labels normalized, date
    column renamed, dates as text. *)
Definition prepared (scraped : table) : Queries.DataFrame :=
  Dashboard.dates_as_text astype_str "last_updated"
    (Dashboard.dates_as_text astype_str "published_date"
       (rename_date_column (normalize (frame_of scraped)))).

(** The frame that is stored as [st.session_state["scraped_data"]];
    [None] when the scraper returned an empty frame and nothing is
    stored. *)
Definition scan (selected_oem : string) (severity_filter : list string)
    (scraped : table) : result (option Queries.DataFrame) :=
  match scraped, labels scraped with
  | [], _ | _, [] => Ok None
  | _, _ =>
      let df := prepared scraped in
      levels <- levels selected_oem df ;;
      Ok (Some
            {| Queries.columns :=
                 if Str.mem "severity_level" (Queries.columns df)
                 then Queries.columns df
                 else Queries.columns df ++ ["severity_level"];
               Queries.rows :=
                 kept (map Str.lower severity_filter) (Queries.rows df)
                   levels |})
  end.

End WithLibrary.

End Scan.

(** ** Inputs used by the examples below *)

Module Examples.

(** An NVD answer for one CVE with a CVSS 3.1 score. *)
Definition nvd_document : Nvd.pyval :=
  Nvd.PDict
    [("vulnerabilities",
      Nvd.PList
        [Nvd.PDict
           [("cve",
             Nvd.PDict
               [("metrics",
                 Nvd.PDict
                   [("cvssMetricV31",
                     Nvd.PList
                       [Nvd.PDict
                          [("cvssData",
                            Nvd.PDict
                              [("baseScore",
                                Nvd.PFloat
                                  (S754_finite false 5516909543528858 (-49)));
                               ("baseSeverity", Nvd.PStr "CRITICAL")])]])]);
                ("descriptions",
                 Nvd.PList
                   [Nvd.PDict [("lang", Nvd.PStr "en");
                               ("value", Nvd.PStr "Heap overflow.")]])])]])].

Definition answers (doc : Nvd.pyval) : Nvd.network :=
  fun _ => Ok {| Nvd.raise_for_status := Ok tt; Nvd.json := Ok doc |}.

Definition unreachable : Nvd.network := fun _ => Raise RequestException.

Definition rate_limited : Nvd.network :=
  fun _ => Ok {| Nvd.raise_for_status := Raise HTTPError;
                 Nvd.json := Raise ValueError |}.

Definition not_json : Nvd.network :=
  fun _ => Ok {| Nvd.raise_for_status := Ok tt; Nvd.json := Raise ValueError |}.

Definition no_record : Nvd.pyval :=
  Nvd.PDict [("totalResults", Nvd.PInt 0); ("vulnerabilities", Nvd.PList [])].

Definition cell_of (t : string) : td :=
  {| td_text := t; td_a := None; td_divs := [] |}.

(** A row of the Palo Alto advisory table: score, summary link, product
    versions, affected, unaffected, published, updated. *)
Definition pa_tr (score id href published : string) : list td :=
  [ cell_of score;
    {| td_text := id;
       td_a := Some {| a_text := id; a_href := Some href |};
       td_divs := [] |};
    {| td_text := ""; td_a := None; td_divs := ["PAN-OS 11.2"; " 11.2.3 "] |};
    {| td_text := ""; td_a := None; td_divs := ["< 11.2.3"] |};
    {| td_text := ""; td_a := None; td_divs := [">= 11.2.3"] |};
    cell_of published;
    cell_of published ].

(** A frame as the dashboard stores it for Cisco after a scan. *)
Definition cisco_row (title updated level : string) : record :=
  [ ("oem_name", Str "Cisco");
    ("vulnerability", Str title);
    ("severity", Str level);
    ("url", Str "https://sec.cloudapps.cisco.com/security/center/x");
    ("last_updated", Str updated);
    ("severity_level", Str level) ].

Definition cisco_columns : list string :=
  ["oem_name"; "vulnerability"; "severity"; "url"; "last_updated";
   "severity_level"].

Definition cisco_df : Queries.DataFrame :=
  {| Queries.columns := cisco_columns;
     Queries.rows :=
       [ cisco_row "SD-WAN Manager Arbitrary File Overwrite" "2025-05-08" "medium";
         cisco_row "Erlang/OTP SSH Server Remote Code Execution" "2025-05-07" "critical";
         cisco_row "IOS XE Wireless Controller File Upload" "2025-05-07" "critical";
         cisco_row "IOS XE Software TWAMP Denial of Service" "N/A" "high" ] |}.

(** The raw Cisco frame: no [severity], no [severity_level]. *)
Definition raw_cisco_df : Queries.DataFrame :=
  {| Queries.columns := ["oem_name"; "vulnerability"; "description"; "url";
                         "last_updated"];
     Queries.rows :=
       [ [ ("oem_name", Str "Cisco");
           ("vulnerability", Str "SD-WAN Manager Arbitrary File Overwrite");
           ("description", Str "Medium");
           ("url", Str "https://sec.cloudapps.cisco.com/security/center/x");
           ("last_updated", Str "2025-05-08") ] ] |}.

(** Three harvested Palo Alto rows; the third repeats the identifier of
    the first. *)
Definition pa_rows : list (list td) :=
  [ pa_tr "8.8" "CVE-2025-0128" "/CVE-2025-0128" "2025-04-09";
    pa_tr "I" "PAN-SA-2025-0008" "/PAN-SA-2025-0008" "2025-04-10";
    pa_tr "5.1" "CVE-2025-0128" "/CVE-2025-0128-rev" "2025-04-11" ].

Definition pa_data : table :=
  fst (PaloAlto.process (L := Ref.lib) pa_rows []).

(** The NVIDIA frame of the bot, with the dates as the page prints them. *)
Definition nvidia_row (title published : string) : record :=
  [ ("title", Str title);
    ("bulletin_id", Str "5648");
    ("severity", Str "High");
    ("cve_identifier(s)", Str "CVE-2025-23254");
    ("publish_date", Str published);
    ("last_updated", Str published);
    ("url", Str "https://nvidia.custhelp.com/app/answers/detail/a_id/5648");
    ("severity_level", Str "high") ].

Definition nvidia_df : Queries.DataFrame :=
  {| Queries.columns :=
       ["title"; "bulletin_id"; "severity"; "cve_identifier(s)";
        "publish_date"; "last_updated"; "url"; "severity_level"];
     Queries.rows :=
       [ nvidia_row "TensorRT LLM" "29 Apr 2025";
         nvidia_row "GPU Display Driver" "03 May 2025";
         nvidia_row "NeMo" "N/A" ] |}.

(** A page of eighteen Palo Alto advisories; the second and the third
    row carry the same identifier, with different links. *)
Definition pa_eighteen : list (list td) :=
  [ pa_tr "5.0" "CVE-2025-0001" "/CVE-2025-0001" "2025-01-01";
    pa_tr "9.1" "CVE-2025-0020" "/CVE-2025-0020" "2025-01-02";
    pa_tr "4.2" "CVE-2025-0020" "/CVE-2025-0020-duplicate" "2025-01-03";
    pa_tr "5.0" "CVE-2025-0002" "/CVE-2025-0002" "2025-01-04";
    pa_tr "5.0" "CVE-2025-0003" "/CVE-2025-0003" "2025-01-05";
    pa_tr "5.0" "CVE-2025-0004" "/CVE-2025-0004" "2025-01-06";
    pa_tr "5.0" "CVE-2025-0005" "/CVE-2025-0005" "2025-01-07";
    pa_tr "5.0" "CVE-2025-0006" "/CVE-2025-0006" "2025-01-08";
    pa_tr "5.0" "CVE-2025-0010" "/CVE-2025-0010" "2025-01-09";
    pa_tr "5.0" "CVE-2025-0011" "/CVE-2025-0011" "2025-01-10";
    pa_tr "5.0" "CVE-2025-0012" "/CVE-2025-0012" "2025-01-11";
    pa_tr "5.0" "CVE-2025-0013" "/CVE-2025-0013" "2025-01-12";
    pa_tr "5.0" "CVE-2025-0014" "/CVE-2025-0014" "2025-01-13";
    pa_tr "5.0" "CVE-2025-0015" "/CVE-2025-0015" "2025-01-14";
    pa_tr "5.0" "CVE-2025-0008" "/CVE-2025-0008" "2025-01-15";
    pa_tr "5.0" "CVE-2025-0007" "/CVE-2025-0007" "2025-01-16";
    pa_tr "5.0" "CVE-2025-0030" "/CVE-2025-0030" "2025-01-17";
    pa_tr "5.0" "CVE-2025-0040" "/CVE-2025-0040" "2025-01-18" ].

Definition pa_eighteen_data : table :=
  fst (PaloAlto.process (L := Numpy.lib) pa_eighteen []).

(** Browsers for single runs. *)
Definition pa_page : PaloAlto.browser :=
  {| PaloAlto.chrome := Ok tt; PaloAlto.get := Ok tt;
     PaloAlto.wait_table := Ok tt; PaloAlto.find_table := Ok true;
     PaloAlto.scroll := Ok tt;
     PaloAlto.wait_rows := Ok tt; PaloAlto.find_rows := Ok true;
     PaloAlto.diagnostics := Ok tt;
     PaloAlto.soup := Some [pa_rows];
     PaloAlto.to_csv := Ok tt |}.

Definition pa_timeout : PaloAlto.browser :=
  {| PaloAlto.chrome := Ok tt; PaloAlto.get := Ok tt;
     PaloAlto.wait_table := Raise TimeoutException;
     PaloAlto.find_table := Ok false;
     PaloAlto.scroll := Ok tt;
     PaloAlto.wait_rows := Ok tt; PaloAlto.find_rows := Ok true;
     PaloAlto.diagnostics := Ok tt;
     PaloAlto.soup := Some [pa_rows];
     PaloAlto.to_csv := Ok tt |}.

Definition nvidia_cells (name severity : string) : Nvidia.tr :=
  Nvidia.Cells
    {| Nvidia.title := name;
       Nvidia.href := Some "https://nvidia.custhelp.com/app/answers/detail/a_id/5648";
       Nvidia.bulletin := "5648";
       Nvidia.severity_data := None;
       Nvidia.severity_text := severity;
       Nvidia.cve := "CVE-2025-23254";
       Nvidia.publish := "29 Apr 2025 - Updated";
       Nvidia.updated := "29 Apr 2025" |}.

Definition nvidia_page : Nvidia.browser :=
  {| Nvidia.setup_driver := Ok tt; Nvidia.get := Ok tt;
     Nvidia.wait_body := Ok tt; Nvidia.wait_table := Ok tt;
     Nvidia.find_rows := fun _ =>
       Ok [ nvidia_cells "TensorRT LLM" "High";
            nvidia_cells "Jetson Linux" "NVIDIA products are not affected";
            nvidia_cells "NeMo" "Severe" ] |}.

Definition nvidia_timeout : Nvidia.browser :=
  {| Nvidia.setup_driver := Ok tt; Nvidia.get := Ok tt;
     Nvidia.wait_body := Ok tt;
     Nvidia.wait_table := Raise TimeoutException;
     Nvidia.find_rows := fun _ => Raise NoSuchElementException |}.


Definition adobe_timeout : Adobe.browser :=
  {| Adobe.chrome := Ok tt; Adobe.get := Ok tt;
     Adobe.wait := Raise TimeoutException;
     Adobe.save_page := Ok tt;
     Adobe.acrobat := Raise NoSuchElementException;
     Adobe.h4_headers := Ok [] |}.

Definition intel_tr (title id : string) : list td :=
  [ {| td_text := title;
       td_a := Some {| a_text := title;
                       a_href := Some "/content/www/us/en/security-center/x.html" |};
       td_divs := [] |};
    cell_of id; cell_of "May 13, 2025"; cell_of "May 13, 2025" ].

(** Two advisories that name the same CVE first. *)
Definition intel_page : Intel.browser :=
  {| Intel.setup_driver := Ok tt; Intel.set_user_agent := Ok tt;
     Intel.get := Ok tt; Intel.wait_body := Ok tt;
     Intel.view_all := Raise TimeoutException;
     Intel.wait_ready := Ok tt;
     Intel.rows :=
       [ intel_tr "Graphics Driver Advisory" "CVE-2025-20001 CVE-2025-20002";
         intel_tr "Graphics Software Advisory" "CVE-2025-20001";
         intel_tr "Tiber Edge Platform Advisory" "INTEL-SA-01239" ] |}.

Definition intel_timeout : Intel.browser :=
  {| Intel.setup_driver := Ok tt; Intel.set_user_agent := Ok tt;
     Intel.get := Ok tt; Intel.wait_body := Raise TimeoutException;
     Intel.view_all := Ok tt; Intel.wait_ready := Ok tt;
     Intel.rows := [] |}.

Definition dell_tr (title ids : string) : list Dell.cell_div :=
  let empty := {| Dell.badge := None; Dell.link := None;
                  Dell.type_span := None; Dell.cve_span := None;
                  Dell.named_div := None |} in
  [ {| Dell.badge := Some "Critical"; Dell.link := None;
       Dell.type_span := None; Dell.cve_span := None;
       Dell.named_div := None |};
    {| Dell.badge := None;
       Dell.link := Some {| a_text := title; a_href := Some "/support/kbdoc/x" |};
       Dell.type_span := None; Dell.cve_span := None;
       Dell.named_div := None |};
    empty;
    {| Dell.badge := None; Dell.link := None; Dell.type_span := None;
       Dell.cve_span := Some ids; Dell.named_div := None |};
    {| Dell.badge := None; Dell.link := None; Dell.type_span := None;
       Dell.cve_span := None; Dell.named_div := Some "MAY 08 2025" |};
    {| Dell.badge := None; Dell.link := None; Dell.type_span := None;
       Dell.cve_span := None; Dell.named_div := Some "MAY 09 2025" |} ].

Definition dell_page : Dell.browser :=
  {| Dell.chrome := Ok tt; Dell.get := Ok tt; Dell.select_100 := Ok tt;
     Dell.rows := [ dell_tr "DSA-2025-190" "CVE-2025-26465, CVE-2025-26466";
                    dell_tr "DSA-2025-191" "Proprietary Code CVE" ] |}.

Definition dell_no_select : Dell.browser :=
  {| Dell.chrome := Ok tt; Dell.get := Ok tt;
     Dell.select_100 := Raise NoSuchElementException;
     Dell.rows := [] |}.

Definition cisco_tr : Cisco.tr :=
  {| Cisco.advisory :=
       Ok ("Cisco IOS XE Software TWAMP Denial of Service Vulnerability",
           Some "https://sec.cloudapps.cisco.com/security/center/content/x");
     Cisco.impact := Ok "High";
     Cisco.cve := Ok "CVE-2025-20154";
     Cisco.last_updated := Ok ("2025 May 07", Ok "2025 May 07");
     Cisco.version := Ok "1.0" |}.

(** A listing that shows 101 advisories. *)
Definition cisco_page : Cisco.browser :=
  {| Cisco.setup_driver := Ok tt; Cisco.set_user_agent := Ok tt;
     Cisco.get := Ok tt; Cisco.wait_rows := Ok tt;
     Cisco.rows := Ok (repeat cisco_tr 101) |}.

Definition cisco_timeout : Cisco.browser :=
  {| Cisco.setup_driver := Ok tt; Cisco.set_user_agent := Ok tt;
     Cisco.get := Ok tt; Cisco.wait_rows := Raise TimeoutException;
     Cisco.rows := Ok [] |}.

(** Two Palo Alto advisories, the older one on top. *)
Definition pa_two_rows : PaloAlto.browser :=
  {| PaloAlto.chrome := Ok tt; PaloAlto.get := Ok tt;
     PaloAlto.wait_table := Ok tt; PaloAlto.find_table := Ok true;
     PaloAlto.scroll := Ok tt;
     PaloAlto.wait_rows := Ok tt; PaloAlto.find_rows := Ok true;
     PaloAlto.diagnostics := Ok tt;
     PaloAlto.soup :=
       Some [[ pa_tr "8.8" "CVE-2025-0128" "/CVE-2025-0128" "2025-04-09";
               pa_tr "I" "PAN-SA-2025-0008" "/PAN-SA-2025-0008" "2025-04-10" ]];
     PaloAlto.to_csv := Ok tt |}.

(** An Intel listing with a title link that has no [href]. *)
Definition intel_no_href : Intel.browser :=
  {| Intel.setup_driver := Ok tt; Intel.set_user_agent := Ok tt;
     Intel.get := Ok tt; Intel.wait_body := Ok tt;
     Intel.view_all := Ok tt; Intel.wait_ready := Ok tt;
     Intel.rows :=
       [ [ {| td_text := "Graphics Driver Advisory";
              td_a := Some {| a_text := "Graphics Driver Advisory";
                              a_href := None |};
              td_divs := [] |};
           cell_of "INTEL-SA-01253"; cell_of "May 13, 2025";
           cell_of "May 13, 2025" ] ] |}.

End Examples.

(** ** Further inputs *)

Module Pages.

Definition nvidia_cells (name severity : string) : Nvidia.cells :=
  {| Nvidia.title := name;
     Nvidia.href := Some "https://nvidia.custhelp.com/app/answers/detail/a_id/5648";
     Nvidia.bulletin := "5648";
     Nvidia.severity_data := None;
     Nvidia.severity_text := severity;
     Nvidia.cve := "CVE-2025-23254";
     Nvidia.publish := "29 Apr 2025 - Updated";
     Nvidia.updated := "29 Apr 2025" |}.

Definition tensorrt : Nvidia.cells := nvidia_cells "TensorRT LLM" "High".
Definition nemo : Nvidia.cells := nvidia_cells "NeMo" "Medium".

(** The second row of the table goes stale while the first attempt reads
    it; the second attempt reads the same two rows without trouble. *)
Definition nvidia_stale : Nvidia.browser :=
  {| Nvidia.setup_driver := Ok tt; Nvidia.get := Ok tt;
     Nvidia.wait_body := Ok tt; Nvidia.wait_table := Ok tt;
     Nvidia.find_rows := fun attempt =>
       match attempt with
       | 0 => Ok [ Nvidia.Cells tensorrt;
                   Nvidia.Broken StaleElementReferenceException;
                   Nvidia.Cells nemo ]
       | _ => Ok [ Nvidia.Cells tensorrt; Nvidia.Cells nemo ]
       end |}.

(** The second row has no link in its first cell. *)
Definition nvidia_no_link : Nvidia.browser :=
  {| Nvidia.setup_driver := Ok tt; Nvidia.get := Ok tt;
     Nvidia.wait_body := Ok tt; Nvidia.wait_table := Ok tt;
     Nvidia.find_rows := fun _ =>
       Ok [ Nvidia.Cells tensorrt;
            Nvidia.Broken NoSuchElementException;
            Nvidia.Cells nemo ] |}.

(** A Palo Alto row whose summary link has no [href]. *)
Definition pa_tr_no_href (score id published : string) : list td :=
  [ Examples.cell_of score;
    {| td_text := id;
       td_a := Some {| a_text := id; a_href := None |};
       td_divs := [] |};
    {| td_text := ""; td_a := None; td_divs := ["PAN-OS 11.2"] |};
    {| td_text := ""; td_a := None; td_divs := [] |};
    {| td_text := ""; td_a := None; td_divs := [] |};
    Examples.cell_of published;
    Examples.cell_of published ].

Definition pa_with (rows : list (list td)) (to_csv : result unit)
  : PaloAlto.browser :=
  {| PaloAlto.chrome := Ok tt; PaloAlto.get := Ok tt;
     PaloAlto.wait_table := Ok tt; PaloAlto.find_table := Ok true;
     PaloAlto.scroll := Ok tt;
     PaloAlto.wait_rows := Ok tt; PaloAlto.find_rows := Ok true;
     PaloAlto.diagnostics := Ok tt;
     PaloAlto.soup := Some [rows];
     PaloAlto.to_csv := to_csv |}.

Definition pa_bad_link_rows : list (list td) :=
  [ Examples.pa_tr "8.8" "CVE-2025-0128" "/CVE-2025-0128" "2025-04-09";
    Examples.pa_tr "5.1" "CVE-2025-0128" "/CVE-2025-0128-rev" "2025-04-11";
    [Examples.cell_of "a header row"];
    pa_tr_no_href "7.5" "CVE-2025-0130" "2025-04-12";
    Examples.pa_tr "I" "PAN-SA-2025-0008" "/PAN-SA-2025-0008" "2025-04-10" ].

(** A Dell listing whose second row has a title link without [href]. *)
Definition dell_tr_no_href (title ids : string) : list Dell.cell_div :=
  match Examples.dell_tr title ids with
  | c0 :: c1 :: rest =>
      c0 :: {| Dell.badge := Dell.badge c1;
               Dell.link := Some {| a_text := title; a_href := None |};
               Dell.type_span := Dell.type_span c1;
               Dell.cve_span := Dell.cve_span c1;
               Dell.named_div := Dell.named_div c1 |} :: rest
  | short => short
  end.

Definition dell_no_href : Dell.browser :=
  {| Dell.chrome := Ok tt; Dell.get := Ok tt; Dell.select_100 := Ok tt;
     Dell.rows := [ Examples.dell_tr "DSA-2025-190" "CVE-2025-26465";
                    dell_tr_no_href "DSA-2025-191" "CVE-2025-26466" ] |}.

(** A Cisco row of which Selenium can read nothing but the impact. *)
Definition cisco_unreadable : Cisco.tr :=
  {| Cisco.advisory := Raise NoSuchElementException;
     Cisco.impact := Ok " Critical ";
     Cisco.cve := Raise NoSuchElementException;
     Cisco.last_updated := Raise StaleElementReferenceException;
     Cisco.version := Raise NoSuchElementException |}.

Definition cisco_two_rows : Cisco.browser :=
  {| Cisco.setup_driver := Ok tt; Cisco.set_user_agent := Ok tt;
     Cisco.get := Ok tt; Cisco.wait_rows := Ok tt;
     Cisco.rows := Ok [Examples.cisco_tr; cisco_unreadable] |}.

(** An Adobe page: the second row of the Acrobat table goes stale, the
    first [<h4>] has no table after it, the second has one. *)
Definition adobe_sections : Adobe.browser :=
  {| Adobe.chrome := Ok tt; Adobe.get := Ok tt; Adobe.wait := Ok tt;
     Adobe.save_page := Ok tt;
     Adobe.acrobat := Ok [ Ok ["APSB25-14"; "03/11/2025"; "03/11/2025"];
                           Raise StaleElementReferenceException;
                           Ok ["APSB25-01"; "01/14/2025"; "01/14/2025"] ];
     Adobe.h4_headers :=
       Ok [ {| Adobe.text := Ok "Adobe Genuine Service";
               Adobe.rows := Raise NoSuchElementException |};
            {| Adobe.text := Ok " Adobe Commerce ";
               Adobe.rows := Ok [Ok ["APSB25-08"; "02/11/2025"; "02/11/2025"]] |} ] |}.

(** NVD answers: a record without CVSS 3.1 metrics, and one whose list of
    CVSS 3.1 metrics is empty. *)
Definition nvd_cve (metrics : list (string * Nvd.pyval)) : Nvd.pyval :=
  Nvd.PDict
    [("vulnerabilities",
      Nvd.PList
        [Nvd.PDict
           [("cve",
             Nvd.PDict
               [("metrics", Nvd.PDict metrics);
                ("descriptions",
                 Nvd.PList
                   [Nvd.PDict [("lang", Nvd.PStr "en");
                               ("value", Nvd.PStr "Heap overflow.")];
                    Nvd.PDict [("lang", Nvd.PStr "en");
                               ("value",
                                Nvd.PStr "Mitigation: disable the service.")]])])]])].

Definition nvd_v2_only : Nvd.pyval :=
  nvd_cve [("cvssMetricV2", Nvd.PList [Nvd.PDict []])].

Definition nvd_empty_v31 : Nvd.pyval :=
  nvd_cve [("cvssMetricV31", Nvd.PList [])].

Definition nvd_v31 : Nvd.pyval :=
  nvd_cve [("cvssMetricV31",
            Nvd.PList
              [Nvd.PDict
                 [("cvssData",
                   Nvd.PDict [("baseSeverity", Nvd.PStr "HIGH")])]])].

(** A rendering of cells for the examples, which do not read dates:
    a text as it is, a parsed date not spelled out. *)
Definition cell_text (c : cell) : string :=
  match c with
  | Str s => s
  | Timestamp _ => "NaT"
  | NaT => "NaT"
  | PyNone => "None"
  end.

(** A Cisco listing whose second row has no readable impact cell. *)
Definition cisco_no_impact : Cisco.tr :=
  {| Cisco.advisory := Ok ("Cisco IOS XR Software Advisory", Some "https://sec.cloudapps.cisco.com/y");
     Cisco.impact := Raise NoSuchElementException;
     Cisco.cve := Ok "CVE-2025-20155";
     Cisco.last_updated := Ok ("2025 May 06", Ok "2025 May 06");
     Cisco.version := Ok "1.0" |}.

Definition cisco_mixed : Cisco.browser :=
  {| Cisco.setup_driver := Ok tt; Cisco.set_user_agent := Ok tt;
     Cisco.get := Ok tt; Cisco.wait_rows := Ok tt;
     Cisco.rows := Ok [Examples.cisco_tr; cisco_no_impact] |}.

(** A frame for the NVIDIA bot with four advisories published on
    2025-05-08, 2025-05-07, 2025-05-07 and at an unknown date. *)
Definition nvidia_dated_df : Queries.DataFrame :=
  {| Queries.columns := Queries.columns Examples.nvidia_df;
     Queries.rows :=
       [ Examples.nvidia_row "TensorRT LLM" "2025-05-08";
         Examples.nvidia_row "GPU Display Driver" "2025-05-07";
         Examples.nvidia_row "NeMo" "2025-05-07";
         Examples.nvidia_row "Jetson Linux" "N/A" ] |}.

(** A text that ends in the three decimal digits of [n]. *)
Definition numbered (text : string) (n : nat) : string :=
  let digit k := ascii_of_nat (48 + k mod 10) in
  (text ++ String (digit (n / 100))
             (String (digit (n / 10)) (String (digit n) "")))%string.

(** An Intel listing of 103 advisories; the seventh row has two cells. *)
Definition intel_long : Intel.browser :=
  {| Intel.setup_driver := Ok tt; Intel.set_user_agent := Ok tt;
     Intel.get := Ok tt; Intel.wait_body := Ok tt;
     Intel.view_all := Ok tt; Intel.wait_ready := Ok tt;
     Intel.rows :=
       map (fun n =>
              if n =? 7 then [Examples.cell_of "Show more"; Examples.cell_of ""]
              else Examples.intel_tr (numbered "Advisory " n)
                     (numbered "INTEL-SA-01" n))
         (seq 1 103) |}.

(** A Dell listing of 102 advisories. *)
Definition dell_long : Dell.browser :=
  {| Dell.chrome := Ok tt; Dell.get := Ok tt; Dell.select_100 := Ok tt;
     Dell.rows :=
       map (fun n => Examples.dell_tr (numbered "DSA-2025-" n)
                       "Proprietary Code CVE")
         (seq 1 102) |}.

(** A Cisco listing of 101 advisories, each with its own title. *)
Definition cisco_long : Cisco.browser :=
  {| Cisco.setup_driver := Ok tt; Cisco.set_user_agent := Ok tt;
     Cisco.get := Ok tt; Cisco.wait_rows := Ok tt;
     Cisco.rows :=
       Ok (map (fun n =>
                  {| Cisco.advisory :=
                       Ok (numbered "Cisco Advisory " n,
                           Some "https://sec.cloudapps.cisco.com/x");
                     Cisco.impact := Ok "High";
                     Cisco.cve := Ok "CVE-2025-20154";
                     Cisco.last_updated := Ok ("2025 May 07", Ok "2025 May 07");
                     Cisco.version := Ok "1.0" |})
             (seq 1 101)) |}.

(** An NVIDIA table of 101 bulletins; the fourth row has too few cells. *)
Definition nvidia_long : Nvidia.browser :=
  {| Nvidia.setup_driver := Ok tt; Nvidia.get := Ok tt;
     Nvidia.wait_body := Ok tt; Nvidia.wait_table := Ok tt;
     Nvidia.find_rows := fun _ =>
       Ok (map (fun n =>
                  if n =? 4 then Nvidia.Short
                  else Nvidia.Cells (nvidia_cells (numbered "Bulletin " n) "High"))
             (seq 1 102)) |}.

(** An Adobe page whose Acrobat table has 101 bulletins, followed by one
    section. *)
Definition adobe_long : Adobe.browser :=
  {| Adobe.chrome := Ok tt; Adobe.get := Ok tt; Adobe.wait := Ok tt;
     Adobe.save_page := Ok tt;
     Adobe.acrobat :=
       Ok (map (fun n => Ok [numbered "APSB25-" n; "03/11/2025"; "03/11/2025"])
             (seq 1 101));
     Adobe.h4_headers :=
       Ok [ {| Adobe.text := Ok " Adobe Commerce ";
               Adobe.rows := Ok [Ok ["APSB25-908"; "02/11/2025"; "02/11/2025"];
                                 Ok ["broken"]] |} ] |}.

(** A Palo Alto listing of 101 advisories. *)
Definition pa_long : PaloAlto.browser :=
  pa_with (map (fun n => Examples.pa_tr "5.0" (numbered "CVE-2025-0" n)
                           (numbered "/CVE-2025-0" n) "2025-04-09")
             (seq 1 101)) (Ok tt).

End Pages.

(** * Properties *)

(** ** The enrichment client *)

Example fetch_nvd_data_critical :
  Nvd.fetch_nvd_data "key" (Examples.answers Examples.nvd_document)
    "CVE-2025-23254"
  = Ok {| Nvd.cvss_score := Nvd.PFloat (S754_finite false 5516909543528858 (-49));
          Nvd.severity_level := Nvd.PStr "CRITICAL";
          Nvd.mitigation_strategy := Nvd.PStr "N/A" |}.
Proof. reflexivity. Qed.

Lemma fetch_nvd_data_total (key : string) (net : Nvd.network) (cve_id : string) :
  exists d, Nvd.fetch_nvd_data key net cve_id = Ok d.
Proof.
  unfold Nvd.fetch_nvd_data.
  destruct (String.eqb key "").
  - now exists Nvd.unknown.
  - destruct (Nvd.fetch_body net cve_id) as [d | e]; simpl.
    + now exists d.
    + now exists Nvd.unknown.
Qed.

Lemma fetch_nvd_data_unknown_on_raise key net cve_id e :
  Nvd.fetch_body net cve_id = Raise e ->
  Nvd.fetch_nvd_data key net cve_id = Ok Nvd.unknown.
Proof.
  intros H. unfold Nvd.fetch_nvd_data. rewrite H.
  now destruct (String.eqb key "").
Qed.

(** C4. The lookup never raises: it always returns a dict.  Without an
    API key, on a network error, on an HTTP error status (a rate limit),
    on a body that is not JSON and on an answer without a record, the dict
    is the triple of "N/A": score, severity level and mitigation unknown. *)
Theorem fetch_nvd_data_fails_soft :
  forall (key : string) (net : Nvd.network) (cve_id : string),
    (exists d, Nvd.fetch_nvd_data key net cve_id = Ok d) /\
    (key = "" -> Nvd.fetch_nvd_data key net cve_id = Ok Nvd.unknown) /\
    (forall e, net (Nvd.nvd_url cve_id) = Raise e ->
       Nvd.fetch_nvd_data key net cve_id = Ok Nvd.unknown) /\
    (forall r, net (Nvd.nvd_url cve_id) = Ok r ->
       (forall e, Nvd.raise_for_status r = Raise e ->
          Nvd.fetch_nvd_data key net cve_id = Ok Nvd.unknown) /\
       (forall e, Nvd.raise_for_status r = Ok tt -> Nvd.json r = Raise e ->
          Nvd.fetch_nvd_data key net cve_id = Ok Nvd.unknown) /\
       (forall d, Nvd.raise_for_status r = Ok tt ->
          Nvd.json r = Ok (Nvd.PDict d) ->
          Nvd.lookup "vulnerabilities" d = None \/
          Nvd.lookup "vulnerabilities" d = Some (Nvd.PList []) ->
          Nvd.fetch_nvd_data key net cve_id = Ok Nvd.unknown)).
Proof.
  intros key net cve_id.
  split; [apply fetch_nvd_data_total|].
  split.
  { intros ->. reflexivity. }
  split.
  { intros e He. apply fetch_nvd_data_unknown_on_raise with (e := e).
    unfold Nvd.fetch_body. now rewrite He. }
  intros r Hr. repeat split.
  - intros e He. apply fetch_nvd_data_unknown_on_raise with (e := e).
    unfold Nvd.fetch_body. rewrite Hr. simpl. now rewrite He.
  - intros e Hs He. apply fetch_nvd_data_unknown_on_raise with (e := e).
    unfold Nvd.fetch_body. rewrite Hr. simpl. rewrite Hs. simpl. now rewrite He.
  - intros d Hs Hj Habsent.
    unfold Nvd.fetch_nvd_data, Nvd.fetch_body.
    rewrite Hr. simpl. rewrite Hs. simpl. rewrite Hj. simpl.
    destruct Habsent as [H | H]; rewrite H; simpl;
      now destruct (String.eqb key "").
Qed.

Lemma fetch_nvd_data_fails_soft_witness :
  Nvd.fetch_nvd_data "" Examples.unreachable "CVE-2025-0128" = Ok Nvd.unknown /\
  Nvd.fetch_nvd_data "key" Examples.unreachable "CVE-2025-0128" = Ok Nvd.unknown /\
  Nvd.fetch_nvd_data "key" Examples.rate_limited "CVE-2025-0128" = Ok Nvd.unknown /\
  Nvd.fetch_nvd_data "key" Examples.not_json "CVE-2025-0128" = Ok Nvd.unknown /\
  Nvd.fetch_nvd_data "key" (Examples.answers Examples.no_record) "CVE-2025-0128"
  = Ok Nvd.unknown.
Proof.
  split.
  { destruct (fetch_nvd_data_fails_soft "" Examples.unreachable "CVE-2025-0128")
      as (_ & H & _).
    apply H. reflexivity. }
  split.
  { destruct (fetch_nvd_data_fails_soft "key" Examples.unreachable "CVE-2025-0128")
      as (_ & _ & H & _).
    apply (H RequestException). reflexivity. }
  split.
  { destruct (fetch_nvd_data_fails_soft "key" Examples.rate_limited "CVE-2025-0128")
      as (_ & _ & _ & H).
    destruct (H _ eq_refl) as (H1 & _).
    apply (H1 HTTPError). reflexivity. }
  split.
  { destruct (fetch_nvd_data_fails_soft "key" Examples.not_json "CVE-2025-0128")
      as (_ & _ & _ & H).
    destruct (H _ eq_refl) as (_ & H2 & _).
    apply (H2 ValueError); reflexivity. }
  destruct (fetch_nvd_data_fails_soft "key" (Examples.answers Examples.no_record)
              "CVE-2025-0128") as (_ & _ & _ & H).
  destruct (H _ eq_refl) as (_ & _ & H3).
  apply (H3 [("totalResults", Nvd.PInt 0); ("vulnerabilities", Nvd.PList [])]).
  - reflexivity.
  - reflexivity.
  - right. reflexivity.
Defined.

(** ** Palo Alto: severity from the CVSS score *)

Lemma finite_compare_Lt (mx : positive) (ex : Z) (my : positive) (ey : Z) :
  SFcompare (S754_finite false mx ex) (S754_finite false my ey) = Some Lt
  <-> (ex < ey)%Z \/ (ex = ey /\ (mx < my)%positive).
Proof.
  simpl. change (Pos.compare_cont Eq mx my) with (Pos.compare mx my).
  destruct (ex ?= ey)%Z eqn:E.
  - apply Z.compare_eq in E. subst ey.
    destruct (mx ?= my)%positive eqn:Em.
    + apply Pos.compare_eq in Em. subst. split; [discriminate | lia].
    + apply Pos.compare_lt_iff in Em. split; auto.
    + apply Pos.compare_gt_iff in Em. split; [discriminate | lia].
  - apply Z.compare_lt_iff in E. split; auto.
  - apply Z.compare_gt_iff in E. split; [discriminate | lia].
Qed.

Lemma finite_compare_Gt (mx : positive) (ex : Z) (my : positive) (ey : Z) :
  (ey < ex)%Z \/ (ex = ey /\ (my < mx)%positive) ->
  SFcompare (S754_finite false mx ex) (S754_finite false my ey) = Some Gt.
Proof.
  simpl. change (Pos.compare_cont Eq mx my) with (Pos.compare mx my).
  intros [H | [-> H]].
  - apply Z.compare_gt_iff in H. now rewrite H.
  - rewrite Z.compare_refl. apply Pos.compare_gt_iff in H. now rewrite H.
Qed.

Lemma SFcompare_Lt_Gt (x y : spec_float) :
  SFcompare x y = Some Lt -> SFcompare y x = Some Gt.
Proof.
  destruct x as [sx | sx | | sx mx ex], y as [sy | sy | | sy my ey];
    try (simpl; discriminate);
    try (destruct sx; try destruct sy; simpl; congruence).
  destruct sx, sy; try (simpl; congruence).
  - simpl. change (Pos.compare_cont Eq mx my) with (Pos.compare mx my).
    change (Pos.compare_cont Eq my mx) with (Pos.compare my mx).
    rewrite (Z.compare_antisym ex ey), (Pos.compare_antisym mx my).
    destruct (ex ?= ey)%Z; simpl; try congruence.
    destruct (mx ?= my)%positive; simpl; congruence.
  - intros H. apply finite_compare_Lt in H. apply finite_compare_Gt. lia.
Qed.

Lemma SFcompare_Lt_trans (x : spec_float) (my : positive) (ey : Z)
    (mz : positive) (ez : Z) :
  SFcompare x (S754_finite false my ey) = Some Lt ->
  SFcompare (S754_finite false my ey) (S754_finite false mz ez) = Some Lt ->
  SFcompare x (S754_finite false mz ez) = Some Lt.
Proof.
  intros Hxy Hyz.
  destruct x as [sx | sx | | sx mx ex]; try (simpl in *; discriminate);
    try (destruct sx; simpl in *; congruence).
  destruct sx; [reflexivity|].
  apply finite_compare_Lt in Hxy, Hyz. apply finite_compare_Lt. lia.
Qed.

Lemma float_lt_not_ge (s x : spec_float) :
  Float.lt s x = true -> Float.ge s x = false.
Proof.
  unfold Float.lt, Float.ge, SFltb, SFleb. intros H.
  destruct (SFcompare s x) as [[ | | ] | ] eqn:E; try discriminate.
  now rewrite (SFcompare_Lt_Gt _ _ E).
Qed.

Lemma float_lt_trans (s : spec_float) (my : positive) (ey : Z)
    (mz : positive) (ez : Z) :
  Float.lt s (S754_finite false my ey) = true ->
  Float.lt (S754_finite false my ey) (S754_finite false mz ez) = true ->
  Float.lt s (S754_finite false mz ez) = true.
Proof.
  unfold Float.lt, SFltb. intros H1 H2.
  destruct (SFcompare s _) as [[ | | ] | ] eqn:E1 in H1; try discriminate.
  destruct (SFcompare (S754_finite false my ey) _) as [[ | | ] | ] eqn:E2 in H2;
    try discriminate.
  now rewrite (SFcompare_Lt_trans _ _ _ _ _ E1 E2).
Qed.

Lemma lower_ascii_i (c : ascii) :
  Str.lower_ascii c = "i"%char -> c = "I"%char \/ c = "i"%char.
Proof.
  destruct c as [[] [] [] [] [] [] [] []]; vm_compute; intros H;
    try discriminate; auto.
Qed.

Lemma lower_is_i (s : string) :
  Str.lower s = "i" <-> s = "I" \/ s = "i".
Proof.
  split.
  - destruct s as [ | c [ | c' r]]; simpl; try discriminate.
    intros H. injection H as H.
    destruct (lower_ascii_i c H) as [-> | ->]; auto.
  - intros [-> | ->]; reflexivity.
Qed.

(** C2. The severity of a Palo Alto row comes from its CVSS score string
    alone: the token "I" in either case gives Informational; any other
    string that [float] parses to a score s gives Critical when
    s >= 9.0, High when 7.0 <= s < 9.0, Medium when 4.0 <= s < 7.0 and
    Low when s < 4.0; and the "Severity Level" of the row built from the
    cells of a [<tr>] is that severity of the stripped text of its first
    cell. *)
Theorem palo_alto_severity_thresholds :
  forall (L : PyLib) (cvss_score : string),
    (cvss_score = "I" \/ cvss_score = "i" ->
       PaloAlto.severity cvss_score = "Informational") /\
    (forall s, ~ (cvss_score = "I" \/ cvss_score = "i") ->
       float cvss_score = Some s ->
       (Float.ge s Float.f9_0 = true ->
          PaloAlto.severity cvss_score = "Critical") /\
       (Float.ge s Float.f7_0 = true -> Float.lt s Float.f9_0 = true ->
          PaloAlto.severity cvss_score = "High") /\
       (Float.ge s Float.f4_0 = true -> Float.lt s Float.f7_0 = true ->
          PaloAlto.severity cvss_score = "Medium") /\
       (Float.lt s Float.f4_0 = true ->
          PaloAlto.severity cvss_score = "Low")) /\
    (forall cols r, PaloAlto.row cols = Ok (Some r) ->
       col "Severity Level" r
       = Str (PaloAlto.severity
                (Str.strip (td_text (hd {| td_text := ""; td_a := None;
                                           td_divs := [] |} cols))))).
Proof.
  intros L cvss_score. split; [| split].
  - intros H. apply lower_is_i in H. unfold PaloAlto.severity.
    now rewrite H.
  - intros s Hnot Hs.
    assert (Hi : String.eqb (Str.lower cvss_score) "i" = false).
    { apply String.eqb_neq. intros H. apply Hnot. now apply lower_is_i. }
    unfold PaloAlto.severity. rewrite Hi, Hs.
    repeat split.
    + now intros ->.
    + intros H7 H9. now rewrite (float_lt_not_ge _ _ H9), H7.
    + intros H4 H7.
      assert (H9 : Float.lt s Float.f9_0 = true)
        by (apply (float_lt_trans _ _ _ _ _ H7); reflexivity).
      now rewrite (float_lt_not_ge _ _ H9), (float_lt_not_ge _ _ H7), H4.
    + intros H4.
      assert (H7 : Float.lt s Float.f7_0 = true)
        by (apply (float_lt_trans _ _ _ _ _ H4); reflexivity).
      assert (H9 : Float.lt s Float.f9_0 = true)
        by (apply (float_lt_trans _ _ _ _ _ H7); reflexivity).
      now rewrite (float_lt_not_ge _ _ H9), (float_lt_not_ge _ _ H7),
        (float_lt_not_ge _ _ H4).
  - intros cols r H. unfold PaloAlto.row in H.
    destruct cols as [ | c0 [ | c1 [ | c2 [ | c3 [ | c4 [ | c5 [ | c6 [ | ? ?]]]]]]]];
      try discriminate.
    unfold Py.bind in H.
    destruct (href_or "N/A" (td_a c1)) as [url | e]; [|discriminate].
    destruct (PaloAlto.cve_id_of _) as [cve_id | e]; [|discriminate].
    injection H as <-. reflexivity.
Qed.

Example palo_alto_severity_examples :
  map (PaloAlto.severity (L := Ref.lib))
    ["9.8"; "9.0"; "8.9"; "7.0"; "6.9"; "4.0"; "3.9"; "0.0"; "i"; "I"; "n/a"; ""]
  = ["Critical"; "Critical"; "High"; "High"; "Medium"; "Medium"; "Low"; "Low";
     "Informational"; "Informational"; "N/A"; "N/A"].
Proof. vm_compute. reflexivity. Qed.

(** A score cell that ends in a no-break space, which [strip] removes. *)
Example palo_alto_severity_no_break_space :
  let nbsp := String (ascii_of_nat 160) "" in
  exists r,
    PaloAlto.row (L := Ref.lib)
      (Examples.pa_tr ("I" ++ nbsp) "PAN-SA-2025-0008" "/PAN-SA-2025-0008"
         ("2025-04-10" ++ nbsp))
    = Ok (Some r) /\
    col "Severity Level" r = Str "Informational" /\
    col "Published Date" r = Str "2025-04-10".
Proof. eexists. split; [vm_compute; reflexivity|]. split; reflexivity. Qed.

Lemma palo_alto_severity_thresholds_witness :
  PaloAlto.severity (L := Ref.lib) "I" = "Informational" /\
  PaloAlto.severity (L := Ref.lib) "9.8" = "Critical" /\
  PaloAlto.severity (L := Ref.lib) "7.5" = "High" /\
  PaloAlto.severity (L := Ref.lib) "4.0" = "Medium" /\
  PaloAlto.severity (L := Ref.lib) "3.9" = "Low" /\
  exists r,
    PaloAlto.row (L := Ref.lib)
      (Examples.pa_tr " 8.8 " "CVE-2025-0128" "/CVE-2025-0128" "2025-04-09")
    = Ok (Some r) /\
    col "Severity Level" r = Str "High".
Proof.
  assert (Hne : forall s, s <> "I" -> s <> "i" ->
                  ~ (s = "I" \/ s = "i")) by (intros s ? ? [? | ?]; auto).
  split.
  { apply (palo_alto_severity_thresholds Ref.lib "I"). now left. }
  split.
  { destruct (palo_alto_severity_thresholds Ref.lib "9.8") as (_ & H & _).
    refine (proj1 (H _ _ eq_refl) eq_refl).
    apply Hne; discriminate. }
  split.
  { destruct (palo_alto_severity_thresholds Ref.lib "7.5") as (_ & H & _).
    refine (proj1 (proj2 (H _ _ eq_refl)) eq_refl eq_refl).
    apply Hne; discriminate. }
  split.
  { destruct (palo_alto_severity_thresholds Ref.lib "4.0") as (_ & H & _).
    refine (proj1 (proj2 (proj2 (H _ _ eq_refl))) eq_refl eq_refl).
    apply Hne; discriminate. }
  split.
  { destruct (palo_alto_severity_thresholds Ref.lib "3.9") as (_ & H & _).
    refine (proj2 (proj2 (proj2 (H _ _ eq_refl))) eq_refl).
    apply Hne; discriminate. }
  destruct (palo_alto_severity_thresholds Ref.lib "") as (_ & _ & H).
  destruct (PaloAlto.row (L := Ref.lib)
              (Examples.pa_tr " 8.8 " "CVE-2025-0128" "/CVE-2025-0128" "2025-04-09"))
    as [[r | ] | e] eqn:E; try (vm_compute in E; discriminate).
  exists r. split; [reflexivity|].
  rewrite (H _ _ E). vm_compute. reflexivity.
Defined.

(** ** The query bots: missing columns *)

Lemma startswith_app (p s : string) : Str.startswith p (p ++ s) = true.
Proof.
  induction p as [ | c p IH]; simpl; [reflexivity|].
  now rewrite Ascii.eqb_refl, IH.
Qed.

Lemma startswith_app_l (n s t : string) :
  Str.startswith n s = true -> Str.startswith n (s ++ t) = true.
Proof.
  revert s. induction n as [ | c n IH]; intros s H; [reflexivity|].
  destruct s as [ | d s]; simpl in *; [discriminate|].
  apply andb_true_iff in H as [H1 H2]. now rewrite H1, (IH _ H2).
Qed.

Lemma contains_self (s : string) : Str.contains s s = true.
Proof.
  assert (H : Str.startswith s s = true).
  { induction s as [ | c s IH]; simpl; [reflexivity|].
    now rewrite Ascii.eqb_refl, IH. }
  destruct s; simpl in *; [reflexivity | now rewrite H].
Qed.

Lemma contains_app_l (n s t : string) :
  Str.contains n s = true -> Str.contains n (s ++ t) = true.
Proof.
  induction s as [ | c s IH]; simpl; intros H.
  - rewrite orb_false_r in H. destruct n; [|discriminate].
    destruct t; reflexivity.
  - apply orb_true_iff in H as [H | H].
    + change (String c (s ++ t)) with (String c s ++ t)%string.
      now rewrite (startswith_app_l _ _ t H).
    + rewrite (IH H). apply orb_true_r.
Qed.

Lemma contains_app_r (n p s : string) :
  Str.contains n s = true -> Str.contains n (p ++ s) = true.
Proof.
  intros H. induction p as [ | c p IH]; simpl; [exact H|].
  rewrite IH. apply orb_true_r.
Qed.

Lemma contains_join (sep c : string) (l : list string) :
  In c l -> Str.contains c (Str.join sep l) = true.
Proof.
  induction l as [ | x l IH]; [contradiction|].
  intros [-> | Hin].
  - destruct l; simpl; [apply contains_self|].
    apply contains_app_l, contains_self.
  - destruct l as [ | y l]; [contradiction|].
    change (Str.join sep (x :: y :: l))
      with (x ++ sep ++ Str.join sep (y :: l))%string.
    apply contains_app_r, contains_app_r, IH, Hin.
Qed.

Lemma mem_In (c : string) (l : list string) :
  Str.mem c l = true <-> In c l.
Proof.
  unfold Str.mem. rewrite existsb_exists. split.
  - intros (x & Hx & E). apply String.eqb_eq in E. now subst.
  - intros H. exists c. split; [exact H | apply String.eqb_refl].
Qed.

Lemma missing_columns_In (required : list string) (df : Queries.DataFrame)
    (c : string) :
  In c (Queries.missing_columns required df)
  <-> In c required /\ ~ In c (Queries.columns df).
Proof.
  unfold Queries.missing_columns. rewrite filter_In, negb_true_iff.
  split; intros [H1 H2]; split; auto.
  - intros H. apply mem_In in H. congruence.
  - apply not_true_is_false. intros H. apply H2. now apply mem_In.
Qed.

Lemma missing_columns_report (required : list string) (ending : string)
    (df : Queries.DataFrame) :
  Queries.missing_report required ending df
    (Queries.response
       ("❌ Missing required columns: "
        ++ Str.join ", " (Queries.missing_columns required df) ++ ending)).
Proof.
  exists (fun c => negb (Str.mem c (Queries.columns df))).
  split; [|split; reflexivity].
  intros c _. rewrite negb_true_iff. split.
  - intros H Hin. apply mem_In in Hin. congruence.
  - intros H. apply not_true_is_false. intros Hm. apply H. now apply mem_In.
Qed.

Lemma missing_columns_some (required : list string) (df : Queries.DataFrame) :
  (exists c, In c required /\ ~ In c (Queries.columns df)) ->
  Queries.missing_columns required df <> [].
Proof.
  intros (c & Hreq & Hcol) E.
  assert (H : In c (Queries.missing_columns required df))
    by (now apply missing_columns_In).
  rewrite E in H. exact H.
Qed.

(** C10. When the table lacks one or more of the columns a bot requires,
    the NVIDIA, the Cisco and the Palo Alto bot each return, for every
    question and without raising, a frame of one row whose only column
    "Response" holds the message "Missing required columns: " followed
    by the names of exactly the required columns that the table lacks,
    in the order in which the bot requires them and separated by ", ";
    the caller's table is left as it was. *)
Theorem missing_columns_response :
  forall (L : PyLib) (question : string) (df : Queries.DataFrame),
    ((exists c, In c Queries.nvidia_required /\ ~ In c (Queries.columns df)) ->
     exists out,
       Queries.query_nvidia_bot question df = (df, Ok (Queries.Answer out)) /\
       Queries.missing_report Queries.nvidia_required
         ". Please ensure the data includes these columns." df out) /\
    ((exists c, In c Queries.cisco_required /\ ~ In c (Queries.columns df)) ->
     exists out,
       Queries.query_cisco_bot question df = (df, Queries.Answer out) /\
       Queries.missing_report Queries.cisco_required "." df out) /\
    ((exists c, In c Queries.palo_alto_required /\
                ~ In c (Queries.columns df)) ->
     exists out,
       Queries.query_palo_alto_bot question df = (df, Queries.Answer out) /\
       Queries.missing_report Queries.palo_alto_required "." df out).
Proof.
  intros L question df. split; [|split]; intros H;
    apply missing_columns_some in H; eexists;
    (split; [|apply missing_columns_report]).
  - unfold Queries.query_nvidia_bot.
    destruct (Queries.missing_columns Queries.nvidia_required df)
      as [ | m ms]; [contradiction | reflexivity].
  - unfold Queries.query_cisco_bot.
    destruct (Queries.missing_columns Queries.cisco_required df)
      as [ | m ms]; [contradiction | reflexivity].
  - unfold Queries.query_palo_alto_bot.
    destruct (Queries.missing_columns Queries.palo_alto_required df)
      as [ | m ms]; [contradiction | reflexivity].
Qed.

Example missing_columns_raw_cisco :
  Queries.query_cisco_bot (L := Ref.lib) "Latest 5 advisories"
    Examples.raw_cisco_df
  = (Examples.raw_cisco_df,
     Queries.Answer
       {| Queries.columns := ["Response"];
          Queries.rows :=
            [[("Response",
               Str "❌ Missing required columns: severity, severity_level.")]]
       |}).
Proof. reflexivity. Qed.

(** The columns of a frame whose labels hold "severity_level" but not
    "severity": the message names "severity" alone. *)
Example missing_columns_names_exactly :
  let df := {| Queries.columns := ["oem_name"; "vulnerability"; "url";
                                   "last_updated"; "severity_level"];
               Queries.rows := [] |} in
  Queries.query_cisco_bot (L := Ref.lib) "latest" df
  = (df,
     Queries.Answer
       {| Queries.columns := ["Response"];
          Queries.rows :=
            [[("Response", Str "❌ Missing required columns: severity.")]]
       |}).
Proof. reflexivity. Qed.

Lemma missing_columns_response_witness :
  (exists c, In c Queries.cisco_required /\
             ~ In c (Queries.columns Examples.raw_cisco_df)) /\
  exists out,
    Queries.query_cisco_bot (L := Ref.lib) "Latest 5 advisories"
      Examples.raw_cisco_df
    = (Examples.raw_cisco_df, Queries.Answer out) /\
    Queries.missing_report Queries.cisco_required "." Examples.raw_cisco_df
      out /\
    Queries.rows out
    = [[("Response",
         Str "❌ Missing required columns: severity, severity_level.")]].
Proof.
  assert (H : exists c, In c Queries.cisco_required /\
                        ~ In c (Queries.columns Examples.raw_cisco_df)).
  { exists "severity". split; [vm_compute; auto 10|].
    vm_compute. intros H. repeat (destruct H as [H | H]; [discriminate|]).
    exact H. }
  split; [exact H|].
  destruct (proj1 (proj2 (missing_columns_response Ref.lib
                            "Latest 5 advisories" Examples.raw_cisco_df)) H)
    as (out & Hout & Hreport).
  exists out. split; [exact Hout|]. split; [exact Hreport|].
  vm_compute in Hout. injection Hout as <-. reflexivity.
Defined.

(** ** The reference library meets the contract *)

Lemma cell_eqb_eq (a b : cell) : cell_eqb a b = true <-> a = b.
Proof.
  destruct a, b; simpl; split; try discriminate; try reflexivity.
  - intros H. apply String.eqb_eq in H. now subst.
  - intros H. injection H as ->. apply String.eqb_refl.
  - intros H. apply Z.eqb_eq in H. now subst.
  - intros H. injection H as ->. apply Z.eqb_refl.
Qed.

Lemma cell_eqb_refl (a : cell) : cell_eqb a a = true.
Proof. now apply cell_eqb_eq. Qed.

Lemma string_leb_refl (s : string) : String.leb s s = true.
Proof.
  unfold String.leb.
  destruct (String.compare s s) eqn:E; try reflexivity.
  pose proof (String.compare_antisym s s) as H. rewrite E in H. discriminate.
Qed.

Lemma cell_before_refl (asc : bool) (c : cell) : cell_before asc c c = true.
Proof.
  destruct c, asc; simpl; auto using string_leb_refl, Z.leb_refl.
Qed.

Lemma In_insert {A} (before : A -> A -> bool) (x z : A) (l : list A) :
  In z (Ref.insert before x l) -> z = x \/ In z l.
Proof.
  induction l as [ | y l IH]; simpl.
  - intros [<- | []]. now left.
  - destruct (before x y); simpl.
    + intros [<- | H]; auto.
    + intros [<- | H]; auto. destruct (IH H); auto.
Qed.

Lemma insert_permutation {A} (before : A -> A -> bool) (x : A) (l : list A) :
  Permutation (Ref.insert before x l) (x :: l).
Proof.
  induction l as [ | y l IH]; simpl; [reflexivity|].
  destruct (before x y); [reflexivity|].
  rewrite IH. apply perm_swap.
Qed.

Lemma isort_permutation {A} (before : A -> A -> bool) (l : list A) :
  Permutation (Ref.isort before l) l.
Proof.
  induction l as [ | x l IH]; simpl; [reflexivity|].
  rewrite insert_permutation. now apply perm_skip.
Qed.

Section InsertionSort.
Context {A : Type} (before : A -> A -> bool) (P : A -> Prop).
Hypothesis total : forall x y, P x -> P y ->
  before x y = true \/ before y x = true.
Hypothesis trans : forall x y z, P x -> P y -> P z ->
  before x y = true -> before y z = true -> before x z = true.

Lemma insert_sorted (x : A) (l : list A) :
  P x -> Forall P l ->
  StronglySorted (fun a b => before a b = true) l ->
  StronglySorted (fun a b => before a b = true) (Ref.insert before x l).
Proof.
  intros Px Pl Hs. induction Hs as [ | y l Hs IH Hy]; simpl.
  - repeat constructor.
  - inversion Pl as [ | ? ? Py Pl']; subst.
    destruct (before x y) eqn:E.
    + constructor; [now constructor|].
      constructor; [exact E|].
      rewrite Forall_forall in *. intros z Hz.
      apply (trans x y z); auto.
    + constructor; [now apply IH|].
      rewrite Forall_forall in *. intros z Hz.
      apply In_insert in Hz as [-> | Hz]; [|auto].
      destruct (total x y Px Py) as [H | H]; congruence.
Qed.

Lemma isort_sorted (l : list A) :
  Forall P l ->
  StronglySorted (fun a b => before a b = true) (Ref.isort before l).
Proof.
  induction 1 as [ | x l Px Pl IH]; simpl; [constructor|].
  apply insert_sorted; auto.
  rewrite Forall_forall in *. intros z Hz.
  apply Pl. now apply (Permutation_in z (isort_permutation before l)).
Qed.

(** Equal keys: what [pick] selects can stand before itself. *)
Lemma filter_insert (pick : A -> bool) (x : A) (l : list A) :
  (forall y, pick x = true -> pick y = true -> before x y = true) ->
  filter pick (Ref.insert before x l)
  = if pick x then x :: filter pick l else filter pick l.
Proof.
  intros Hpick. induction l as [ | y l IH]; simpl; [reflexivity|].
  destruct (before x y) eqn:E; simpl.
  - reflexivity.
  - rewrite IH. destruct (pick x) eqn:Ex, (pick y) eqn:Ey; try reflexivity.
    rewrite (Hpick y eq_refl Ey) in E. discriminate.
Qed.
End InsertionSort.

Lemma iso_date_is_datetime (s : string) : is_datetime (Ref.iso_date s) = true.
Proof.
  unfold Ref.iso_date.
  repeat match goal with
         | |- is_datetime (match ?x with _ => _ end) = true => destruct x
         | |- is_datetime (if ?x then _ else _) = true => destruct x
         end; reflexivity.
Qed.

Lemma ref_coerces : Contract.coerces Ref.lib.
Proof.
  intros c. simpl. split; [apply length_map|].
  rewrite forallb_forall. intros x Hx.
  apply in_map_iff in Hx as (y & <- & _).
  destruct y; simpl; auto using iso_date_is_datetime.
Qed.

Lemma ref_permutes : Contract.permutes Ref.lib.
Proof. intros A key asc l. apply isort_permutation. Qed.

Lemma datetime_before_total (asc : bool) (x y : cell) :
  is_datetime x = true -> is_datetime y = true ->
  cell_before asc x y = true \/ cell_before asc y x = true.
Proof.
  destruct x, y, asc; simpl; try discriminate; auto; intros _ _;
    rewrite !Z.leb_le; lia.
Qed.

Lemma datetime_before_trans (asc : bool) (x y z : cell) :
  is_datetime x = true -> is_datetime y = true -> is_datetime z = true ->
  cell_before asc x y = true -> cell_before asc y z = true ->
  cell_before asc x z = true.
Proof.
  destruct x, y, z, asc; simpl; try discriminate; auto; intros _ _ _;
    rewrite !Z.leb_le; lia.
Qed.

Lemma ref_orders_dates : Contract.orders_dates Ref.lib.
Proof.
  intros A key asc l Hl. simpl.
  apply (isort_sorted _ (fun r => is_datetime (key r) = true)).
  - intros x y. apply datetime_before_total.
  - intros x y z. apply datetime_before_trans.
  - apply Forall_forall. rewrite forallb_forall in Hl. exact Hl.
Qed.

Lemma ref_stable : Contract.stable Ref.lib.
Proof.
  intros A key asc l k. simpl.
  induction l as [ | x l IH]; simpl; [reflexivity|].
  rewrite filter_insert, IH; [reflexivity|].
  intros y Hx Hy. apply cell_eqb_eq in Hx, Hy. rewrite Hx, Hy.
  apply cell_before_refl.
Qed.

(** ** Palo Alto: deduplication *)

Lemma find_hd_filter {A} (p : A -> bool) (l : list A) :
  find p l = hd_error (filter p l).
Proof.
  induction l as [ | x l IH]; simpl; [reflexivity|].
  now destruct (p x).
Qed.

Lemma filter_drop_duplicates_from {A} (key : A -> cell) (k : cell)
    (l : list A) (seen : list cell) :
  filter (fun x => cell_eqb (key x) k) (drop_duplicates_from key seen l)
  = if existsb (cell_eqb k) seen then []
    else match find (fun x => cell_eqb (key x) k) l with
         | Some f => [f]
         | None => []
         end.
Proof.
  revert seen. induction l as [ | r l IH]; intros seen; simpl.
  - now destruct (existsb (cell_eqb k) seen).
  - destruct (existsb (cell_eqb (key r)) seen) eqn:Er.
    + rewrite IH. destruct (existsb (cell_eqb k) seen) eqn:Ek; [reflexivity|].
      destruct (cell_eqb (key r) k) eqn:E; [|reflexivity].
      apply cell_eqb_eq in E. congruence.
    + simpl. rewrite IH. simpl.
      destruct (cell_eqb (key r) k) eqn:E.
      * apply cell_eqb_eq in E. subst k.
        now rewrite cell_eqb_refl, Er.
      * destruct (cell_eqb k (key r)) eqn:E'; [|reflexivity].
        apply cell_eqb_eq in E'. subst k. now rewrite cell_eqb_refl in E.
Qed.

Lemma palo_alto_row_fields {L : PyLib} (cols : list td) (d : record) :
  PaloAlto.row cols = Ok (Some d) ->
  col "OEM Name" d = Str "Palo Alto Networks" /\
  (exists id, col "Unique ID" d = Str id) /\
  (exists score, field "Severity Level" d = Some (Str (PaloAlto.severity score))) /\
  (exists date, field "Published Date" d = Some (Str date)).
Proof.
  intros H. unfold PaloAlto.row in H.
  destruct cols as [ | c0 [ | c1 [ | c2 [ | c3 [ | c4 [ | c5 [ | c6 [ | ? ?]]]]]]]];
    try discriminate.
  unfold Py.bind in H.
  destruct (href_or "N/A" (td_a c1)) as [url | e]; [|discriminate].
  destruct (PaloAlto.cve_id_of _) as [cve_id | e]; [|discriminate].
  injection H as <-. repeat split; eexists; reflexivity.
Qed.

Lemma palo_alto_process_Forall {L : PyLib} (Q : record -> Prop) :
  (forall cols d, PaloAlto.row cols = Ok (Some d) -> Q d) ->
  forall rows data0 data res,
    PaloAlto.process rows data0 = (data, res) ->
    Forall Q data0 -> Forall Q data.
Proof.
  intros HQ rows. induction rows as [ | r rows IH]; intros data0 data res H H0.
  - simpl in H. injection H as <- _. exact H0.
  - simpl in H. destruct (PaloAlto.row r) as [[d | ] | e] eqn:E.
    + apply (IH _ _ _ H). apply Forall_app. split; [exact H0|].
      constructor; [|constructor]. apply (HQ _ _ E).
    + apply (IH _ _ _ H H0).
    + injection H as <- _. exact H0.
Qed.

Lemma In_drop_duplicates_from {A} (key : A -> cell) (seen : list cell)
    (l : list A) (x : A) :
  In x (drop_duplicates_from key seen l) -> In x l.
Proof.
  revert seen. induction l as [ | r l IH]; intros seen; simpl; [auto|].
  destruct (existsb (cell_eqb (key r)) seen); simpl.
  - intros H. right. exact (IH _ H).
  - intros [-> | H]; [now left | right; exact (IH _ H)].
Qed.

(** C5, as the code has it.  Deduplication of the harvested Palo Alto
    rows, in a run whose sort by "Unique ID" returns the rows it was
    given in some order: for every harvested row, exactly one row of the
    deduplicated frame has its (vendor, identifier) pair; it is a
    harvested row, the first with that pair in the frame sorted by
    "Unique ID".  It is the first with that pair in document order
    whenever the sort of this run keeps the rows of that identifier in
    their order. *)
Theorem palo_alto_deduplicate_keeps_first_sorted :
  forall (L : PyLib) (rows : list (list td)) (data : table)
         (res : result unit),
    PaloAlto.process rows [] = (data, res) ->
    Permutation (sort_values (col "Unique ID") true data) data ->
    forall r, In r data ->
      exists kept,
        find (PaloAlto.same_key r) (sort_values (col "Unique ID") true data)
        = Some kept /\
        filter (PaloAlto.same_key r) (PaloAlto.deduplicate data) = [kept] /\
        In kept data /\
        (Contract.keeps_order L (col "Unique ID") true data
           (col "Unique ID" r) ->
         find (PaloAlto.same_key r) data = Some kept).
Proof.
  intros L rows data res Hp Hperm r Hr.
  assert (Hoem : Forall (fun d => col "OEM Name" d = Str "Palo Alto Networks")
                   data).
  { apply (palo_alto_process_Forall _
             (fun cols d H => proj1 (palo_alto_row_fields cols d H))
             _ _ _ _ Hp).
    constructor. }
  rewrite Forall_forall in Hoem.
  set (uid := fun x : record => cell_eqb (col "Unique ID" x) (col "Unique ID" r)).
  assert (Hsame : forall x, In x data -> PaloAlto.same_key r x = uid x).
  { intros x Hx. unfold PaloAlto.same_key, uid.
    now rewrite (Hoem _ Hx), (Hoem _ Hr), cell_eqb_refl. }
  assert (Hsorted : forall x,
            In x (sort_values (col "Unique ID") true data) -> In x data)
    by (intros x; apply Permutation_in, Hperm).
  assert (Hfind : forall l, (forall x, In x l -> In x data) ->
                    find (PaloAlto.same_key r) l = find uid l).
  { intros l Hl. rewrite !find_hd_filter. f_equal.
    apply filter_ext_in. intros x Hx. apply Hsame, Hl, Hx. }
  assert (Hfilter : filter (PaloAlto.same_key r) (PaloAlto.deduplicate data)
                    = filter uid (PaloAlto.deduplicate data)).
  { apply filter_ext_in. intros x Hx. apply Hsame, Hsorted.
    exact (In_drop_duplicates_from _ _ _ _ Hx). }
  assert (Hdedup : filter uid (PaloAlto.deduplicate data)
                   = match find uid (sort_values (col "Unique ID") true data)
                     with Some f => [f] | None => [] end).
  { unfold PaloAlto.deduplicate, drop_duplicates, uid.
    now rewrite filter_drop_duplicates_from. }
  rewrite (Hfind _ Hsorted), Hfilter, Hdedup.
  destruct (find uid (sort_values (col "Unique ID") true data))
    as [kept | ] eqn:E.
  - exists kept. split; [reflexivity|]. split; [reflexivity|].
    split; [apply Hsorted; exact (proj1 (find_some _ _ E))|].
    intros Hkeeps. rewrite (Hfind data (fun x H => H)).
    rewrite find_hd_filter in E |- *.
    unfold uid in E. unfold Contract.keeps_order in Hkeeps.
    rewrite Hkeeps in E. exact E.
  - exfalso.
    assert (Hin : In r (sort_values (col "Unique ID") true data))
      by (apply (Permutation_in _ (Permutation_sym Hperm)), Hr).
    apply (find_none _ _ E) in Hin. unfold uid in Hin.
    now rewrite cell_eqb_refl in Hin.
Qed.

(** The theorem at a page of the pandas model: numpy's sort of the short
    frame keeps the two rows of CVE-2025-0128 in their order, and the one
    harvested first is kept. *)
Lemma palo_alto_deduplicate_keeps_first_sorted_witness :
  let r := nth 2 Examples.pa_data [] in
  Permutation
    (sort_values (PyLib := Numpy.lib) (col "Unique ID") true Examples.pa_data)
    Examples.pa_data /\
  Contract.keeps_order Numpy.lib (col "Unique ID") true Examples.pa_data
    (col "Unique ID" r) /\
  exists kept,
    find (PaloAlto.same_key r)
      (sort_values (PyLib := Numpy.lib) (col "Unique ID") true Examples.pa_data)
    = Some kept /\
    filter (PaloAlto.same_key r)
      (PaloAlto.deduplicate (L := Numpy.lib) Examples.pa_data)
    = [kept] /\
    In kept Examples.pa_data /\
    find (PaloAlto.same_key r) Examples.pa_data = Some kept.
Proof.
  intros r.
  assert (Hperm : Permutation
                    (sort_values (PyLib := Numpy.lib) (col "Unique ID") true
                       Examples.pa_data) Examples.pa_data).
  { replace (sort_values (PyLib := Numpy.lib) (col "Unique ID") true
               Examples.pa_data)
      with (sort_values (PyLib := Ref.lib) (col "Unique ID") true
              Examples.pa_data) by (vm_compute; reflexivity).
    apply ref_permutes. }
  assert (Hkeeps : Contract.keeps_order Numpy.lib (col "Unique ID") true
                     Examples.pa_data (col "Unique ID" r))
    by (vm_compute; reflexivity).
  split; [exact Hperm|]. split; [exact Hkeeps|].
  destruct (palo_alto_deduplicate_keeps_first_sorted Numpy.lib
              Examples.pa_rows Examples.pa_data (Ok tt) eq_refl Hperm r)
    as (kept & H1 & H2 & H3 & H4).
  { right. right. left. reflexivity. }
  exists kept. split; [exact H1|]. split; [exact H2|]. split; [exact H3|].
  exact (H4 Hkeeps).
Defined.

(** C5 as stated fails.  On a page of eighteen advisories whose second
    and third row carry the same identifier, numpy's quicksort brings the
    third row before the second, and [drop_duplicates] keeps the third:
    the first occurrence in document order is dropped. *)
Lemma palo_alto_deduplicate_drops_first :
  Numpy.nargsort (map (col "Unique ID") Examples.pa_eighteen_data) true
  = Some [0; 3; 4; 5; 6; 7; 15; 14; 8; 9; 10; 11; 12; 13; 2; 1; 16; 17] /\
  exists first kept,
    nth_error Examples.pa_eighteen_data 1 = Some first /\
    nth_error Examples.pa_eighteen_data 2 = Some kept /\
    find (PaloAlto.same_key first) Examples.pa_eighteen_data = Some first /\
    filter (PaloAlto.same_key first)
      (PaloAlto.deduplicate (L := Numpy.lib) Examples.pa_eighteen_data)
    = [kept] /\
    col "URL" first
    = Str "https://security.paloaltonetworks.com/CVE-2025-0020" /\
    col "URL" kept
    = Str "https://security.paloaltonetworks.com/CVE-2025-0020-duplicate" /\
    kept <> first.
Proof.
  split; [vm_compute; reflexivity|].
  eexists. eexists.
  split; [vm_compute; reflexivity|].
  split; [vm_compute; reflexivity|].
  split; [vm_compute; reflexivity|].
  split; [vm_compute; reflexivity|].
  split; [vm_compute; reflexivity|].
  split; [vm_compute; reflexivity|].
  intros H. apply (f_equal (col "URL")) in H. vm_compute in H. discriminate.
Qed.

(** So the sort of the pandas model is not stable: no theorem may ask
    that of every frame. *)
Lemma numpy_sort_is_not_stable : ~ Contract.stable Numpy.lib.
Proof.
  intros H.
  specialize (H record (col "Unique ID") true Examples.pa_eighteen_data
                (Str "CVE-2025-0020")).
  apply (f_equal (map (col "URL"))) in H. vm_compute in H. discriminate.
Qed.

(** On the short frames of the other examples numpy's sort and the
    reference sort agree. *)
Example numpy_sort_short_frame :
  sort_values (PyLib := Numpy.lib) (col "Unique ID") true Examples.pa_data
  = sort_values (PyLib := Ref.lib) (col "Unique ID") true Examples.pa_data.
Proof. vm_compute. reflexivity. Qed.

Example palo_alto_deduplicate_example :
  map (fun r => (col "Unique ID" r, col "URL" r))
    (PaloAlto.deduplicate (L := Ref.lib) Examples.pa_data)
  = [ (Str "CVE-2025-0128",
       Str "https://security.paloaltonetworks.com/CVE-2025-0128");
      (Str "PAN-SA-2025-0008",
       Str "https://security.paloaltonetworks.com/PAN-SA-2025-0008") ].
Proof. vm_compute. reflexivity. Qed.

(** ** The query bots: the caller's frame *)

Lemma col_set_field_same (k : string) (v : cell) (r : record) :
  col k (set_field k v r) = v.
Proof.
  unfold col. induction r as [ | [k' v'] r IH]; simpl.
  - now rewrite String.eqb_refl.
  - destruct (String.eqb k k') eqn:E; simpl; rewrite E; [reflexivity | exact IH].
Qed.

Lemma col_set_field_other (c k : string) (v : cell) (r : record) :
  c <> k -> col c (set_field k v r) = col c r.
Proof.
  intros Hne. apply String.eqb_neq in Hne.
  unfold col. induction r as [ | [k' v'] r IH]; simpl.
  - now rewrite Hne.
  - destruct (String.eqb k k') eqn:E; simpl.
    + apply String.eqb_eq in E. subst k'. now rewrite Hne.
    + destruct (String.eqb c k'); [reflexivity | exact IH].
Qed.

Lemma length_set_column (k : string) (vs : list cell) (t : table) :
  List.length (set_column k vs t) = List.length t.
Proof.
  revert vs. induction t as [ | r t IH]; intros [ | v vs]; simpl; auto.
Qed.

Lemma set_column_other (c k : string) (vs : list cell) (t : table) :
  c <> k -> map (col c) (set_column k vs t) = map (col c) t.
Proof.
  intros Hne. revert vs.
  induction t as [ | r t IH]; intros [ | v vs]; simpl; auto.
  now rewrite IH, col_set_field_other.
Qed.

Lemma set_column_same (k : string) (vs : list cell) (t : table) :
  List.length vs = List.length t -> map (col k) (set_column k vs t) = vs.
Proof.
  revert vs. induction t as [ | r t IH]; intros [ | v vs]; simpl;
    try discriminate; auto.
  intros H. injection H as H. now rewrite IH, col_set_field_same.
Qed.






(** ** The query bots: the latest advisories *)

Lemma latest_count_spec (question : string) :
  Queries.latest_count question
  = if Str.contains "10" question then 10 else 5.
Proof.
  unfold Queries.latest_count.
  now destruct (Str.contains "10" question), (Str.contains "5" question).
Qed.

Lemma convert_dates_keys {L : PyLib} (Hc : Contract.coerces L) (k : string)
    (df : Queries.DataFrame) :
  map (col k) (Queries.rows (Queries.convert_dates k df))
  = to_datetime (map (col k) (Queries.rows df)).
Proof.
  unfold Queries.convert_dates; simpl. apply set_column_same.
  rewrite (proj1 (Hc _)). apply length_map.
Qed.

Lemma convert_dates_datetime {L : PyLib} (Hc : Contract.coerces L)
    (k : string) (df : Queries.DataFrame) :
  forallb (fun r => is_datetime (col k r))
    (Queries.rows (Queries.convert_dates k df)) = true.
Proof.
  pose proof (proj2 (Hc (map (col k) (Queries.rows df)))) as H.
  rewrite <- (convert_dates_keys Hc) in H.
  rewrite forallb_forall in *. intros r Hr. apply H. now apply in_map.
Qed.

(** The rows that [latest] returns from a frame with converted dates. *)
Lemma latest_rows {L : PyLib} (Hc : Contract.coerces L)
    (Hp : Contract.permutes L) (Ho : Contract.orders_dates L)
    (k : string) (N : nat) (df : Queries.DataFrame) :
  let df' := Queries.convert_dates k df in
  let out := Queries.latest k N df' in
  Queries.columns out = Queries.columns df /\
  List.length (Queries.rows out) = Nat.min N (List.length (Queries.rows df)) /\
  exists sorted,
    Permutation sorted (Queries.rows df') /\
    StronglySorted
      (fun a b => cell_before false (col k a) (col k b) = true) sorted /\
    Queries.rows out = firstn N sorted.
Proof.
  intros df' out. split; [reflexivity|]. split.
  - unfold out, Queries.latest; simpl.
    rewrite length_firstn, (Permutation_length (Hp _ _ _ _)).
    now rewrite length_set_column.
  - exists (sort_values (col k) false (Queries.rows df')).
    split; [apply Hp|]. split; [|reflexivity].
    apply Ho. apply (convert_dates_datetime Hc).
Qed.

Lemma StronglySorted_last {A} (R : A -> A -> Prop) (l : list A) (y : A) :
  StronglySorted R (l ++ [y]) -> Forall (fun z => R z y) l.
Proof.
  induction l as [ | x l IH]; simpl; intros H; [constructor|].
  apply StronglySorted_inv in H as [Hs Hx].
  constructor; [|now apply IH].
  rewrite Forall_forall in Hx. apply Hx, in_or_app. right. now left.
Qed.

(** Four rows whose dates are [a], [b], [b] with [b < a], and unknown:
    sorted with the latest first, the first row leads and the row of
    unknown date closes. *)
Lemma latest_of_four {L : PyLib} (Hp : Contract.permutes L)
    (Ho : Contract.orders_dates L) (k : string) (r1 r2 r3 r4 : record)
    (a b : Z) :
  col k r1 = Timestamp a -> col k r2 = Timestamp b ->
  col k r3 = Timestamp b -> col k r4 = NaT -> (b < a)%Z ->
  exists x y,
    sort_values (col k) false [r1; r2; r3; r4] = [r1; x; y; r4].
Proof.
  intros K1 K2 K3 K4 Hba.
  pose proof (Hp _ (col k) false [r1; r2; r3; r4]) as Hperm.
  assert (Hs : StronglySorted
                 (fun a b => cell_before false (col k a) (col k b) = true)
                 (sort_values (col k) false [r1; r2; r3; r4])).
  { apply Ho. simpl. now rewrite K1, K2, K3, K4. }
  pose proof (Permutation_length Hperm) as Hlen.
  destruct (sort_values (col k) false [r1; r2; r3; r4])
    as [ | s1 [ | s2 [ | s3 [ | s4 [ | ? ?]]]]]; try discriminate.
  assert (Hin : forall s, In s [s1; s2; s3; s4] ->
                  s = r1 \/ col k s = Timestamp b \/ col k s = NaT).
  { intros s Hs'. apply (Permutation_in _ Hperm) in Hs'.
    simpl in Hs'. destruct Hs' as [<- | [<- | [<- | [<- | []]]]]; auto. }
  assert (H1 : s1 = r1).
  { destruct (Hin s1 (or_introl eq_refl)) as [E | E]; [exact E|].
    assert (Hr1 : In r1 [s1; s2; s3; s4])
      by (apply (Permutation_in _ (Permutation_sym Hperm)); now left).
    destruct Hr1 as [E1 | Hr1]; [now symmetry|].
    apply StronglySorted_inv in Hs as [_ Hs].
    rewrite Forall_forall in Hs. specialize (Hs _ Hr1).
    rewrite K1 in Hs.
    destruct E as [E | E]; rewrite E in Hs; simpl in Hs; [|discriminate].
    apply Z.leb_le in Hs. lia. }
  assert (H4 : s4 = r4).
  { assert (Hr4 : In r4 [s1; s2; s3; s4])
      by (apply (Permutation_in _ (Permutation_sym Hperm)); simpl; auto).
    assert (Hr4' : s4 = r4 \/ In r4 [s1; s2; s3])
      by (simpl in *; intuition).
    destruct Hr4' as [E | Hr4']; [exact E|].
    change [s1; s2; s3; s4] with ([s1; s2; s3] ++ [s4]) in Hs.
    apply StronglySorted_last in Hs.
    rewrite Forall_forall in Hs. specialize (Hs _ Hr4').
    rewrite K4 in Hs.
    assert (Hin4 : In s4 [r1; r2; r3; r4])
      by (apply (Permutation_in _ Hperm); simpl; auto).
    simpl in Hin4. destruct Hin4 as [<- | [<- | [<- | [<- | []]]]];
      try reflexivity;
      rewrite ?K1, ?K2, ?K3 in Hs; simpl in Hs; discriminate. }
  subst s1 s4. now exists s2, s3.
Qed.

Lemma latest_first_and_last {L : PyLib} (Hp : Contract.permutes L)
    (Ho : Contract.orders_dates L) (k : string) (question : string)
    (df : Queries.DataFrame) :
  Queries.first_and_last k df
    (Queries.latest k (Queries.latest_count question)
       (Queries.convert_dates k df)).
Proof.
  intros r1 r2 r3 r4 a b Hrows Hdates Hba.
  unfold Queries.latest, Queries.convert_dates; simpl.
  rewrite Hdates, Hrows. simpl set_column.
  destruct (latest_of_four Hp Ho k
              (set_field k (Timestamp a) r1) (set_field k (Timestamp b) r2)
              (set_field k (Timestamp b) r3) (set_field k NaT r4) a b)
    as (x & y & E); auto using col_set_field_same.
  exists x, y. rewrite E, latest_count_spec.
  now destruct (Str.contains "10" question).
Qed.

(** The Cisco and the Palo Alto bot parse the dates before they sort.
    For a question that contains "latest" or "recent", on a table with
    the required columns, they return the first N rows of the table
    sorted on the parsed date, latest first and unparseable dates last,
    which are all the rows when the table has fewer than N; N is 10 when
    the question contains "10" and 5 otherwise.  On four rows dated
    2025-05-08, 2025-05-07, 2025-05-07 and unknown (any dates a > b in
    their place), the row of 2025-05-08 comes first and the row of
    unknown date last. *)
Theorem latest_query_sorted :
  forall (L : PyLib),
    Contract.coerces L -> Contract.permutes L -> Contract.orders_dates L ->
  forall (question : string) (df : Queries.DataFrame),
    Queries.is_latest (Queries.clean_text question) = true ->
    let N := if Str.contains "10" (Queries.clean_text question)
             then 10 else 5 in
    (Queries.missing_columns Queries.cisco_required df = [] ->
       exists out,
         snd (Queries.query_cisco_bot question df) = Queries.Answer out /\
         Queries.latest_view "last_updated" N df out /\
         Queries.first_and_last "last_updated" df out) /\
    (Queries.missing_columns Queries.palo_alto_required df = [] ->
       exists out,
         snd (Queries.query_palo_alto_bot question df) = Queries.Answer out /\
         Queries.latest_view "published_date" N df out /\
         Queries.first_and_last "published_date" df out).
Proof.
  intros L Hc Hp Ho question df Hlatest N. split; intros Hmissing.
  - exists (Queries.latest "last_updated"
              (Queries.latest_count (Queries.clean_text question))
              (Queries.convert_dates "last_updated" df)).
    split; [|split].
    + unfold Queries.query_cisco_bot. now rewrite Hmissing, Hlatest.
    + rewrite latest_count_spec. apply (latest_rows Hc Hp Ho).
    + apply (latest_first_and_last Hp Ho).
  - exists (Queries.latest "published_date"
              (Queries.latest_count (Queries.clean_text question))
              (Queries.convert_dates "published_date" df)).
    split; [|split].
    + unfold Queries.query_palo_alto_bot. now rewrite Hmissing, Hlatest.
    + rewrite latest_count_spec. apply (latest_rows Hc Hp Ho).
    + apply (latest_first_and_last Hp Ho).
Qed.

Lemma latest_query_sorted_witness :
  exists out,
    snd (Queries.query_cisco_bot (L := Ref.lib) "Latest 5 advisories"
           Examples.cisco_df)
    = Queries.Answer out /\
    Queries.latest_view (L := Ref.lib) "last_updated" 5 Examples.cisco_df out /\
    exists x y,
      Queries.rows out
      = [ set_field "last_updated" (Timestamp 1746662400)
            (nth 0 (Queries.rows Examples.cisco_df) []);
          x; y;
          set_field "last_updated" NaT
            (nth 3 (Queries.rows Examples.cisco_df) []) ].
Proof.
  destruct (latest_query_sorted Ref.lib ref_coerces ref_permutes
              ref_orders_dates "Latest 5 advisories" Examples.cisco_df eq_refl)
    as (H & _).
  destruct (H eq_refl) as (out & H1 & H2 & H3).
  exists out. split; [exact H1|]. split; [exact H2|].
  apply (H3 (nth 0 (Queries.rows Examples.cisco_df) [])
            (nth 1 (Queries.rows Examples.cisco_df) [])
            (nth 2 (Queries.rows Examples.cisco_df) [])
            (nth 3 (Queries.rows Examples.cisco_df) [])
            1746662400%Z 1746576000%Z).
  - reflexivity.
  - reflexivity.
  - reflexivity.
Defined.

Example latest_cisco_example :
  match snd (Queries.query_cisco_bot (L := Ref.lib) "Latest 5 advisories"
               Examples.cisco_df) with
  | Queries.Answer out => map (col "last_updated") (Queries.rows out)
  | Queries.Later_rule => []
  end
  = [Timestamp 1746662400; Timestamp 1746576000; Timestamp 1746576000; NaT].
Proof. vm_compute. reflexivity. Qed.

(** The NVIDIA bot sorts the text of "publish_date" as it stands: "N/A"
    leads, and 29 Apr 2025 stands before 03 May 2025. *)
Example latest_nvidia_sorts_text :
  match snd (Queries.query_nvidia_bot (L := Ref.lib) "latest advisories"
               Examples.nvidia_df) with
  | Ok (Queries.Answer out) => map (col "publish_date") (Queries.rows out)
  | _ => []
  end
  = [Str "N/A"; Str "29 Apr 2025"; Str "03 May 2025"].
Proof. vm_compute. reflexivity. Qed.

(** [head(N)] of a table of four rows has four rows, and the test for
    "10" comes before the test for "5". *)
Example latest_count_examples :
  (exists out,
     snd (Queries.query_cisco_bot (L := Ref.lib) "latest advisories"
            Examples.cisco_df) = Queries.Answer out /\
     Queries.latest_count (Queries.clean_text "latest advisories") = 5 /\
     List.length (Queries.rows out) = 4) /\
  Str.contains "5" (Queries.clean_text "latest 10 advisories of 2025") = true /\
  Queries.latest_count (Queries.clean_text "latest 10 advisories of 2025") = 10.
Proof.
  split; [|split; reflexivity].
  eexists. split; [reflexivity|]. split; reflexivity.
Qed.

(** C6 on the NVIDIA bot.  On the table of the claim, four rows
    published on 2025-05-08, 2025-05-07, 2025-05-07 and at an unknown
    date ("N/A"), the answer of [query_nvidia_bot] to a "latest" question
    starts with the row of unknown date and has the row of 2025-05-08
    second, with the reference sort and with numpy's: the bot sorts the
    column as text.  Its sibling [query_cisco_bot], which parses the
    dates first, answers on the same dates with the row of 2025-05-08
    first and the row of unknown date last. *)
Theorem latest_nvidia_unknown_date_first :
  map (col "publish_date") (Queries.rows Pages.nvidia_dated_df)
  = [Str "2025-05-08"; Str "2025-05-07"; Str "2025-05-07"; Str "N/A"] /\
  Queries.missing_columns Queries.nvidia_required Pages.nvidia_dated_df = [] /\
  (exists out,
     snd (Queries.query_nvidia_bot (L := Ref.lib) "latest advisories"
            Pages.nvidia_dated_df) = Ok (Queries.Answer out) /\
     map (col "publish_date") (Queries.rows out)
     = [Str "N/A"; Str "2025-05-08"; Str "2025-05-07"; Str "2025-05-07"]) /\
  (exists out,
     snd (Queries.query_nvidia_bot (L := Numpy.lib) "latest advisories"
            Pages.nvidia_dated_df) = Ok (Queries.Answer out) /\
     map (col "publish_date") (Queries.rows out)
     = [Str "N/A"; Str "2025-05-08"; Str "2025-05-07"; Str "2025-05-07"]) /\
  map (col "last_updated") (Queries.rows Examples.cisco_df)
  = [Str "2025-05-08"; Str "2025-05-07"; Str "2025-05-07"; Str "N/A"] /\
  match snd (Queries.query_cisco_bot (L := Numpy.lib) "latest advisories"
               Examples.cisco_df) with
  | Queries.Answer out => map (col "last_updated") (Queries.rows out)
  | Queries.Later_rule => []
  end
  = [Timestamp 1746662400; Timestamp 1746576000; Timestamp 1746576000; NaT].
Proof.
  split; [reflexivity|]. split; [reflexivity|].
  split; [eexists; split; vm_compute; reflexivity|].
  split; [eexists; split; vm_compute; reflexivity|].
  split; vm_compute; reflexivity.
Qed.

(** ** The scrapers: timeouts and pages of another structure *)

Lemma palo_alto_harvest_rows (b : PaloAlto.browser) (rows : list (list td)) :
  PaloAlto.harvest b = Ok rows ->
  exists tbodies, PaloAlto.soup b = Some tbodies /\ rows = concat tbodies.
Proof.
  unfold PaloAlto.harvest, Py.bind, try_except. intros H.
  repeat match type of H with
         | context [match ?x with _ => _ end] =>
             destruct x eqn:?; try discriminate
         | context [if ?x then _ else _] => destruct x eqn:?; try discriminate
         end;
    injection H as <-; eexists; (split; [reflexivity|]); congruence.
Qed.

Lemma palo_alto_process_skips {L : PyLib} (rows : list (list td))
    (data : table) :
  forallb (fun r => negb (List.length r =? 7)) rows = true ->
  PaloAlto.process rows data = (data, Ok tt).
Proof.
  induction rows as [ | r rows IH]; simpl; [reflexivity|].
  intros H. apply andb_true_iff in H as [Hr Hrows].
  assert (E : PaloAlto.row r = Ok None).
  { destruct r as [ | ? [ | ? [ | ? [ | ? [ | ? [ | ? [ | ? [ | ? ?]]]]]]]];
      try reflexivity. discriminate. }
  rewrite E. now apply IH.
Qed.

Lemma nvidia_rows_loop_short (rows : list Nvidia.tr) (data : table) :
  forallb (fun r => match r with Nvidia.Short => true | _ => false end) rows
  = true ->
  Nvidia.rows_loop rows data = Ok (data, true).
Proof.
  induction rows as [ | [e | | c] rows IH]; simpl; try discriminate;
    [reflexivity | exact IH].
Qed.

Lemma adobe_section_rows_none (name : string) (rs : list Adobe.tr)
    (data : table) :
  forallb (fun r => negb (Adobe.usable r)) rs = true ->
  Adobe.section_rows name rs data = data.
Proof.
  induction rs as [ | [cols | e] rs IH]; simpl; try reflexivity.
  intros H. apply andb_true_iff in H as [Hr Hrs].
  destruct cols as [ | ? [ | ? [ | ? ?]]]; simpl in *;
    try discriminate; now apply IH.
Qed.

Lemma adobe_headers_loop_none (hs : list Adobe.header) (data : table) :
  forallb (fun h => Adobe.no_rows (Adobe.rows h)) hs = true ->
  Adobe.headers_loop hs data = data.
Proof.
  induction hs as [ | h hs IH]; simpl; [reflexivity|].
  intros H. apply andb_true_iff in H as [Hh Hhs].
  destruct (Adobe.text h); [|reflexivity].
  destruct (Adobe.rows h) as [rs | e]; simpl in Hh.
  - rewrite (adobe_section_rows_none _ _ _ Hh). now apply IH.
  - now apply IH.
Qed.

Lemma rows_loop_skips {R : Type}
    (row : R -> list string * result (option record)) (rows : list R)
    (calls : list string) (data : table) :
  (forall r, In r rows -> row r = ([], Ok None)) ->
  Enrich.rows_loop row rows calls data = (calls, Ok data).
Proof.
  revert calls. induction rows as [ | r rows IH]; intros calls H; simpl;
    [reflexivity|].
  rewrite (H r (or_introl eq_refl)), app_nil_r.
  apply IH. intros r' Hr'. apply H. now right.
Qed.

Lemma forallb_firstn {A} (f : A -> bool) (n : nat) (l : list A) :
  forallb f l = true -> forallb f (firstn n l) = true.
Proof.
  revert n. induction l as [ | x l IH]; intros [ | n]; simpl; auto.
  intros H. apply andb_true_iff in H as [-> H]. now apply IH.
Qed.

Lemma intel_row_short (key : string) (net : Nvd.network) (cols : list td) :
  (List.length cols <? 4) = true -> Intel.row key net cols = ([], Ok None).
Proof.
  destruct cols as [ | ? [ | ? [ | ? [ | ? ?]]]]; simpl; try reflexivity.
  discriminate.
Qed.

Lemma dell_row_short (key : string) (net : Nvd.network)
    (cells : list Dell.cell_div) :
  (List.length cells <? 6) = true -> Dell.row key net cells = ([], Ok None).
Proof.
  destruct cells as [ | ? [ | ? [ | ? [ | ? [ | ? [ | ? ?]]]]]]; simpl;
    try reflexivity.
  discriminate.
Qed.

(** Where the scrapers do fail soft.  A run in which the wait for the
    page's table or rows fails (and for Palo Alto the look after the
    sleep finds nothing either), or that finds no table, no row or no
    row with the expected number of cells (for Dell also no per-page
    control), returns the empty table and raises nothing.  Starting the
    browser, writing the diagnostic files and quitting the driver are
    taken to succeed. *)
Theorem scrapers_fail_soft :
  forall (L : PyLib) (key : string) (net : Nvd.network)
         (pa : PaloAlto.browser) (nv : Nvidia.browser) (ad : Adobe.browser)
         (it : Intel.browser) (de : Dell.browser) (ci : Cisco.browser),
    (PaloAlto.timed_out pa \/ PaloAlto.mismatch pa ->
       PaloAlto.scrape_palo_alto pa = Ok []) /\
    (Nvidia.timed_out nv \/ Nvidia.mismatch nv ->
       Nvidia.scrape_nvidia nv = Ok []) /\
    (Adobe.timed_out ad \/ Adobe.mismatch ad ->
       Adobe.scrape_adobe ad = Ok []) /\
    (Intel.timed_out it \/ Intel.mismatch it ->
       snd (Intel.scrape_intel key net it) = Ok []) /\
    (Dell.mismatch de -> snd (Dell.scrape_dell key net de) = Ok []) /\
    (Cisco.timed_out ci \/ Cisco.mismatch ci ->
       snd (Cisco.scrape_cisco key net ci) = Ok []).
Proof.
  intros L key net pa nv ad it de ci. repeat split.
  - (* Palo Alto *)
    intros [(Hc & Hg & Hw) | Hm]; unfold PaloAlto.scrape_palo_alto.
    + assert (E : exists e, PaloAlto.harvest pa = Raise e).
      { unfold PaloAlto.harvest. rewrite Hc, Hg. simpl.
        destruct Hw as [(e & Hw & Hf) | (Hw & Hs & e & Hr & Hf)].
        - rewrite Hw, Hf. simpl. eauto.
        - destruct Hw as [Hw | (e' & Hw & Hf')].
          + rewrite Hw, Hs, Hr, Hf. simpl. eauto.
          + rewrite Hw, Hf', Hs, Hr, Hf. simpl. eauto. }
      destruct E as (e & ->). reflexivity.
    + destruct (PaloAlto.harvest pa) as [rows | e] eqn:E; [|reflexivity].
      apply palo_alto_harvest_rows in E as (tbodies & Hs & ->).
      unfold PaloAlto.mismatch in Hm. rewrite Hs in Hm.
      now rewrite (palo_alto_process_skips _ _ Hm).
  - (* NVIDIA *)
    unfold Nvidia.scrape_nvidia.
    intros [(Hs & Hg & Hw) | (Hs & Hg & Hb & Ht & rows & Hr & Hshort)];
      rewrite Hs, Hg; simpl.
    + destruct Hw as [-> | [-> ->]]; reflexivity.
    + rewrite Hb, Ht. simpl. rewrite Hr.
      now rewrite (nvidia_rows_loop_short _ _ Hshort).
  - (* Adobe *)
    unfold Adobe.scrape_adobe.
    intros [(Hc & Hg & Hw) | (Hc & Ha & Hh)]; rewrite Hc; simpl.
    + now rewrite Hg, Hw.
    + destruct (_ <- Adobe.get ad ;; _ <- Adobe.wait ad ;; Adobe.save_page ad);
        [|reflexivity].
      assert (E : match Adobe.acrobat ad with
                  | Ok rs => Adobe.section_rows "Adobe Acrobat" rs []
                  | Raise _ => []
                  end = []).
      { destruct (Adobe.acrobat ad); [|reflexivity].
        now apply adobe_section_rows_none. }
      rewrite E. destruct (Adobe.h4_headers ad); [|reflexivity].
      now rewrite (adobe_headers_loop_none _ _ Hh).
  - (* Intel *)
    unfold Intel.scrape_intel, Py.bind.
    intros [(Hs & Hu & Hg & Hw) | (Hs & Hu & Hg & Hb & Hv & Hr & Hshort)];
      rewrite Hs, Hu, Hg.
    + destruct Hw as [-> | (-> & [-> | ->] & ->)]; reflexivity.
    + rewrite Hb.
      assert (E : try_except (Intel.view_all it) is_TimeoutException
                    (fun _ => Ok tt) = Ok tt)
        by (destruct Hv as [-> | ->]; reflexivity).
      rewrite E, Hr.
      rewrite rows_loop_skips.
      * now destruct (Intel.rows it).
      * intros r Hin. apply intel_row_short.
        pose proof (forallb_firstn _ 100 _ Hshort) as H100.
        rewrite forallb_forall in H100. now apply H100.
  - (* Dell *)
    unfold Dell.scrape_dell, Py.bind. intros (Hc & Hg & Hm). rewrite Hc, Hg.
    destruct Hm as [(e & ->) | Hshort]; [reflexivity|].
    destruct (Dell.select_100 de); [|reflexivity].
    rewrite rows_loop_skips.
    * now destruct (Dell.rows de).
    * intros r Hin. apply dell_row_short.
      pose proof (forallb_firstn _ 100 _ Hshort) as H100.
      rewrite forallb_forall in H100. now apply H100.
  - (* Cisco *)
    unfold Cisco.scrape_cisco.
    intros [(Hs & Hu & Hg & Hw) | (Hs & Hu & Hg & Hw & Hr)];
      rewrite Hs, Hu, Hg, Hw; simpl; [reflexivity|].
    now rewrite Hr.
Qed.

Lemma scrapers_fail_soft_witness :
  PaloAlto.scrape_palo_alto (L := Ref.lib) Examples.pa_timeout = Ok [] /\
  Nvidia.scrape_nvidia Examples.nvidia_timeout = Ok [] /\
  Adobe.scrape_adobe Examples.adobe_timeout = Ok [] /\
  snd (Intel.scrape_intel "key" Examples.unreachable Examples.intel_timeout)
  = Ok [] /\
  snd (Dell.scrape_dell "key" Examples.unreachable Examples.dell_no_select)
  = Ok [] /\
  snd (Cisco.scrape_cisco "key" Examples.unreachable Examples.cisco_timeout)
  = Ok [].
Proof.
  destruct (scrapers_fail_soft Ref.lib "key" Examples.unreachable
              Examples.pa_timeout Examples.nvidia_timeout
              Examples.adobe_timeout Examples.intel_timeout
              Examples.dell_no_select Examples.cisco_timeout)
    as (Hpa & Hnv & Had & Hit & Hde & Hci).
  split.
  { apply Hpa. left. split; [reflexivity|]. split; [reflexivity|].
    left. exists TimeoutException. split; reflexivity. }
  split.
  { apply Hnv. left. split; [reflexivity|]. split; [reflexivity|].
    right. split; reflexivity. }
  split.
  { apply Had. left. repeat split; reflexivity. }
  split.
  { apply Hit. left. split; [reflexivity|]. split; [reflexivity|].
    split; [reflexivity|]. left. reflexivity. }
  split.
  { apply Hde. split; [reflexivity|]. split; [reflexivity|].
    left. exists NoSuchElementException. reflexivity. }
  apply Hci. left. repeat split; reflexivity.
Defined.


(** ** The scrapers: severity of the rows *)

Lemma field_set_field_other (c k : string) (v : cell) (r : record) :
  c <> k -> field c (set_field k v r) = field c r.
Proof.
  intros Hne. apply String.eqb_neq in Hne.
  induction r as [ | [k' v'] r IH]; simpl.
  - now rewrite Hne.
  - destruct (String.eqb k k') eqn:E; simpl.
    + apply String.eqb_eq in E. subst k'. now rewrite Hne.
    + destruct (String.eqb c k'); [reflexivity | exact IH].
Qed.

Lemma Forall_set_column (Q : record -> Prop) (k : string) (vs : list cell)
    (t : table) :
  (forall r v, Q r -> Q (set_field k v r)) ->
  Forall Q t -> Forall Q (set_column k vs t).
Proof.
  intros HQ H. revert vs.
  induction H as [ | r t Hr Ht IH]; intros [ | v vs]; simpl;
    repeat constructor; auto.
Qed.

Lemma Forall_drop_duplicates {A} (Q : A -> Prop) (key : A -> cell)
    (l : list A) :
  Forall Q l -> Forall Q (drop_duplicates key l).
Proof.
  rewrite !Forall_forall. intros H x Hx. apply H.
  exact (In_drop_duplicates_from _ _ _ _ Hx).
Qed.

Lemma Forall_sort_values {L : PyLib} (Hp : Contract.permutes L) {A}
    (Q : A -> Prop) (key : A -> cell) (asc : bool) (l : list A) :
  Forall Q l -> Forall Q (sort_values key asc l).
Proof.
  rewrite !Forall_forall. intros H x Hx. apply H.
  exact (Permutation_in _ (Hp _ _ _ _) Hx).
Qed.

Lemma palo_alto_severity_level {L : PyLib} (score : string) :
  In (PaloAlto.severity score) PaloAlto.levels.
Proof.
  unfold PaloAlto.severity, PaloAlto.levels.
  destruct (String.eqb _ "i"); [simpl; auto 10|].
  destruct (float score) as [s | ]; [|simpl; auto 10].
  destruct (Float.ge s Float.f9_0); [simpl; auto 10|].
  destruct (Float.ge s Float.f7_0); [simpl; auto 10|].
  destruct (Float.ge s Float.f4_0); simpl; auto 10.
Qed.










Example scrape_nvidia_example :
  match Nvidia.scrape_nvidia Examples.nvidia_page with
  | Ok t => map (fun r => (col "Severity" r, col "Publish Date" r)) t
  | Raise _ => []
  end
  = [ (Str "High", Str "29 Apr 2025");
      (Str "NVIDIA products are not affected", Str "29 Apr 2025");
      (Str "N/A", Str "29 Apr 2025") ].
Proof. vm_compute. reflexivity. Qed.


(** ** The enriching scrapers: lookups, cap and order *)

Section RowsLoop.
Context {R : Type} (row : R -> list string * result (option record)).

Lemma rows_loop_calls (rows : list R) (calls : list string) (data : table) :
  exists k,
    fst (Enrich.rows_loop row rows calls data)
    = calls ++ flat_map (fun r => fst (row r)) (firstn k rows).
Proof.
  revert calls data. induction rows as [ | r rows IH]; intros calls data.
  - exists 0. simpl. now rewrite app_nil_r.
  - simpl. destruct (row r) as [c d] eqn:E.
    destruct d as [[x | ] | e].
    + destruct (IH (calls ++ c) (data ++ [x])) as (k & Hk).
      exists (S k). simpl. rewrite Hk, E. simpl. now rewrite app_assoc.
    + destruct (IH (calls ++ c) data) as (k & Hk).
      exists (S k). simpl. rewrite Hk, E. simpl. now rewrite app_assoc.
    + exists 1. simpl. rewrite E. simpl. now rewrite app_nil_r.
Qed.

(** When the loop runs to its end, every row was read without an
    exception, and the table grew by the dicts of the rows that were not
    skipped, in the order of the rows. *)
Lemma rows_loop_Ok (rows : list R) (calls calls' : list string)
    (data t : table) :
  Enrich.rows_loop row rows calls data = (calls', Ok t) ->
  exists kept,
    t = data ++ kept /\
    Forall (fun r => exists o, snd (row r) = Ok o) rows /\
    Forall2 (fun r d => snd (row r) = Ok (Some d))
      (filter (fun r => match snd (row r) with
                        | Ok (Some _) => true
                        | _ => false
                        end) rows)
      kept.
Proof.
  revert calls data. induction rows as [ | r rows IH]; intros calls data H.
  - simpl in H. injection H as _ <-. exists []. rewrite app_nil_r.
    repeat constructor.
  - simpl in H. destruct (row r) as [c d] eqn:E.
    destruct d as [[x | ] | e]; [| |discriminate].
    + destruct (IH _ _ H) as (kept & -> & Hall & Hkept).
      exists (x :: kept). rewrite <- app_assoc. split; [reflexivity|].
      split.
      * constructor; [rewrite E; simpl; eauto | exact Hall].
      * simpl. rewrite E. simpl. constructor; [now rewrite E | exact Hkept].
    + destruct (IH _ _ H) as (kept & -> & Hall & Hkept).
      exists kept. split; [reflexivity|]. split.
      * constructor; [rewrite E; simpl; eauto | exact Hall].
      * simpl. rewrite E. simpl. exact Hkept.
Qed.

End RowsLoop.

Lemma nvd_for_calls (key : string) (net : Nvd.network) (cve_id : string) :
  fst (Enrich.nvd_for key net cve_id) = [] \/
  (fst (Enrich.nvd_for key net cve_id) = [cve_id] /\ cve_id <> "N/A").
Proof.
  unfold Enrich.nvd_for. destruct (String.eqb cve_id "N/A") eqn:E; simpl.
  - now left.
  - right. split; [reflexivity|]. now apply String.eqb_neq.
Qed.

Lemma intel_row_calls (key : string) (net : Nvd.network) (cols : list td) :
  fst (Intel.row key net cols) = [] \/
  (fst (Intel.row key net cols) = [Intel.cve_id_of cols] /\
   Intel.cve_id_of cols <> "N/A").
Proof.
  unfold Intel.row.
  destruct cols as [ | c0 [ | c1 [ | c2 [ | c3 rest]]]]; try (now left).
  destruct (href_or "#" (td_a c0)); [|now left].
  destruct (nvd_for_calls key net (Intel.cve_id_of (c0 :: c1 :: c2 :: c3 :: rest)))
    as [H | H];
    destruct (Enrich.nvd_for key net _) as [calls nvd]; simpl in *; auto.
Qed.

Lemma dell_row_calls (key : string) (net : Nvd.network)
    (cells : list Dell.cell_div) :
  fst (Dell.row key net cells) = [] \/
  (fst (Dell.row key net cells) = [Dell.cve_id_of cells] /\
   Dell.cve_id_of cells <> "N/A").
Proof.
  unfold Dell.row.
  destruct cells as [ | c0 [ | c1 [ | c2 [ | c3 [ | c4 [ | c5 rest]]]]]];
    try (now left).
  destruct (href_or "#" (Dell.link c1)); [|now left].
  destruct (nvd_for_calls key net
              (Dell.cve_id_of (c0 :: c1 :: c2 :: c3 :: c4 :: c5 :: rest)))
    as [H | H];
    destruct (Enrich.nvd_for key net _) as [calls nvd]; simpl in *; auto.
Qed.

Lemma cisco_row_calls (key : string) (net : Nvd.network) (r : Cisco.tr) :
  fst (Cisco.row key net r) = [] \/
  (fst (Cisco.row key net r) = [Cisco.cve_id_of r] /\
   Cisco.cve_id_of r <> "N/A").
Proof.
  unfold Cisco.row.
  destruct (match Cisco.advisory r with
            | Ok (t, Some h) => (Str.strip t, Str h)
            | Ok (t, None) => (Str.strip t, PyNone)
            | Raise _ => ("N/A", Str "#")
            end) as [title href].
  destruct (nvd_for_calls key net (Cisco.cve_id_of r)) as [H | H];
    destruct (Enrich.nvd_for key net _) as [calls nvd]; simpl in *; auto.
Qed.


Lemma intel_calls (key : string) (net : Nvd.network) (b : Intel.browser) :
  exists k,
    fst (Intel.scrape_intel key net b)
    = flat_map (fun r => fst (Intel.row key net r))
        (firstn k (firstn 100 (Intel.rows b))).
Proof.
  unfold Intel.scrape_intel.
  destruct (_ <- Intel.setup_driver b ;; Intel.set_user_agent b);
    [|now exists 0].
  destruct (_ <- Intel.get b ;; _ <- Intel.wait_body b ;; _ <- _ ;; _);
    [|now exists 0].
  destruct (rows_loop_calls (Intel.row key net) (firstn 100 (Intel.rows b)) [] [])
    as (k & Hk).
  destruct (Intel.rows b) eqn:E; [now exists 0|]. rewrite <- E in *.
  exists k. destruct (Enrich.rows_loop _ _ _ _). exact Hk.
Qed.

Lemma dell_calls (key : string) (net : Nvd.network) (b : Dell.browser) :
  exists k,
    fst (Dell.scrape_dell key net b)
    = flat_map (fun r => fst (Dell.row key net r))
        (firstn k (firstn 100 (Dell.rows b))).
Proof.
  unfold Dell.scrape_dell.
  destruct (Dell.chrome b); [|now exists 0].
  destruct (_ <- Dell.get b ;; Dell.select_100 b); [|now exists 0].
  destruct (rows_loop_calls (Dell.row key net) (firstn 100 (Dell.rows b)) [] [])
    as (k & Hk).
  destruct (Dell.rows b) eqn:E; [now exists 0|]. rewrite <- E in *.
  exists k. destruct (Enrich.rows_loop _ _ _ _). exact Hk.
Qed.

Lemma cisco_calls (key : string) (net : Nvd.network) (b : Cisco.browser) :
  exists k,
    fst (Cisco.scrape_cisco key net b)
    = flat_map (fun r => fst (Cisco.row key net r))
        (firstn k (Cisco.found_rows b)).
Proof.
  unfold Cisco.scrape_cisco, Cisco.found_rows.
  destruct (_ <- Cisco.setup_driver b ;; Cisco.set_user_agent b);
    [|now exists 0].
  destruct (_ <- Cisco.get b ;; _ <- Cisco.wait_rows b ;; Cisco.rows b)
    as [rs | e] eqn:E; [|now exists 0].
  assert (Hrows : Cisco.rows b = Ok rs).
  { unfold Py.bind in E. destruct (Cisco.get b); [|discriminate].
    now destruct (Cisco.wait_rows b). }
  rewrite Hrows.
  destruct (rows_loop_calls (Cisco.row key net) rs [] []) as (k & Hk).
  destruct rs as [ | r rs]; [now exists 0|].
  exists k. destruct (Enrich.rows_loop _ _ _ _). exact Hk.
Qed.



Lemma intel_row_kept (key : string) (net : Nvd.network) (cols : list td)
    (o : option record) :
  snd (Intel.row key net cols) = Ok o ->
  match o with Some _ => true | None => false end = (4 <=? List.length cols).
Proof.
  unfold Intel.row.
  destruct cols as [ | c0 [ | c1 [ | c2 [ | c3 rest]]]];
    try (simpl; intros H; injection H as <-; reflexivity).
  destruct (href_or "#" (td_a c0)); [|discriminate].
  destruct (Enrich.nvd_for key net _) as [calls [nvd | e]]; simpl;
    [|discriminate].
  destruct (Nvd.capitalized_severity nvd "N/A"); simpl; [|discriminate].
  intros H. injection H as <-. reflexivity.
Qed.

Lemma dell_row_kept (key : string) (net : Nvd.network)
    (cells : list Dell.cell_div) (o : option record) :
  snd (Dell.row key net cells) = Ok o ->
  match o with Some _ => true | None => false end = (6 <=? List.length cells).
Proof.
  unfold Dell.row.
  destruct cells as [ | c0 [ | c1 [ | c2 [ | c3 [ | c4 [ | c5 rest]]]]]];
    try (simpl; intros H; injection H as <-; reflexivity).
  destruct (href_or "#" (Dell.link c1)); [|discriminate].
  destruct (Enrich.nvd_for key net _) as [calls [nvd | e]]; simpl;
    [|discriminate].
  destruct (Nvd.capitalized_severity nvd _); simpl; [|discriminate].
  intros H. injection H as <-. reflexivity.
Qed.

(** The table of a loop that ran to its end over at most 100 rows. *)
Lemma capped_loop_table {R : Type}
    (row : R -> list string * result (option record)) (enough : R -> bool)
    (rows : list R) (calls : list string) (t : table) :
  (forall r o, snd (row r) = Ok o ->
     match o with Some _ => true | None => false end = enough r) ->
  Enrich.rows_loop row (firstn 100 rows) [] [] = (calls, Ok t) ->
  List.length t <= 100 /\
  Forall2 (fun r d => snd (row r) = Ok (Some d))
    (filter enough (firstn 100 rows)) t.
Proof.
  intros Henough H.
  destruct (rows_loop_Ok row _ _ _ _ _ H) as (kept & -> & Hall & Hkept).
  simpl.
  assert (E : filter (fun r => match snd (row r) with
                               | Ok (Some _) => true
                               | _ => false
                               end) (firstn 100 rows)
              = filter enough (firstn 100 rows)).
  { apply filter_ext_in. intros r Hr.
    rewrite Forall_forall in Hall. destruct (Hall r Hr) as (o & Ho).
    rewrite Ho. apply (Henough _ _ Ho). }
  rewrite E in Hkept. split; [|exact Hkept].
  rewrite <- (Forall2_length Hkept).
  etransitivity; [apply filter_length_le|].
  rewrite length_firstn. lia.
Qed.

Example scrape_dell_example :
  match snd (Dell.scrape_dell "" Examples.unreachable Examples.dell_page) with
  | Ok t => map (fun r => (col "Unique ID" r, col "Description" r)) t
  | Raise _ => []
  end
  = [ (Str "CVE-2025-26465", Str "Critical"); (Str "N/A", Str "Critical") ].
Proof. vm_compute. reflexivity. Qed.

(** * Further properties of the scrapers and the enrichment client *)

(** ** Identifiers that reach the enrichment client *)

Lemma first_cve_prefix (tokens : list string) :
  Enrich.first_cve tokens = "N/A" \/
  (Str.startswith "CVE-" (Enrich.first_cve tokens) = true /\
   In (Enrich.first_cve tokens) (map Str.strip tokens)).
Proof.
  unfold Enrich.first_cve.
  destruct (filter (Str.startswith "CVE-") (map Str.strip tokens))
    as [ | x l] eqn:E; [now left|].
  right.
  assert (H : In x (filter (Str.startswith "CVE-") (map Str.strip tokens)))
    by (rewrite E; now left).
  apply filter_In in H. tauto.
Qed.

Lemma row_calls_prefix (calls : list string) (tokens : list string) :
  calls = [] \/
  (calls = [Enrich.first_cve tokens] /\ Enrich.first_cve tokens <> "N/A") ->
  Forall (fun id => Str.startswith "CVE-" id = true) calls.
Proof.
  intros [-> | [-> Hne]]; [constructor|].
  repeat constructor.
  destruct (first_cve_prefix tokens) as [H | [H _]]; [contradiction | exact H].
Qed.

Lemma Forall_flat_map_firstn {A B} (P : B -> Prop) (f : A -> list B)
    (k : nat) (l : list A) :
  (forall x, Forall P (f x)) -> Forall P (flat_map f (firstn k l)).
Proof.
  intros H. induction (firstn k l) as [ | x l' IH]; simpl; [constructor|].
  apply Forall_app. split; [apply H | exact IH].
Qed.

(** Whatever the pages show, the Intel, the Dell and the Cisco scraper
    hand to [fetch_nvd_data] only identifiers that start with "CVE-":
    bulletin numbers, "N/A" and empty cells never reach the NVD service. *)
Theorem lookups_are_cve_identifiers :
  forall (key : string) (net : Nvd.network)
         (it : Intel.browser) (de : Dell.browser) (ci : Cisco.browser),
    Forall (fun id => Str.startswith "CVE-" id = true)
      (fst (Intel.scrape_intel key net it)) /\
    Forall (fun id => Str.startswith "CVE-" id = true)
      (fst (Dell.scrape_dell key net de)) /\
    Forall (fun id => Str.startswith "CVE-" id = true)
      (fst (Cisco.scrape_cisco key net ci)).
Proof.
  intros key net it de ci. split; [|split].
  - destruct (intel_calls key net it) as (k & ->).
    apply Forall_flat_map_firstn. intros cols.
    destruct cols as [ | c0 [ | c1 rest]];
      try (apply (row_calls_prefix _ []); left; reflexivity).
    apply (row_calls_prefix _ (Str.split_ws (Str.strip (td_text c1)))).
    apply (intel_row_calls key net (c0 :: c1 :: rest)).
  - destruct (dell_calls key net de) as (k & ->).
    apply Forall_flat_map_firstn. intros cells.
    destruct cells as [ | c0 [ | c1 [ | c2 [ | c3 rest]]]];
      try (apply (row_calls_prefix _ []); left; reflexivity).
    apply (row_calls_prefix _
             (Str.split_on "," (Dell.text_or "N/A" (Dell.cve_span c3)))).
    apply (dell_row_calls key net (c0 :: c1 :: c2 :: c3 :: rest)).
  - destruct (cisco_calls key net ci) as (k & ->).
    apply Forall_flat_map_firstn. intros r.
    apply (row_calls_prefix _ (Str.split_ws (Cisco.or_na (Cisco.cve r)))).
    apply (cisco_row_calls key net r).
Qed.

(** ** What the enrichment changes in the Intel and Cisco tables *)

Lemma nvd_for_Ok (key : string) (net : Nvd.network) (cve_id : string) :
  exists d, snd (Enrich.nvd_for key net cve_id) = Ok d.
Proof.
  unfold Enrich.nvd_for. destruct (String.eqb cve_id "N/A"); simpl.
  - now exists Nvd.unknown.
  - apply fetch_nvd_data_total.
Qed.

Lemma capitalized_severity_raise (nvd : Nvd.nvd_data) (fallback : string)
    (e : exn) :
  Nvd.capitalized_severity nvd fallback = Raise e -> e = AttributeError.
Proof.
  unfold Nvd.capitalized_severity.
  destruct (Nvd.severity_level nvd); try (intros H; now injection H as <-).
  destruct (String.eqb s "N/A"); discriminate.
Qed.

Lemma href_or_raise (default : string) (a : option anchor) (e : exn) :
  href_or default a = Raise e -> e = KeyError.
Proof.
  unfold href_or. destruct a as [a | ]; [|discriminate].
  destruct (a_href a); [discriminate|]. intros H. now injection H as <-.
Qed.

Lemma intel_row_raise (key : string) (net : Nvd.network) (cols : list td)
    (e : exn) :
  snd (Intel.row key net cols) = Raise e -> is_WebDriverException e = false.
Proof.
  unfold Intel.row.
  destruct cols as [ | c0 [ | c1 [ | c2 [ | c3 rest]]]]; try discriminate.
  destruct (href_or "#" (td_a c0)) eqn:Eh.
  - destruct (nvd_for_Ok key net (Intel.cve_id_of (c0 :: c1 :: c2 :: c3 :: rest)))
      as (d & Hd).
    destruct (Enrich.nvd_for key net _) as [calls nvd]. simpl in Hd. subst nvd.
    simpl. destruct (Nvd.capitalized_severity d "N/A") eqn:Ec; [discriminate|].
    simpl. intros H. injection H as <-.
    now rewrite (capitalized_severity_raise _ _ _ Ec).
  - simpl. intros H. injection H as <-. now rewrite (href_or_raise _ _ _ Eh).
Qed.

Lemma cisco_row_raise (key : string) (net : Nvd.network) (r : Cisco.tr)
    (e : exn) :
  snd (Cisco.row key net r) = Raise e -> is_WebDriverException e = false.
Proof.
  unfold Cisco.row.
  destruct (match Cisco.advisory r with
            | Ok (t, Some h) => (Str.strip t, Str h)
            | Ok (t, None) => (Str.strip t, PyNone)
            | Raise _ => ("N/A", Str "#")
            end) as [title href].
  destruct (nvd_for_Ok key net (Cisco.cve_id_of r)) as (d & Hd).
  destruct (Enrich.nvd_for key net _) as [calls nvd]. simpl in Hd. subst nvd.
  simpl. destruct (Nvd.capitalized_severity d "N/A") eqn:Ec; [discriminate|].
  simpl. intros H. injection H as <-.
  now rewrite (capitalized_severity_raise _ _ _ Ec).
Qed.

Lemma intel_row_same (key key' : string) (net net' : Nvd.network)
    (cols : list td) (o o' : option record) :
  snd (Intel.row key net cols) = Ok o ->
  snd (Intel.row key' net' cols) = Ok o' -> o = o'.
Proof.
  unfold Intel.row.
  destruct cols as [ | c0 [ | c1 [ | c2 [ | c3 rest]]]];
    try (simpl; congruence).
  destruct (href_or "#" (td_a c0)); [|discriminate].
  destruct (Enrich.nvd_for key net _) as [calls [nvd | e]];
    destruct (Enrich.nvd_for key' net' _) as [calls' [nvd' | e']];
    simpl; try discriminate.
  destruct (Nvd.capitalized_severity nvd "N/A"); simpl; [|discriminate].
  destruct (Nvd.capitalized_severity nvd' "N/A"); simpl; [|discriminate].
  congruence.
Qed.

Lemma cisco_row_same (key key' : string) (net net' : Nvd.network)
    (r : Cisco.tr) (o o' : option record) :
  snd (Cisco.row key net r) = Ok o ->
  snd (Cisco.row key' net' r) = Ok o' -> o = o'.
Proof.
  unfold Cisco.row.
  destruct (match Cisco.advisory r with
            | Ok (t, Some h) => (Str.strip t, Str h)
            | Ok (t, None) => (Str.strip t, PyNone)
            | Raise _ => ("N/A", Str "#")
            end) as [title href].
  destruct (Enrich.nvd_for key net _) as [calls [nvd | e]];
    destruct (Enrich.nvd_for key' net' _) as [calls' [nvd' | e']];
    simpl; try discriminate.
  destruct (Nvd.capitalized_severity nvd "N/A"); simpl; [|discriminate].
  destruct (Nvd.capitalized_severity nvd' "N/A"); simpl; [|discriminate].
  congruence.
Qed.

Lemma rows_loop_Raise {R : Type}
    (row : R -> list string * result (option record)) (rows : list R)
    (calls calls' : list string) (data : table) (e : exn) :
  Enrich.rows_loop row rows calls data = (calls', Raise e) ->
  exists r, In r rows /\ snd (row r) = Raise e.
Proof.
  revert calls data. induction rows as [ | r rows IH]; intros calls data H.
  - discriminate.
  - simpl in H. destruct (row r) as [c d] eqn:E.
    destruct d as [[x | ] | e'].
    + destruct (IH _ _ H) as (r' & Hin & Hr). exists r'. split; [now right|auto].
    + destruct (IH _ _ H) as (r' & Hin & Hr). exists r'. split; [now right|auto].
    + injection H as _ <-. exists r. split; [now left | now rewrite E].
Qed.

(** Two runs of the loop over the same rows that both reach the end
    build the same table, when a row's dict does not depend on the run. *)
Lemma rows_loop_same {R : Type}
    (row row' : R -> list string * result (option record)) (rows : list R)
    (calls calls' : list string) (t t' : table) :
  (forall r o o', snd (row r) = Ok o -> snd (row' r) = Ok o' -> o = o') ->
  Enrich.rows_loop row rows [] [] = (calls, Ok t) ->
  Enrich.rows_loop row' rows [] [] = (calls', Ok t') ->
  t = t'.
Proof.
  intros Hsame.
  assert (G : forall c1 c2 d,
             Enrich.rows_loop row rows c1 d = (calls, Ok t) ->
             Enrich.rows_loop row' rows c2 d = (calls', Ok t') -> t = t').
  { induction rows as [ | r rows IH]; intros c1 c2 d H H'.
    - simpl in *. congruence.
    - simpl in H, H'.
      destruct (row r) as [c o] eqn:E, (row' r) as [c' o'] eqn:E'.
      destruct o as [o | e]; [|discriminate].
      destruct o' as [o' | e']; [|destruct o; discriminate].
      assert (Ho : o = o')
        by (apply (Hsame r); [now rewrite E | now rewrite E']).
      subst o'. destruct o; exact (IH _ _ _ H H'). }
  apply G.
Qed.

(** The looked-up severity never reaches the table of the Intel or the
    Cisco scraper: two runs over the same page, with any API keys and any
    answers of the NVD service, that both return a table return the same
    table.  The enrichment can only decide whether the run survives. *)
Theorem enrichment_leaves_no_trace :
  forall (key key' : string) (net net' : Nvd.network)
         (it : Intel.browser) (ci : Cisco.browser),
    (forall t t',
       snd (Intel.scrape_intel key net it) = Ok t ->
       snd (Intel.scrape_intel key' net' it) = Ok t' -> t = t') /\
    (forall t t',
       snd (Cisco.scrape_cisco key net ci) = Ok t ->
       snd (Cisco.scrape_cisco key' net' ci) = Ok t' -> t = t').
Proof.
  intros key key' net net' it ci. split; intros t t'.
  - unfold Intel.scrape_intel.
    destruct (_ <- Intel.setup_driver it ;; Intel.set_user_agent it);
      [|simpl; congruence].
    destruct (_ <- Intel.get it ;; _ <- Intel.wait_body it ;; _ <- _ ;; _)
      as [ | e]; [|simpl; congruence].
    destruct (Intel.rows it) eqn:Erows; [simpl; congruence|].
    rewrite <- Erows.
    destruct (Enrich.rows_loop (Intel.row key net) _ _ _)
      as [calls [u | e]] eqn:E;
      destruct (Enrich.rows_loop (Intel.row key' net') _ _ _)
        as [calls' [u' | e']] eqn:E'; simpl.
    + intros H H'. injection H as <-. injection H' as <-.
      exact (rows_loop_same _ _ _ _ _ _ _
               (fun r => intel_row_same key key' net net' r) E E').
    + intros _.
      destruct (rows_loop_Raise _ _ _ _ _ _ E') as (r & _ & Hr).
      now rewrite (intel_row_raise _ _ _ _ Hr).
    + destruct (rows_loop_Raise _ _ _ _ _ _ E) as (r & _ & Hr).
      now rewrite (intel_row_raise _ _ _ _ Hr).
    + destruct (rows_loop_Raise _ _ _ _ _ _ E) as (r & _ & Hr).
      now rewrite (intel_row_raise _ _ _ _ Hr).
  - unfold Cisco.scrape_cisco.
    destruct (_ <- Cisco.setup_driver ci ;; Cisco.set_user_agent ci);
      [|simpl; congruence].
    destruct (_ <- Cisco.get ci ;; _ <- Cisco.wait_rows ci ;; Cisco.rows ci)
      as [[ | r rs] | e]; [simpl; congruence | | simpl; congruence].
    destruct (Enrich.rows_loop (Cisco.row key net) _ _ _)
      as [calls [u | e]] eqn:E;
      destruct (Enrich.rows_loop (Cisco.row key' net') _ _ _)
        as [calls' [u' | e']] eqn:E'; simpl.
    + intros H H'. injection H as <-. injection H' as <-.
      exact (rows_loop_same _ _ _ _ _ _ _
               (fun r => cisco_row_same key key' net net' r) E E').
    + intros _.
      destruct (rows_loop_Raise _ _ _ _ _ _ E') as (r' & _ & Hr).
      now rewrite (cisco_row_raise _ _ _ _ Hr).
    + destruct (rows_loop_Raise _ _ _ _ _ _ E) as (r' & _ & Hr).
      now rewrite (cisco_row_raise _ _ _ _ Hr).
    + destruct (rows_loop_Raise _ _ _ _ _ _ E) as (r' & _ & Hr).
      now rewrite (cisco_row_raise _ _ _ _ Hr).
Qed.

Lemma enrichment_leaves_no_trace_witness :
  exists t,
    snd (Intel.scrape_intel "key" (Examples.answers Examples.nvd_document)
           Examples.intel_page) = Ok t /\
    snd (Intel.scrape_intel "" Examples.unreachable Examples.intel_page) = Ok t /\
    List.length t = 3.
Proof.
  destruct (snd (Intel.scrape_intel "key" (Examples.answers Examples.nvd_document)
                   Examples.intel_page)) as [t | e] eqn:E;
    [|vm_compute in E; discriminate].
  destruct (snd (Intel.scrape_intel "" Examples.unreachable Examples.intel_page))
    as [t' | e] eqn:E'; [|vm_compute in E'; discriminate].
  destruct (enrichment_leaves_no_trace "key" "" (Examples.answers Examples.nvd_document)
              Examples.unreachable Examples.intel_page Examples.cisco_page)
    as [Hintel _].
  exists t. split; [reflexivity|]. split.
  - now rewrite (Hintel t t' E E').
  - vm_compute in E. injection E as <-. reflexivity.
Defined.

(** ** The retry loop of the NVIDIA scraper *)

Lemma nvidia_rows_loop_cells (cs : list Nvidia.cells) (rest : list Nvidia.tr)
    (data : table) :
  Nvidia.rows_loop (map Nvidia.Cells cs ++ rest) data
  = Nvidia.rows_loop rest (data ++ map Nvidia.record_of cs).
Proof.
  revert data. induction cs as [ | c cs IH]; intros data; simpl.
  - now rewrite app_nil_r.
  - rewrite IH, <- app_assoc. reflexivity.
Qed.

(** [data] is not cleared between the attempts: when a row of the first
    attempt is stale, the rows read before it stay in the list, and the
    second attempt appends every row it reads after them.  A page that did
    not change in between is returned with its first rows twice. *)
Theorem nvidia_retry_repeats_rows :
  forall (b : Nvidia.browser) (cs cs' : list Nvidia.cells)
         (rest : list Nvidia.tr),
    Nvidia.setup_driver b = Ok tt -> Nvidia.get b = Ok tt ->
    Nvidia.wait_body b = Ok tt -> Nvidia.wait_table b = Ok tt ->
    Nvidia.find_rows b 0
    = Ok (map Nvidia.Cells cs ++ Nvidia.Broken StaleElementReferenceException :: rest) ->
    Nvidia.find_rows b 1 = Ok (map Nvidia.Cells cs') ->
    Nvidia.scrape_nvidia b
    = Ok (map Nvidia.record_of cs ++ map Nvidia.record_of cs').
Proof.
  intros b cs cs' rest Hs Hg Hb Ht H0 H1.
  unfold Nvidia.scrape_nvidia. rewrite Hs, Hg, Hb, Ht. simpl.
  rewrite H0, nvidia_rows_loop_cells. simpl.
  rewrite H1. rewrite <- (app_nil_r (map Nvidia.Cells cs')).
  rewrite nvidia_rows_loop_cells. reflexivity.
Qed.

Lemma nvidia_retry_repeats_rows_witness :
  Nvidia.scrape_nvidia Pages.nvidia_stale
  = Ok [ Nvidia.record_of Pages.tensorrt;
         Nvidia.record_of Pages.tensorrt;
         Nvidia.record_of Pages.nemo ].
Proof.
  apply (nvidia_retry_repeats_rows Pages.nvidia_stale
           [Pages.tensorrt] [Pages.tensorrt; Pages.nemo]
           [Nvidia.Cells Pages.nemo]);
    reflexivity.
Defined.

(** A row that raises any other Selenium exception (a first cell without
    a link raises [NoSuchElementException]) leaves the retry loop through
    the outer handler, which returns an empty frame: the rows read before
    it are lost. *)
Theorem nvidia_broken_row_empties_table :
  forall (b : Nvidia.browser) (cs : list Nvidia.cells) (e : exn)
         (rest : list Nvidia.tr),
    Nvidia.setup_driver b = Ok tt -> Nvidia.get b = Ok tt ->
    Nvidia.wait_body b = Ok tt -> Nvidia.wait_table b = Ok tt ->
    Nvidia.find_rows b 0 = Ok (map Nvidia.Cells cs ++ Nvidia.Broken e :: rest) ->
    is_WebDriverException e = true -> is_Stale e = false ->
    Nvidia.scrape_nvidia b = Ok [].
Proof.
  intros b cs e rest Hs Hg Hb Ht H0 Hw Hstale.
  unfold Nvidia.scrape_nvidia. rewrite Hs, Hg, Hb, Ht. simpl.
  rewrite H0, nvidia_rows_loop_cells. simpl. rewrite Hstale. simpl.
  now rewrite Hw.
Qed.

Lemma nvidia_broken_row_empties_table_witness :
  Nvidia.scrape_nvidia Pages.nvidia_no_link = Ok [].
Proof.
  apply (nvidia_broken_row_empties_table Pages.nvidia_no_link
           [Pages.tensorrt] NoSuchElementException [Nvidia.Cells Pages.nemo]);
    reflexivity.
Defined.

(** ** The table that the Palo Alto scraper returns *)

Lemma drop_duplicates_from_NoDup {A} (key : A -> cell) (seen : list cell)
    (l : list A) :
  NoDup (map key (drop_duplicates_from key seen l)) /\
  forall x, In x (drop_duplicates_from key seen l) -> ~ In (key x) seen.
Proof.
  revert seen. induction l as [ | r l IH]; intros seen; simpl.
  - split; [constructor | intros x []].
  - destruct (existsb (cell_eqb (key r)) seen) eqn:E; [apply IH|].
    destruct (IH (key r :: seen)) as [Hnd Hout]. split.
    + simpl. constructor; [|exact Hnd].
      intros Hin. apply in_map_iff in Hin. destruct Hin as (x & Hk & Hx).
      apply (Hout x Hx). left. now symmetry.
    + intros x [<- | Hx].
      * intros Hin. apply Bool.not_true_iff_false in E. apply E.
        apply existsb_exists. exists (key r). split; [exact Hin|].
        apply cell_eqb_refl.
      * intros Hin. apply (Hout x Hx). now right.
Qed.

Lemma drop_duplicates_from_keys {A} (key : A -> cell) (seen : list cell)
    (l : list A) (k : cell) :
  In k (map key l) -> ~ In k seen ->
  In k (map key (drop_duplicates_from key seen l)).
Proof.
  revert seen. induction l as [ | r l IH]; intros seen; simpl; [tauto|].
  intros [Hk | Hk] Hout.
  - subst k. destruct (existsb (cell_eqb (key r)) seen) eqn:E.
    + exfalso. apply existsb_exists in E. destruct E as (y & Hy & Hyr).
      apply cell_eqb_eq in Hyr. subst y. now apply Hout.
    + now left.
  - destruct (existsb (cell_eqb (key r)) seen) eqn:E.
    + now apply IH.
    + destruct (cell_eqb (key r) k) eqn:Ek.
      * apply cell_eqb_eq in Ek. now left.
      * right. apply IH; [exact Hk|]. intros [Heq | Hin]; [|now apply Hout].
        subst k. now rewrite cell_eqb_refl in Ek.
Qed.

Lemma palo_alto_complete_run {L : PyLib} (b : PaloAlto.browser)
    (rows : list (list td)) (data : table) :
  PaloAlto.harvest b = Ok rows ->
  PaloAlto.process rows [] = (data, Ok tt) ->
  PaloAlto.to_csv b = Ok tt ->
  PaloAlto.scrape_palo_alto b
  = Ok (match data with
        | [] => []
        | _ =>
            let df := PaloAlto.deduplicate data in
            sort_values (col "Published Date") false
              (set_column "Published Date"
                 (to_datetime (map (col "Published Date") df)) df)
        end).
Proof.
  intros Hh Hproc Hcsv.
  unfold PaloAlto.scrape_palo_alto. rewrite Hh, Hproc.
  unfold PaloAlto.finish, Py.bind. destruct data; [reflexivity|].
  now rewrite Hcsv.
Qed.

(** On a run that reads every row and saves its file, no two rows of the
    returned table have the same "Unique ID", and the identifiers of the
    table are those of the harvested rows.  The advisories whose summary
    starts with neither "CVE-" nor "PAN-SA-" all carry the identifier
    "N/A": one of them is returned. *)
Theorem palo_alto_unique_ids :
  forall (L : PyLib), Contract.permutes L ->
  forall (b : PaloAlto.browser) (rows : list (list td)) (data : table),
    PaloAlto.harvest b = Ok rows ->
    PaloAlto.process rows [] = (data, Ok tt) ->
    PaloAlto.to_csv b = Ok tt ->
    exists t,
      PaloAlto.scrape_palo_alto b = Ok t /\
      NoDup (map (col "Unique ID") t) /\
      forall id, In id (map (col "Unique ID") t)
                 <-> In id (map (col "Unique ID") data).
Proof.
  intros L Hp b rows data Hh Hproc Hcsv.
  rewrite (palo_alto_complete_run b rows data Hh Hproc Hcsv).
  eexists. split; [reflexivity|].
  destruct data as [ | d data].
  { repeat split; auto; constructor. }
  remember (d :: data) as data0 eqn:E0. cbv zeta.
  set (df1 := PaloAlto.deduplicate data0).
  set (df2 := set_column "Published Date" _ df1).
  assert (Hperm : Permutation
                    (map (col "Unique ID")
                       (sort_values (col "Published Date") false df2))
                    (map (col "Unique ID") df1)).
  { etransitivity; [apply Permutation_map, Hp|].
    unfold df2. rewrite set_column_other; [reflexivity | discriminate]. }
  split.
  - apply (Permutation_NoDup (Permutation_sym Hperm)).
    apply drop_duplicates_from_NoDup.
  - intros id. split; intros Hin.
    + apply (Permutation_in _ Hperm) in Hin.
      apply in_map_iff in Hin. destruct Hin as (x & <- & Hx).
      apply in_map.
      apply In_drop_duplicates_from in Hx.
      exact (Permutation_in _ (Hp _ _ _ _) Hx).
    + apply (Permutation_in _ (Permutation_sym Hperm)).
      apply drop_duplicates_from_keys; [|intros []].
      apply in_map_iff in Hin. destruct Hin as (x & <- & Hx).
      apply in_map.
      exact (Permutation_in _ (Permutation_sym (Hp _ _ _ _)) Hx).
Qed.

Lemma palo_alto_unique_ids_witness :
  exists t,
    PaloAlto.scrape_palo_alto (L := Ref.lib) Examples.pa_page = Ok t /\
    NoDup (map (col "Unique ID") t) /\
    List.length Examples.pa_data = 3 /\ List.length t = 2.
Proof.
  destruct (palo_alto_unique_ids Ref.lib ref_permutes Examples.pa_page
              Examples.pa_rows Examples.pa_data)
    as (t & Ht & Hnd & _); try reflexivity.
  exists t. split; [exact Ht|]. split; [exact Hnd|]. split; [reflexivity|].
  vm_compute in Ht. injection Ht as <-. reflexivity.
Defined.

(** On such a run every "Published Date" of the returned table is a date
    or [NaT], and the rows are in descending order of that date, the
    rows without a readable date last. *)
Theorem palo_alto_sorted_by_date :
  forall (L : PyLib),
    Contract.coerces L -> Contract.permutes L -> Contract.orders_dates L ->
  forall (b : PaloAlto.browser) (rows : list (list td)) (data : table),
    PaloAlto.harvest b = Ok rows ->
    PaloAlto.process rows [] = (data, Ok tt) ->
    PaloAlto.to_csv b = Ok tt ->
    exists t,
      PaloAlto.scrape_palo_alto b = Ok t /\
      Forall (fun r => is_datetime (col "Published Date" r) = true) t /\
      StronglySorted
        (fun x y => cell_before false (col "Published Date" x)
                      (col "Published Date" y) = true) t.
Proof.
  intros L Hc Hp Ho b rows data Hh Hproc Hcsv.
  rewrite (palo_alto_complete_run b rows data Hh Hproc Hcsv).
  eexists. split; [reflexivity|].
  destruct data as [ | d data].
  { repeat split; constructor. }
  remember (d :: data) as data0 eqn:E0. cbv zeta.
  set (df1 := PaloAlto.deduplicate data0).
  set (df2 := set_column "Published Date" _ df1).
  assert (Hdates : forallb (fun r => is_datetime (col "Published Date" r)) df2
                   = true).
  { destruct (Hc (map (col "Published Date") df1)) as [Hlen Hall].
    rewrite length_map in Hlen.
    pose proof (set_column_same "Published Date" _ df1 Hlen) as Hcol.
    fold df2 in Hcol. rewrite <- Hcol in Hall.
    rewrite forallb_forall in Hall. apply forallb_forall. intros r Hr.
    apply Hall. now apply in_map. }
  split.
  - apply (Forall_sort_values Hp). apply Forall_forall.
    rewrite forallb_forall in Hdates. exact Hdates.
  - apply Ho. exact Hdates.
Qed.

Lemma palo_alto_sorted_by_date_witness :
  exists t,
    PaloAlto.scrape_palo_alto (L := Ref.lib) Examples.pa_page = Ok t /\
    map (col "Published Date") t
    = [Timestamp 1744243200; Timestamp 1744156800].
Proof.
  destruct (palo_alto_sorted_by_date Ref.lib ref_coerces ref_permutes
              ref_orders_dates Examples.pa_page Examples.pa_rows
              Examples.pa_data)
    as (t & Ht & _); try reflexivity.
  exists t. split; [exact Ht|].
  vm_compute in Ht. injection Ht as <-. reflexivity.
Defined.

Lemma palo_alto_process_app {L : PyLib} (pre rest : list (list td))
    (data : table) :
  Forall (fun r => exists o, PaloAlto.row r = Ok o) pre ->
  PaloAlto.process (pre ++ rest) data
  = PaloAlto.process rest
      (data ++ flat_map (fun r => match PaloAlto.row r with
                                  | Ok (Some d) => [d]
                                  | _ => []
                                  end) pre).
Proof.
  intros H. revert data. induction H as [ | r pre (o & Hr) _ IH]; intros data.
  - simpl. now rewrite app_nil_r.
  - simpl. rewrite Hr. destruct o as [d | ].
    + rewrite IH, <- app_assoc. reflexivity.
    + rewrite IH. reflexivity.
Qed.

(** When a row cannot be read (its summary link has no [href]), the
    handler returns the rows gathered so far as they are: in page order,
    not deduplicated, their dates still text.  The same happens when every
    row is read and the file cannot be written. *)
Theorem palo_alto_failure_returns_raw_rows :
  forall (L : PyLib) (b : PaloAlto.browser),
    (forall pre bad rest e,
       PaloAlto.harvest b = Ok (pre ++ bad :: rest) ->
       Forall (fun r => exists o, PaloAlto.row r = Ok o) pre ->
       PaloAlto.row bad = Raise e ->
       PaloAlto.scrape_palo_alto b
       = Ok (flat_map (fun r => match PaloAlto.row r with
                                | Ok (Some d) => [d]
                                | _ => []
                                end) pre)) /\
    (forall rows e,
       PaloAlto.harvest b = Ok rows ->
       Forall (fun r => exists o, PaloAlto.row r = Ok o) rows ->
       PaloAlto.to_csv b = Raise e ->
       PaloAlto.scrape_palo_alto b
       = Ok (flat_map (fun r => match PaloAlto.row r with
                                | Ok (Some d) => [d]
                                | _ => []
                                end) rows)).
Proof.
  intros L b. split.
  - intros pre bad rest e Hh Hpre Hbad.
    unfold PaloAlto.scrape_palo_alto. rewrite Hh.
    rewrite (palo_alto_process_app pre (bad :: rest) [] Hpre).
    simpl. rewrite Hbad. reflexivity.
  - intros rows e Hh Hrows Hcsv.
    unfold PaloAlto.scrape_palo_alto. rewrite Hh.
    rewrite <- (app_nil_r rows) at 1.
    rewrite (palo_alto_process_app rows [] [] Hrows).
    simpl. unfold PaloAlto.finish, Py.bind.
    destruct (flat_map _ rows); [reflexivity|].
    now rewrite Hcsv.
Qed.

Lemma palo_alto_failure_returns_raw_rows_witness :
  (exists t,
     PaloAlto.scrape_palo_alto (L := Ref.lib)
       (Pages.pa_with Pages.pa_bad_link_rows (Ok tt)) = Ok t /\
     map (col "URL") t
     = [ Str "https://security.paloaltonetworks.com/CVE-2025-0128";
         Str "https://security.paloaltonetworks.com/CVE-2025-0128-rev" ]) /\
  (exists t,
     PaloAlto.scrape_palo_alto (L := Ref.lib)
       (Pages.pa_with Examples.pa_rows (Raise (Exception_ "read-only file system")))
     = Ok t /\
     map (col "Published Date") t
     = [Str "2025-04-09"; Str "2025-04-10"; Str "2025-04-11"]).
Proof.
  destruct (palo_alto_failure_returns_raw_rows Ref.lib
              (Pages.pa_with Pages.pa_bad_link_rows (Ok tt))) as [Hrow _].
  destruct (palo_alto_failure_returns_raw_rows Ref.lib
              (Pages.pa_with Examples.pa_rows
                 (Raise (Exception_ "read-only file system")))) as [_ Hcsv].
  split.
  - eexists. split.
    + apply (Hrow (firstn 3 Pages.pa_bad_link_rows)
                  (nth 3 Pages.pa_bad_link_rows [])
                  (skipn 4 Pages.pa_bad_link_rows) KeyError).
      * reflexivity.
      * repeat constructor; eexists; vm_compute; reflexivity.
      * reflexivity.
    + reflexivity.
  - eexists. split.
    + apply (Hcsv Examples.pa_rows (Exception_ "read-only file system")).
      * reflexivity.
      * repeat constructor; eexists; vm_compute; reflexivity.
      * reflexivity.
    + reflexivity.
Defined.

(** ** Links *)

Lemma not_relative (c : ascii) (site link : string) :
  Ascii.eqb "/" c = false ->
  Str.startswith "/"
    (if Str.startswith "/" link then (String c site ++ link)%string else link)
  = false.
Proof.
  intros Hc. destruct (Str.startswith "/" link) eqn:E; [|exact E].
  cbn -[Ascii.eqb]. now rewrite Hc.
Qed.

Lemma intel_row_url (key : string) (net : Nvd.network) (cols : list td)
    (d : record) :
  snd (Intel.row key net cols) = Ok (Some d) ->
  exists u, col "URL" d = Str u /\ Str.startswith "/" u = false.
Proof.
  unfold Intel.row.
  destruct cols as [ | c0 [ | c1 [ | c2 [ | c3 rest]]]]; try discriminate.
  destruct (href_or "#" (td_a c0)) as [link | e]; [|discriminate].
  destruct (Enrich.nvd_for key net _) as [calls [nvd | e]];
    cbn [snd Py.bind]; [|discriminate].
  destruct (Nvd.capitalized_severity nvd "N/A"); cbn [snd Py.bind];
    [|discriminate].
  set (u := if Str.startswith "/" link then _ else link).
  assert (Hu : Str.startswith "/" u = false)
    by now apply (not_relative "h").
  clearbody u. intros H. injection H as <-. now exists u.
Qed.

Lemma dell_row_url (key : string) (net : Nvd.network)
    (cells : list Dell.cell_div) (d : record) :
  snd (Dell.row key net cells) = Ok (Some d) ->
  exists u, col "URL" d = Str u /\ Str.startswith "/" u = false.
Proof.
  unfold Dell.row.
  destruct cells as [ | c0 [ | c1 [ | c2 [ | c3 [ | c4 [ | c5 rest]]]]]];
    try discriminate.
  destruct (href_or "#" (Dell.link c1)) as [link | e]; [|discriminate].
  destruct (Enrich.nvd_for key net _) as [calls [nvd | e]];
    cbn [snd Py.bind]; [|discriminate].
  destruct (Nvd.capitalized_severity nvd _); cbn [snd Py.bind];
    [|discriminate].
  set (u := if Str.startswith "/" link then _ else link).
  assert (Hu : Str.startswith "/" u = false)
    by now apply (not_relative "h").
  clearbody u. intros H. injection H as <-. now exists u.
Qed.

Lemma palo_alto_row_url {L : PyLib} (cols : list td) (d : record) :
  PaloAlto.row cols = Ok (Some d) ->
  exists u, field "URL" d = Some (Str u) /\
            (u = "N/A" \/ Str.startswith "http" u = true).
Proof.
  intros H. unfold PaloAlto.row in H.
  destruct cols as [ | c0 [ | c1 [ | c2 [ | c3 [ | c4 [ | c5 [ | c6 [ | ? ?]]]]]]]];
    try discriminate.
  unfold Py.bind in H.
  destruct (href_or "N/A" (td_a c1)) as [url | e]; [|discriminate].
  destruct (PaloAlto.cve_id_of _) as [cve_id | e]; [|discriminate].
  set (u := if negb (String.eqb url "N/A") && _ then _ else url) in H.
  assert (Hu : u = "N/A" \/ Str.startswith "http" u = true).
  { unfold u. destruct (String.eqb url "N/A") eqn:E.
    - left. now apply String.eqb_eq.
    - right. destruct (Str.startswith "http" url) eqn:E'; [exact E'|].
      reflexivity. }
  clearbody u. injection H as <-. now exists u.
Qed.

Lemma rows_loop_Forall {R : Type}
    (row : R -> list string * result (option record)) (Q : record -> Prop)
    (rows : list R) (calls : list string) (t : table) :
  (forall r d, snd (row r) = Ok (Some d) -> Q d) ->
  Enrich.rows_loop row rows [] [] = (calls, Ok t) ->
  Forall Q t.
Proof.
  intros HQ H.
  destruct (rows_loop_Ok row _ _ _ _ _ H) as (kept & -> & _ & Hkept).
  simpl. clear H. induction Hkept as [ | r d rs ds Hr _ IH]; constructor.
  - exact (HQ _ _ Hr).
  - exact IH.
Qed.

Lemma intel_table_Forall (Q : record -> Prop) (key : string)
    (net : Nvd.network) (b : Intel.browser) (t : table) :
  (forall cols d, snd (Intel.row key net cols) = Ok (Some d) -> Q d) ->
  snd (Intel.scrape_intel key net b) = Ok t -> Forall Q t.
Proof.
  intros HQ. unfold Intel.scrape_intel.
  destruct (_ <- Intel.setup_driver b ;; Intel.set_user_agent b);
    [|discriminate].
  destruct (_ <- Intel.get b ;; _ <- Intel.wait_body b ;; _ <- _ ;; _)
    as [ | e].
  2:{ simpl. destruct (is_WebDriverException e); [|discriminate].
      intros H. injection H as <-. constructor. }
  destruct (Intel.rows b) eqn:Erows.
  { simpl. intros H. injection H as <-. constructor. }
  rewrite <- Erows.
  destruct (Enrich.rows_loop (Intel.row key net) _ _ _) as [calls [u | e]] eqn:E;
    simpl.
  - intros H. injection H as <-. exact (rows_loop_Forall _ Q _ _ _ HQ E).
  - destruct (is_WebDriverException e); [|discriminate].
    intros H. injection H as <-. constructor.
Qed.

Lemma dell_table_Forall (Q : record -> Prop) (key : string)
    (net : Nvd.network) (b : Dell.browser) (t : table) :
  (forall cells d, snd (Dell.row key net cells) = Ok (Some d) -> Q d) ->
  snd (Dell.scrape_dell key net b) = Ok t -> Forall Q t.
Proof.
  intros HQ. unfold Dell.scrape_dell.
  destruct (Dell.chrome b); [|discriminate].
  destruct (_ <- Dell.get b ;; Dell.select_100 b).
  2:{ simpl. intros H. injection H as <-. constructor. }
  destruct (Dell.rows b) eqn:Erows.
  { simpl. intros H. injection H as <-. constructor. }
  rewrite <- Erows.
  destruct (Enrich.rows_loop (Dell.row key net) _ _ _) as [calls [u | e]] eqn:E;
    simpl.
  - intros H. injection H as <-. exact (rows_loop_Forall _ Q _ _ _ HQ E).
  - intros H. injection H as <-. constructor.
Qed.

Lemma palo_alto_table_Forall {L : PyLib} (Hp : Contract.permutes L)
    (Q : record -> Prop) (b : PaloAlto.browser) (t : table) :
  (forall cols d, PaloAlto.row cols = Ok (Some d) -> Q d) ->
  (forall r v, Q r -> Q (set_field "Published Date" v r)) ->
  PaloAlto.scrape_palo_alto b = Ok t -> Forall Q t.
Proof.
  intros HQ Hset. unfold PaloAlto.scrape_palo_alto.
  destruct (PaloAlto.harvest b) as [rows | e].
  2:{ intros H. injection H as <-. constructor. }
  destruct (PaloAlto.process rows []) as [data r] eqn:Ep.
  assert (Hdata : Forall Q data).
  { apply (palo_alto_process_Forall Q HQ _ _ _ _ Ep). constructor. }
  destruct r as [[] | e]; simpl.
  2:{ intros H. injection H as <-. exact Hdata. }
  unfold PaloAlto.finish. destruct data as [ | d data].
  { intros H. injection H as <-. constructor. }
  unfold Py.bind. destruct (PaloAlto.to_csv b).
  2:{ intros H. injection H as <-. exact Hdata. }
  intros H. injection H as <-.
  apply (Forall_sort_values Hp), Forall_set_column; [exact Hset|].
  apply Forall_drop_duplicates, (Forall_sort_values Hp), Hdata.
Qed.

(** No returned link is relative to its site.  A link of the Intel or
    the Dell listing that starts with "/" gets the site in front, so no
    "URL" of their tables starts with "/"; a "URL" of the Palo Alto table
    is "N/A" (a row without a link) or starts with "http". *)
Theorem scraped_links_are_absolute :
  forall (L : PyLib), Contract.permutes L ->
  forall (key : string) (net : Nvd.network)
         (it : Intel.browser) (de : Dell.browser) (pa : PaloAlto.browser),
    (forall t, snd (Intel.scrape_intel key net it) = Ok t ->
       Forall (fun d => exists u, col "URL" d = Str u /\
                                  Str.startswith "/" u = false) t) /\
    (forall t, snd (Dell.scrape_dell key net de) = Ok t ->
       Forall (fun d => exists u, col "URL" d = Str u /\
                                  Str.startswith "/" u = false) t) /\
    (forall t, PaloAlto.scrape_palo_alto pa = Ok t ->
       Forall (fun d => exists u, field "URL" d = Some (Str u) /\
                                  (u = "N/A" \/ Str.startswith "http" u = true))
         t).
Proof.
  intros L Hp key net it de pa. split; [|split]; intros t Ht.
  - exact (intel_table_Forall _ key net it t (intel_row_url key net) Ht).
  - exact (dell_table_Forall _ key net de t (dell_row_url key net) Ht).
  - apply (palo_alto_table_Forall Hp _ pa t); [apply palo_alto_row_url | | exact Ht].
    intros r v (u & Hu & Hor). exists u. split; [|exact Hor].
    rewrite field_set_field_other; [exact Hu | discriminate].
Qed.

Lemma scraped_links_are_absolute_witness :
  exists t,
    snd (Intel.scrape_intel "" Examples.unreachable Examples.intel_page) = Ok t /\
    List.length t = 3 /\
    Forall (fun d => exists u, col "URL" d = Str u /\
                               Str.startswith "/" u = false) t.
Proof.
  destruct (snd (Intel.scrape_intel "" Examples.unreachable Examples.intel_page))
    as [t | e] eqn:E; [|vm_compute in E; discriminate].
  destruct (scraped_links_are_absolute Ref.lib ref_permutes ""
              Examples.unreachable Examples.intel_page Examples.dell_page
              Examples.pa_page) as [Hintel _].
  exists t. split; [reflexivity|]. split.
  - vm_compute in E. injection E as <-. reflexivity.
  - exact (Hintel t E).
Defined.

(** ** A title link without [href] *)

Lemma rows_loop_raises {R : Type}
    (row : R -> list string * result (option record)) (rows : list R)
    (calls : list string) (data : table) (r : R) (e : exn) :
  In r rows -> snd (row r) = Raise e ->
  exists calls' e', Enrich.rows_loop row rows calls data = (calls', Raise e').
Proof.
  revert calls data. induction rows as [ | r0 rows IH]; intros calls data Hin Hr.
  - destruct Hin.
  - simpl. destruct (row r0) as [c d] eqn:E.
    destruct d as [[x | ] | e0]; [| |eauto].
    + destruct Hin as [-> | Hin]; [rewrite E in Hr; discriminate|].
      apply IH; assumption.
    + destruct Hin as [-> | Hin]; [rewrite E in Hr; discriminate|].
      apply IH; assumption.
Qed.

Lemma intel_loaded (key : string) (net : Nvd.network) (b : Intel.browser) :
  Intel.setup_driver b = Ok tt -> Intel.set_user_agent b = Ok tt ->
  Intel.get b = Ok tt -> Intel.wait_body b = Ok tt ->
  (Intel.view_all b = Ok tt \/ Intel.view_all b = Raise TimeoutException) ->
  Intel.wait_ready b = Ok tt ->
  Intel.rows b <> [] ->
  Intel.scrape_intel key net b
  = (fst (Enrich.rows_loop (Intel.row key net) (firstn 100 (Intel.rows b)) [] []),
     try_except
       (snd (Enrich.rows_loop (Intel.row key net) (firstn 100 (Intel.rows b)) [] []))
       is_WebDriverException (fun _ => Ok [])).
Proof.
  intros Hs Hu Hg Hb Hv Hr Hrows.
  unfold Intel.scrape_intel. rewrite Hs, Hu, Hg, Hb.
  unfold Py.bind.
  assert (Hwait : match try_except (Intel.view_all b) is_TimeoutException
                          (fun _ => Ok tt) with
                  | Ok _ => Intel.wait_ready b
                  | Raise e => Raise e
                  end = Ok tt).
  { destruct Hv as [-> | ->]; simpl; exact Hr. }
  rewrite Hwait.
  destruct (Intel.rows b) eqn:Erows; [congruence|].
  rewrite <- Erows.
  destruct (Enrich.rows_loop _ _ _ _). reflexivity.
Qed.

Lemma dell_loaded (key : string) (net : Nvd.network) (b : Dell.browser) :
  Dell.chrome b = Ok tt -> Dell.get b = Ok tt -> Dell.select_100 b = Ok tt ->
  Dell.rows b <> [] ->
  Dell.scrape_dell key net b
  = (fst (Enrich.rows_loop (Dell.row key net) (firstn 100 (Dell.rows b)) [] []),
     try_except
       (snd (Enrich.rows_loop (Dell.row key net) (firstn 100 (Dell.rows b)) [] []))
       any_Exception (fun _ => Ok [])).
Proof.
  intros Hc Hg Hsel Hrows.
  unfold Dell.scrape_dell. rewrite Hc, Hg. unfold Py.bind. rewrite Hsel.
  destruct (Dell.rows b) eqn:Erows; [congruence|].
  rewrite <- Erows.
  destruct (Enrich.rows_loop _ _ _ _). reflexivity.
Qed.

Lemma cisco_loaded (key : string) (net : Nvd.network) (b : Cisco.browser)
    (rs : list Cisco.tr) :
  Cisco.setup_driver b = Ok tt -> Cisco.set_user_agent b = Ok tt ->
  Cisco.get b = Ok tt -> Cisco.wait_rows b = Ok tt ->
  Cisco.rows b = Ok rs -> rs <> [] ->
  Cisco.scrape_cisco key net b
  = (fst (Enrich.rows_loop (Cisco.row key net) rs [] []),
     try_except
       (snd (Enrich.rows_loop (Cisco.row key net) rs [] []))
       is_WebDriverException (fun _ => Ok [])).
Proof.
  intros Hs Hu Hg Hw Hrows Hne.
  unfold Cisco.scrape_cisco. rewrite Hs, Hu, Hg, Hw. unfold Py.bind.
  rewrite Hrows. destruct rs; [congruence|].
  destruct (Enrich.rows_loop _ _ _ _). reflexivity.
Qed.

(** [a["href"]] on a title link without the attribute raises [KeyError].
    In the Intel scraper nothing catches it: the call raises instead of
    returning a frame.  The Dell scraper catches every exception and
    returns an empty frame: one such row among the first hundred costs
    all the rows of the page. *)
Theorem link_without_href_loses_the_table :
  forall (key : string) (net : Nvd.network),
    (forall (b : Intel.browser) (c0 c1 c2 c3 : td) (more : list td)
            (a : anchor),
       Intel.setup_driver b = Ok tt -> Intel.set_user_agent b = Ok tt ->
       Intel.get b = Ok tt -> Intel.wait_body b = Ok tt ->
       (Intel.view_all b = Ok tt \/ Intel.view_all b = Raise TimeoutException) ->
       Intel.wait_ready b = Ok tt ->
       In (c0 :: c1 :: c2 :: c3 :: more) (firstn 100 (Intel.rows b)) ->
       td_a c0 = Some a -> a_href a = None ->
       exists e, snd (Intel.scrape_intel key net b) = Raise e) /\
    (forall (b : Dell.browser) (c0 c1 c2 c3 c4 c5 : Dell.cell_div)
            (more : list Dell.cell_div) (a : anchor),
       Dell.chrome b = Ok tt ->
       In (c0 :: c1 :: c2 :: c3 :: c4 :: c5 :: more) (firstn 100 (Dell.rows b)) ->
       Dell.link c1 = Some a -> a_href a = None ->
       snd (Dell.scrape_dell key net b) = Ok []).
Proof.
  intros key net. split.
  - intros b c0 c1 c2 c3 more a Hs Hu Hg Hb Hv Hr Hin Ha Hh.
    assert (Hrow : snd (Intel.row key net (c0 :: c1 :: c2 :: c3 :: more))
                   = Raise KeyError).
    { unfold Intel.row, href_or. now rewrite Ha, Hh. }
    destruct (rows_loop_raises (Intel.row key net) _ [] [] _ _ Hin Hrow)
      as (calls & e & Hloop).
    destruct (rows_loop_Raise _ _ _ _ _ _ Hloop) as (r' & _ & Hr').
    pose proof (intel_row_raise _ _ _ _ Hr') as Hnw.
    exists e. rewrite (intel_loaded key net b Hs Hu Hg Hb Hv Hr).
    + rewrite Hloop. simpl. now rewrite Hnw.
    + intros Hnil. rewrite Hnil, firstn_nil in Hin. destruct Hin.
  - intros b c0 c1 c2 c3 c4 c5 more a Hc Hin Ha Hh.
    assert (Hrow : snd (Dell.row key net (c0 :: c1 :: c2 :: c3 :: c4 :: c5 :: more))
                   = Raise KeyError).
    { unfold Dell.row, href_or. now rewrite Ha, Hh. }
    destruct (rows_loop_raises (Dell.row key net) _ [] [] _ _ Hin Hrow)
      as (calls & e & Hloop).
    unfold Dell.scrape_dell. rewrite Hc.
    destruct (_ <- Dell.get b ;; Dell.select_100 b); [|reflexivity].
    destruct (Dell.rows b) eqn:Erows.
    { rewrite firstn_nil in Hin. destruct Hin. }
    rewrite Hloop. reflexivity.
Qed.

Lemma link_without_href_loses_the_table_witness :
  (exists e,
     snd (Intel.scrape_intel "" Examples.unreachable Examples.intel_no_href)
     = Raise e) /\
  snd (Dell.scrape_dell "" Examples.unreachable Pages.dell_no_href) = Ok [].
Proof.
  destruct (link_without_href_loses_the_table "" Examples.unreachable)
    as [Hintel Hdell].
  split.
  - destruct (Examples.intel_no_href.(Intel.rows)) as [ | cols rest] eqn:Erows;
      [discriminate|].
    destruct cols as [ | c0 [ | c1 [ | c2 [ | c3 more]]]]; try discriminate.
    apply (Hintel Examples.intel_no_href c0 c1 c2 c3 more
             {| a_text := "Graphics Driver Advisory"; a_href := None |});
      try reflexivity.
    + now left.
    + rewrite Erows. now left.
    + now injection Erows as <- _ _ _ _ _.
  - destruct (nth 1 (Dell.rows Pages.dell_no_href) []) as [ | c0 cells] eqn:Erow;
      [discriminate|].
    destruct cells as [ | c1 [ | c2 [ | c3 [ | c4 [ | c5 more]]]]];
      try discriminate.
    apply (Hdell Pages.dell_no_href c0 c1 c2 c3 c4 c5 more
             {| a_text := "DSA-2025-191"; a_href := None |});
      try reflexivity.
    + rewrite <- Erow. right. now left.
    + now injection Erow as _ <- _ _ _ _ _.
Defined.

(** ** Where the Dell severity comes from *)

Lemma Forall2_weaken {A B} (P Q : A -> B -> Prop) (l : list A) (l' : list B) :
  (forall a b, P a b -> Q a b) -> Forall2 P l l' -> Forall2 Q l l'.
Proof. intros H F. induction F; constructor; auto. Qed.

Lemma capitalized_severity_unknown (fallback : string) :
  Nvd.capitalized_severity Nvd.unknown fallback = Ok fallback.
Proof. reflexivity. Qed.

Lemma nvd_for_unknown (key : string) (net : Nvd.network) (cve_id : string) :
  key = "" \/ cve_id = "N/A" ->
  snd (Enrich.nvd_for key net cve_id) = Ok Nvd.unknown.
Proof.
  unfold Enrich.nvd_for, Nvd.fetch_nvd_data. intros [-> | ->].
  - destruct (String.eqb cve_id "N/A"); reflexivity.
  - reflexivity.
Qed.

Lemma dell_row_description (key : string) (net : Nvd.network)
    (cells : list Dell.cell_div) (d : record) :
  snd (Dell.row key net cells) = Ok (Some d) ->
  key = "" \/ Dell.cve_id_of cells = "N/A" ->
  exists c0 rest,
    cells = c0 :: rest /\
    col "Description" d = Str (Dell.text_or "N/A" (Dell.badge c0)).
Proof.
  intros H Hor. pose proof (nvd_for_unknown key net _ Hor) as Hnvd.
  unfold Dell.row in H.
  destruct cells as [ | c0 [ | c1 [ | c2 [ | c3 [ | c4 [ | c5 rest]]]]]];
    try discriminate.
  destruct (href_or "#" (Dell.link c1)) as [link | e]; [|discriminate].
  destruct (Enrich.nvd_for key net _) as [calls nvd].
  cbn [snd] in Hnvd. subst nvd. cbn [snd Py.bind] in H.
  rewrite capitalized_severity_unknown in H. cbn [Py.bind] in H.
  injection H as <-. eexists. eexists. split; reflexivity.
Qed.

(** The "Description" of a Dell row holds its severity.  Without an API
    key, and for every row whose identifier cell names no "CVE-", it is
    the text of the vendor's impact badge ("N/A" when the row has no
    badge): the table is empty, or it pairs off in order with those of the
    first hundred rows that have six cells, and each such row shows its
    badge. *)
Theorem dell_description_falls_back_to_badge :
  forall (key : string) (net : Nvd.network) (b : Dell.browser) (t : table),
    snd (Dell.scrape_dell key net b) = Ok t ->
    t = [] \/
    Forall2
      (fun cells d =>
         key = "" \/ Dell.cve_id_of cells = "N/A" ->
         exists c0 rest,
           cells = c0 :: rest /\
           col "Description" d = Str (Dell.text_or "N/A" (Dell.badge c0)))
      (filter (fun cells => 6 <=? List.length cells) (firstn 100 (Dell.rows b)))
      t.
Proof.
  intros key net b t. unfold Dell.scrape_dell.
  destruct (Dell.chrome b); [|discriminate].
  destruct (_ <- Dell.get b ;; Dell.select_100 b).
  2:{ simpl. intros H. injection H as <-. now left. }
  destruct (Dell.rows b) eqn:Erows.
  { simpl. intros H. injection H as <-. now left. }
  rewrite <- Erows.
  destruct (Enrich.rows_loop (Dell.row key net) _ _ _) as [calls [u | e]] eqn:E;
    simpl.
  2:{ intros H. injection H as <-. now left. }
  intros H. injection H as <-. right.
  destruct (capped_loop_table (Dell.row key net)
              (fun cells => 6 <=? List.length cells) _ _ _
              (dell_row_kept key net) E) as [_ Hrows].
  apply (Forall2_weaken _ _ _ _ (fun cells d H => dell_row_description key net cells d H)
           Hrows).
Qed.

Lemma dell_description_falls_back_to_badge_witness :
  exists t,
    snd (Dell.scrape_dell "" Examples.unreachable Examples.dell_page) = Ok t /\
    map (col "Description") t = [Str "Critical"; Str "Critical"].
Proof.
  destruct (snd (Dell.scrape_dell "" Examples.unreachable Examples.dell_page))
    as [t | e] eqn:E; [|vm_compute in E; discriminate].
  exists t. split; [reflexivity|].
  destruct (dell_description_falls_back_to_badge "" Examples.unreachable
              Examples.dell_page t E) as [-> | H].
  - vm_compute in E. discriminate.
  - vm_compute in E. injection E as <-. reflexivity.
Defined.

(** ** The Cisco loop skips nothing *)

Lemma cisco_row_record (key : string) (net : Nvd.network) (r : Cisco.tr)
    (o : option record) :
  snd (Cisco.row key net r) = Ok o ->
  exists d,
    o = Some d /\
    col "OEM Name" d = Str "Cisco" /\
    col "Description" d = Str (Cisco.or_na (Cisco.impact r)) /\
    ((exists e, Cisco.advisory r = Raise e) ->
     col "Vulnerability" d = Str "N/A" /\ col "URL" d = Str "#") /\
    ((exists e, Cisco.last_updated r = Raise e) ->
     col "Last Updated" d = Str "N/A").
Proof.
  unfold Cisco.row.
  destruct (Cisco.advisory r) as [[t [h | ]] | e0];
    destruct (Cisco.last_updated r) as [[lt inner] | e1];
    destruct (Enrich.nvd_for key net _) as [calls [nvd | e]];
    cbn [snd Py.bind]; try discriminate;
    (destruct (Nvd.capitalized_severity nvd "N/A"); cbn [snd Py.bind];
     [|discriminate]);
    intros H; injection H as <-; eexists; (split; [reflexivity|]);
    repeat split; try reflexivity;
    try (intros (e' & He'); discriminate);
    match goal with
    | H : exists _, Ok _ = Raise _ |- _ => destruct H as (? & ?); discriminate
    end.
Qed.

(** When the page loads, [scrape_cisco] either raises or returns exactly
    one row for each [tr.rowRepeat] of the page, in page order: no row is
    skipped and the table is not capped.  A cell that cannot be read
    becomes "N/A" (and the link "#"). *)
Theorem cisco_one_row_per_element :
  forall (key : string) (net : Nvd.network) (b : Cisco.browser)
         (rs : list Cisco.tr) (t : table),
    Cisco.setup_driver b = Ok tt -> Cisco.set_user_agent b = Ok tt ->
    Cisco.get b = Ok tt -> Cisco.wait_rows b = Ok tt ->
    Cisco.rows b = Ok rs ->
    snd (Cisco.scrape_cisco key net b) = Ok t ->
    Forall2
      (fun r d =>
         col "OEM Name" d = Str "Cisco" /\
         col "Description" d = Str (Cisco.or_na (Cisco.impact r)) /\
         ((exists e, Cisco.advisory r = Raise e) ->
          col "Vulnerability" d = Str "N/A" /\ col "URL" d = Str "#") /\
         ((exists e, Cisco.last_updated r = Raise e) ->
          col "Last Updated" d = Str "N/A"))
      rs t.
Proof.
  intros key net b rs t Hs Hu Hg Hw Hrows.
  destruct rs as [ | r0 rs0].
  { unfold Cisco.scrape_cisco. rewrite Hs, Hu, Hg, Hw. unfold Py.bind.
    rewrite Hrows. simpl. intros H. injection H as <-. constructor. }
  rewrite (cisco_loaded key net b _ Hs Hu Hg Hw Hrows) by discriminate.
  remember (r0 :: rs0) as rs eqn:Ers. clear Ers Hrows.
  destruct (Enrich.rows_loop (Cisco.row key net) rs [] [])
    as [calls [u | e]] eqn:E; cbn [snd try_except].
  - intros H. injection H as <-.
    destruct (rows_loop_Ok _ _ _ _ _ _ E) as (kept & -> & Hall & Hkept).
    cbn [app].
    assert (Hfilter : filter (fun r => match snd (Cisco.row key net r) with
                                       | Ok (Some _) => true
                                       | _ => false
                                       end) rs = rs).
    { clear Hkept E. induction Hall as [ | r l (o & Ho) _ IH]; [reflexivity|].
      cbn [filter]. destruct (cisco_row_record key net r o Ho) as (d & -> & _).
      rewrite Ho, IH. reflexivity. }
    rewrite Hfilter in Hkept.
    apply (Forall2_weaken _ _ _ _
             (fun r d (H : snd (Cisco.row key net r) = Ok (Some d)) =>
                match cisco_row_record key net r (Some d) H with
                | ex_intro _ d' (conj Hd Hprops) =>
                    eq_ind d' _ Hprops d
                      (eq_sym (f_equal (fun o => match o with
                                                 | Some x => x
                                                 | None => d
                                                 end) Hd))
                end) Hkept).
  - destruct (rows_loop_Raise _ _ _ _ _ _ E) as (r' & _ & Hr').
    rewrite (cisco_row_raise _ _ _ _ Hr'). discriminate.
Qed.

Lemma cisco_one_row_per_element_witness :
  exists t,
    snd (Cisco.scrape_cisco "" Examples.unreachable Pages.cisco_two_rows) = Ok t /\
    map (col "Vulnerability") t
    = [ Str "Cisco IOS XE Software TWAMP Denial of Service Vulnerability";
        Str "N/A" ] /\
    map (col "Description") t = [Str "High"; Str "Critical"].
Proof.
  destruct (snd (Cisco.scrape_cisco "" Examples.unreachable Pages.cisco_two_rows))
    as [t | e] eqn:E; [|vm_compute in E; discriminate].
  pose proof (cisco_one_row_per_element "" Examples.unreachable
                Pages.cisco_two_rows [Examples.cisco_tr; Pages.cisco_unreadable]
                t eq_refl eq_refl eq_refl eq_refl eq_refl E) as H.
  exists t. vm_compute in E. injection E as <-. split; [reflexivity|].
  split; reflexivity.
Defined.

(** ** The sections of the Adobe page *)

Lemma adobe_section_rows_app (name : string) (rs : list Adobe.tr)
    (data : table) :
  Adobe.section_rows name rs data = data ++ Adobe.section_rows name rs [].
Proof.
  revert data. induction rs as [ | [cols | e] rs IH]; intros data; simpl.
  - now rewrite app_nil_r.
  - destruct (Adobe.record_of name cols) as [d | ].
    + rewrite (IH (data ++ [d])), (IH [d]), <- app_assoc. reflexivity.
    + apply IH.
  - now rewrite app_nil_r.
Qed.

Lemma adobe_section_rows_prefix (name : string) (cs : list (list string))
    (e : exn) (rest : list Adobe.tr) (data : table) :
  Adobe.section_rows name (map Ok cs ++ Raise e :: rest) data
  = data ++ flat_map (fun cols => match Adobe.record_of name cols with
                                  | Some d => [d]
                                  | None => []
                                  end) cs.
Proof.
  revert data. induction cs as [ | cols cs IH]; intros data; simpl.
  - now rewrite app_nil_r.
  - destruct (Adobe.record_of name cols) as [d | ].
    + rewrite IH, <- app_assoc. reflexivity.
    + apply IH.
Qed.

Lemma adobe_headers_loop_flat_map (hs : list Adobe.header) (data : table) :
  Forall (fun h => exists name, Adobe.text h = Ok name) hs ->
  Adobe.headers_loop hs data
  = data ++ flat_map (fun h => match Adobe.text h, Adobe.rows h with
                               | Ok name, Ok rs =>
                                   Adobe.section_rows (Str.strip name) rs []
                               | _, _ => []
                               end) hs.
Proof.
  intros H. revert data. induction H as [ | h hs (name & Hn) _ IH]; intros data.
  - simpl. now rewrite app_nil_r.
  - simpl. rewrite Hn. destruct (Adobe.rows h) as [rs | e].
    + rewrite IH, adobe_section_rows_app, <- app_assoc. reflexivity.
    + rewrite IH. reflexivity.
Qed.

(** The Adobe table is put together section by section: the rows of the
    Acrobat table first, then those of each [<h4>] section in page order,
    each section read on its own.  A section whose table cannot be found
    adds nothing, and a section in which a row raises adds the rows read
    before that row; neither touches the rows of the other sections. *)
Theorem adobe_sections_are_independent :
  forall (b : Adobe.browser) (hs : list Adobe.header),
    Adobe.chrome b = Ok tt -> Adobe.get b = Ok tt -> Adobe.wait b = Ok tt ->
    Adobe.save_page b = Ok tt ->
    Adobe.h4_headers b = Ok hs ->
    Forall (fun h => exists name, Adobe.text h = Ok name) hs ->
    Adobe.scrape_adobe b
    = Ok (match Adobe.acrobat b with
          | Ok rs => Adobe.section_rows "Adobe Acrobat" rs []
          | Raise _ => []
          end
          ++ flat_map (fun h => match Adobe.text h, Adobe.rows h with
                                | Ok name, Ok rs =>
                                    Adobe.section_rows (Str.strip name) rs []
                                | _, _ => []
                                end) hs) /\
    forall name cs e rest,
      Adobe.section_rows name (map Ok cs ++ Raise e :: rest) []
      = flat_map (fun cols => match Adobe.record_of name cols with
                              | Some d => [d]
                              | None => []
                              end) cs.
Proof.
  intros b hs Hc Hg Hw Hs Hh Htexts. split.
  - unfold Adobe.scrape_adobe. rewrite Hc, Hg, Hw, Hs, Hh. simpl.
    now rewrite (adobe_headers_loop_flat_map hs _ Htexts).
  - intros name cs e rest. apply (adobe_section_rows_prefix name cs e rest []).
Qed.

Lemma adobe_sections_are_independent_witness :
  exists t,
    Adobe.scrape_adobe Pages.adobe_sections = Ok t /\
    map (fun d => (col "Section" d, col "Title" d)) t
    = [ (Str "Adobe Acrobat", Str "APSB25-14");
        (Str "Adobe Commerce", Str "APSB25-08") ].
Proof.
  destruct (Adobe.h4_headers Pages.adobe_sections) as [hs | e] eqn:Eh;
    [|discriminate].
  destruct (adobe_sections_are_independent Pages.adobe_sections hs)
    as [Ht _]; try reflexivity.
  - exact Eh.
  - injection Eh as <-. repeat constructor; eexists; reflexivity.
  - eexists. split; [exact Ht|]. injection Eh as <-. reflexivity.
Defined.

(** ** What [fetch_nvd_data] reads in the answer of the NVD *)

Lemma first_mitigation_find (descs : list Nvd.pyval) (values : list string) :
  Forall2 (fun desc v => exists fields,
             desc = Nvd.PDict fields /\
             Nvd.lookup "value" fields = Some (Nvd.PStr v)) descs values ->
  Nvd.first_mitigation descs
  = Ok (Nvd.PStr
          (match find (fun v => Str.contains "mitigation" (Str.lower v)) values with
           | Some v => v
           | None => "N/A"
           end)).
Proof.
  intros H. induction H as [ | desc v descs values (fields & -> & Hv) _ IH].
  - reflexivity.
  - cbn [Nvd.first_mitigation find]. unfold Nvd.getitem. rewrite Hv.
    cbn [Py.bind Nvd.py_lower].
    destruct (Str.contains "mitigation" (Str.lower v)); [reflexivity|exact IH].
Qed.

Lemma fetch_body_first_record (net : Nvd.network) (cve_id : string)
    (resp : Nvd.response) (top first cve : list (string * Nvd.pyval))
    (more : list Nvd.pyval) :
  net (Nvd.nvd_url cve_id) = Ok resp ->
  Nvd.raise_for_status resp = Ok tt ->
  Nvd.json resp = Ok (Nvd.PDict top) ->
  Nvd.lookup "vulnerabilities" top = Some (Nvd.PList (Nvd.PDict first :: more)) ->
  Nvd.lookup "cve" first = Some (Nvd.PDict cve) ->
  Nvd.fetch_body net cve_id
  = (score <- Nvd.cvss_data (Nvd.PDict cve) "baseScore" ;;
     severity <- Nvd.cvss_data (Nvd.PDict cve) "baseSeverity" ;;
     descs <- Nvd.getitem (Nvd.PDict cve) "descriptions" ;;
     descs' <- Nvd.py_iter descs ;;
     mitigation <- Nvd.first_mitigation descs' ;;
     Ok {| Nvd.cvss_score := score;
           Nvd.severity_level := severity;
           Nvd.mitigation_strategy := mitigation |}).
Proof.
  intros Hnet Hstatus Hjson Hv Hcve.
  unfold Nvd.fetch_body. rewrite Hnet. cbn [Py.bind].
  rewrite Hstatus, Hjson. cbn [Py.bind Nvd.py_in Nvd.getitem].
  rewrite Hv. cbn [Py.bind Nvd.truthy Nvd.getitem0 Nvd.getitem].
  rewrite Hcve. reflexivity.
Qed.

Lemma fetch_nvd_data_with_key (key : string) (net : Nvd.network)
    (cve_id : string) (d : Nvd.nvd_data) :
  key <> "" -> Nvd.fetch_body net cve_id = Ok d ->
  Nvd.fetch_nvd_data key net cve_id = Ok d.
Proof.
  intros Hk Hb. unfold Nvd.fetch_nvd_data.
  apply String.eqb_neq in Hk. now rewrite Hk, Hb.
Qed.

(** With an API key and an answer of the usual shape, the client reads
    the first vulnerability of the answer only, and of it the first
    CVSS 3.1 metric only: score and severity are the "baseScore" and the
    "baseSeverity" of its "cvssData" ("N/A" for one that is not there).
    The mitigation is the first description, in the order of the answer,
    whose text contains "mitigation" in any letter case, and "N/A" when
    there is none. *)
Theorem fetch_nvd_data_reads_first_v31_metric :
  forall (key : string) (net : Nvd.network) (cve_id : string)
         (resp : Nvd.response)
         (top first cve metrics metric cvss : list (string * Nvd.pyval))
         (more metrics_more descs : list Nvd.pyval) (values : list string),
    key <> "" ->
    net (Nvd.nvd_url cve_id) = Ok resp ->
    Nvd.raise_for_status resp = Ok tt ->
    Nvd.json resp = Ok (Nvd.PDict top) ->
    Nvd.lookup "vulnerabilities" top = Some (Nvd.PList (Nvd.PDict first :: more)) ->
    Nvd.lookup "cve" first = Some (Nvd.PDict cve) ->
    Nvd.lookup "metrics" cve = Some (Nvd.PDict metrics) ->
    Nvd.lookup "cvssMetricV31" metrics
    = Some (Nvd.PList (Nvd.PDict metric :: metrics_more)) ->
    Nvd.lookup "cvssData" metric = Some (Nvd.PDict cvss) ->
    Nvd.lookup "descriptions" cve = Some (Nvd.PList descs) ->
    Forall2 (fun desc v => exists fields,
               desc = Nvd.PDict fields /\
               Nvd.lookup "value" fields = Some (Nvd.PStr v)) descs values ->
    Nvd.fetch_nvd_data key net cve_id
    = Ok {| Nvd.cvss_score :=
              match Nvd.lookup "baseScore" cvss with
              | Some x => x
              | None => Nvd.PStr "N/A"
              end;
            Nvd.severity_level :=
              match Nvd.lookup "baseSeverity" cvss with
              | Some x => x
              | None => Nvd.PStr "N/A"
              end;
            Nvd.mitigation_strategy :=
              Nvd.PStr
                (match find (fun v => Str.contains "mitigation" (Str.lower v))
                         values with
                 | Some v => v
                 | None => "N/A"
                 end) |}.
Proof.
  intros key net cve_id resp top first cve metrics metric cvss more
    metrics_more descs values Hk Hnet Hstatus Hjson Hv Hcve Hm H31 Hdata Hd Hvalues.
  apply (fetch_nvd_data_with_key _ _ _ _ Hk).
  rewrite (fetch_body_first_record net cve_id resp top first cve more
             Hnet Hstatus Hjson Hv Hcve).
  unfold Nvd.cvss_data, Nvd.getitem. rewrite Hm, Hd.
  cbn [Py.bind Nvd.get]. rewrite H31. cbn [Py.bind Nvd.getitem0 Nvd.get].
  rewrite Hdata. cbn [Py.bind Nvd.get Nvd.py_iter].
  rewrite (first_mitigation_find descs values Hvalues). reflexivity.
Qed.

Lemma fetch_nvd_data_reads_first_v31_metric_witness :
  Nvd.fetch_nvd_data "key" (Examples.answers Pages.nvd_v31) "CVE-2025-23254"
  = Ok {| Nvd.cvss_score := Nvd.PStr "N/A";
          Nvd.severity_level := Nvd.PStr "HIGH";
          Nvd.mitigation_strategy :=
            Nvd.PStr "Mitigation: disable the service." |}.
Proof.
  eapply (fetch_nvd_data_reads_first_v31_metric "key"
           (Examples.answers Pages.nvd_v31) "CVE-2025-23254"
           {| Nvd.raise_for_status := Ok tt; Nvd.json := Ok Pages.nvd_v31 |}
           _ _ _ _ _ [("baseSeverity", Nvd.PStr "HIGH")] [] [] _
           ["Heap overflow."; "Mitigation: disable the service."]);
    try reflexivity.
  - discriminate.
  - repeat constructor; eexists; split; reflexivity.
Defined.

(** A record that has no "cvssMetricV31" entry (one that was scored under
    another CVSS version only) gets the score and the severity "N/A" and
    keeps its mitigation.  A record whose "cvssMetricV31" list is empty
    makes [[0]] raise inside the [try]: everything is "N/A" then, the
    mitigation too. *)
Theorem fetch_nvd_data_without_v31_metric :
  forall (key : string) (net : Nvd.network) (cve_id : string)
         (resp : Nvd.response)
         (top first cve metrics : list (string * Nvd.pyval))
         (more descs : list Nvd.pyval) (values : list string),
    key <> "" ->
    net (Nvd.nvd_url cve_id) = Ok resp ->
    Nvd.raise_for_status resp = Ok tt ->
    Nvd.json resp = Ok (Nvd.PDict top) ->
    Nvd.lookup "vulnerabilities" top = Some (Nvd.PList (Nvd.PDict first :: more)) ->
    Nvd.lookup "cve" first = Some (Nvd.PDict cve) ->
    Nvd.lookup "metrics" cve = Some (Nvd.PDict metrics) ->
    Nvd.lookup "descriptions" cve = Some (Nvd.PList descs) ->
    Forall2 (fun desc v => exists fields,
               desc = Nvd.PDict fields /\
               Nvd.lookup "value" fields = Some (Nvd.PStr v)) descs values ->
    (Nvd.lookup "cvssMetricV31" metrics = None ->
     Nvd.fetch_nvd_data key net cve_id
     = Ok {| Nvd.cvss_score := Nvd.PStr "N/A";
             Nvd.severity_level := Nvd.PStr "N/A";
             Nvd.mitigation_strategy :=
               Nvd.PStr
                 (match find (fun v => Str.contains "mitigation" (Str.lower v))
                          values with
                  | Some v => v
                  | None => "N/A"
                  end) |}) /\
    (Nvd.lookup "cvssMetricV31" metrics = Some (Nvd.PList []) ->
     Nvd.fetch_nvd_data key net cve_id = Ok Nvd.unknown).
Proof.
  intros key net cve_id resp top first cve metrics more descs values
    Hk Hnet Hstatus Hjson Hv Hcve Hm Hd Hvalues.
  pose proof (fetch_body_first_record net cve_id resp top first cve more
                Hnet Hstatus Hjson Hv Hcve) as Hbody.
  split; intros H31.
  - apply (fetch_nvd_data_with_key _ _ _ _ Hk). rewrite Hbody.
    unfold Nvd.cvss_data, Nvd.getitem. rewrite Hm, Hd.
    cbn [Py.bind Nvd.get]. rewrite H31.
    cbn [Py.bind Nvd.getitem0 Nvd.get Nvd.lookup Nvd.py_iter].
    rewrite (first_mitigation_find descs values Hvalues). reflexivity.
  - apply (fetch_nvd_data_unknown_on_raise key net cve_id IndexError).
    rewrite Hbody. unfold Nvd.cvss_data, Nvd.getitem. rewrite Hm.
    cbn [Py.bind Nvd.get]. rewrite H31. reflexivity.
Qed.

Lemma fetch_nvd_data_without_v31_metric_witness :
  Nvd.fetch_nvd_data "key" (Examples.answers Pages.nvd_v2_only) "CVE-2025-23254"
  = Ok {| Nvd.cvss_score := Nvd.PStr "N/A";
          Nvd.severity_level := Nvd.PStr "N/A";
          Nvd.mitigation_strategy :=
            Nvd.PStr "Mitigation: disable the service." |} /\
  Nvd.fetch_nvd_data "key" (Examples.answers Pages.nvd_empty_v31) "CVE-2025-23254"
  = Ok Nvd.unknown.
Proof.
  split.
  - eapply (fetch_nvd_data_without_v31_metric "key"
             (Examples.answers Pages.nvd_v2_only) "CVE-2025-23254"
             {| Nvd.raise_for_status := Ok tt; Nvd.json := Ok Pages.nvd_v2_only |}
             _ _ _ [("cvssMetricV2", Nvd.PList [Nvd.PDict []])] [] _
             ["Heap overflow."; "Mitigation: disable the service."]);
      try reflexivity.
    + discriminate.
    + repeat constructor; eexists; split; reflexivity.
  - eapply (fetch_nvd_data_without_v31_metric "key"
             (Examples.answers Pages.nvd_empty_v31) "CVE-2025-23254"
             {| Nvd.raise_for_status := Ok tt; Nvd.json := Ok Pages.nvd_empty_v31 |}
             _ _ _ [("cvssMetricV31", Nvd.PList [])] [] _
             ["Heap overflow."; "Mitigation: disable the service."]);
      try reflexivity.
    + discriminate.
    + repeat constructor; eexists; split; reflexivity.
Defined.

(** ** The publish date of an NVIDIA row *)

Lemma before_separator_eq (s : string) :
  Nvidia.before_separator s
  = if Str.startswith " - " s || Str.startswith " (" s then EmptyString
    else match s with
         | EmptyString => EmptyString
         | String c r => String c (Nvidia.before_separator r)
         end.
Proof. destruct s; reflexivity. Qed.

Lemma before_separator_prefix (s : string) :
  exists rest, s = (Nvidia.before_separator s ++ rest)%string.
Proof.
  induction s as [ | c r (rest & IH)].
  - now exists "".
  - rewrite before_separator_eq.
    destruct (Str.startswith " - " (String c r) || Str.startswith " (" (String c r)).
    + now exists (String c r).
    + exists rest. cbn [append]. now rewrite <- IH.
Qed.

Lemma before_separator_cuts (sep s : string) :
  sep = " - " \/ sep = " (" ->
  Str.contains sep (Nvidia.before_separator s) = false.
Proof.
  intros Hsep. induction s as [ | c r IH].
  - destruct Hsep as [-> | ->]; reflexivity.
  - rewrite before_separator_eq.
    destruct (Str.startswith " - " (String c r) || Str.startswith " (" (String c r))
      eqn:E.
    + destruct Hsep as [-> | ->]; reflexivity.
    + cbn [Str.contains]. rewrite IH, Bool.orb_false_r.
      destruct (Str.startswith sep (String c (Nvidia.before_separator r))) eqn:Es;
        [|reflexivity].
      destruct (before_separator_prefix r) as (rest & Hrest).
      apply (startswith_app_l _ _ rest) in Es. cbn [append] in Es.
      rewrite <- Hrest in Es.
      apply Bool.orb_false_iff in E. destruct E as [E1 E2].
      destruct Hsep as [-> | ->]; congruence.
Qed.

Lemma lstrip_suffix (s : string) :
  exists p, s = (p ++ Str.lstrip s)%string.
Proof.
  induction s as [ | c r (p & IH)].
  - now exists "".
  - cbn [Str.lstrip]. destruct (Str.is_space c).
    + exists (String c p). cbn [append]. now rewrite <- IH.
    + now exists "".
Qed.

Lemma rstrip_cons (c : ascii) (r : string) :
  Str.rstrip (String c r)
  = match Str.rstrip r with
    | EmptyString => if Str.is_space c then EmptyString else String c EmptyString
    | r' => String c r'
    end.
Proof. reflexivity. Qed.

Lemma rstrip_prefix (s : string) :
  exists q, s = (Str.rstrip s ++ q)%string.
Proof.
  induction s as [ | c r (q & IH)].
  - now exists "".
  - rewrite rstrip_cons. destruct (Str.rstrip r) as [ | a r'] eqn:E.
    + destruct (Str.is_space c).
      * now exists (String c r).
      * exists r. reflexivity.
    + exists q. cbn [append] in *. now rewrite <- IH.
Qed.

Lemma contains_strip (needle s : string) :
  Str.contains needle (Str.strip s) = true -> Str.contains needle s = true.
Proof.
  intros H. unfold Str.strip in H.
  destruct (lstrip_suffix s) as (p & Hp).
  destruct (rstrip_prefix (Str.lstrip s)) as (q & Hq).
  rewrite Hp. apply contains_app_r. rewrite Hq. now apply contains_app_l.
Qed.

Lemma remove_tags_plain (s : string) :
  Str.contains "<" s = false -> Nvidia.remove_tags s = s.
Proof.
  unfold Nvidia.remove_tags. induction s as [ | c r IH]; [reflexivity|].
  cbn [Str.contains Str.startswith Nvidia.remove_tags_aux].
  rewrite Bool.andb_true_r. intros H. apply Bool.orb_false_iff in H.
  destruct H as [Hc Hr]. rewrite Ascii.eqb_sym, Hc. now rewrite (IH Hr).
Qed.

Lemma before_separator_plain (s : string) :
  Str.contains " - " s = false -> Str.contains " (" s = false ->
  Nvidia.before_separator s = s.
Proof.
  induction s as [ | c r IH]; [reflexivity|].
  intros H1 H2. rewrite before_separator_eq.
  cbn [Str.contains] in H1, H2.
  apply Bool.orb_false_iff in H1, H2. destruct H1 as [S1 R1], H2 as [S2 R2].
  rewrite S1, S2. cbn [orb]. now rewrite (IH R1 R2).
Qed.

Lemma rstrip_idempotent (s : string) : Str.rstrip (Str.rstrip s) = Str.rstrip s.
Proof.
  induction s as [ | c r IH]; [reflexivity|].
  rewrite rstrip_cons. destruct (Str.rstrip r) as [ | a r'] eqn:E.
  - destruct (Str.is_space c) eqn:Ec; [reflexivity|].
    rewrite rstrip_cons. cbn [Str.rstrip]. now rewrite Ec.
  - rewrite rstrip_cons, IH. reflexivity.
Qed.

Lemma lstrip_head (s : string) :
  Str.lstrip s = "" \/
  exists c r, Str.lstrip s = String c r /\ Str.is_space c = false.
Proof.
  induction s as [ | c r IH]; [now left|].
  cbn [Str.lstrip]. destruct (Str.is_space c) eqn:E; [exact IH|].
  right. now exists c, r.
Qed.

Lemma rstrip_head (c : ascii) (r : string) :
  Str.is_space c = false -> exists r', Str.rstrip (String c r) = String c r'.
Proof.
  intros Hc. rewrite rstrip_cons. destruct (Str.rstrip r).
  - rewrite Hc. now exists "".
  - eauto.
Qed.

Lemma strip_idempotent (s : string) : Str.strip (Str.strip s) = Str.strip s.
Proof.
  unfold Str.strip.
  destruct (lstrip_head s) as [E | (c & r & E & Hc)]; rewrite E.
  - reflexivity.
  - destruct (rstrip_head c r Hc) as (r' & Er). rewrite Er.
    cbn [Str.lstrip]. rewrite Hc, <- Er. apply rstrip_idempotent.
Qed.

(** Whatever the cell shows, the "Publish Date" that is stored contains
    neither " - " nor " (": the text is cut at the first of them.  A text
    that, once stripped, has none of them and no "<" is stored as it is,
    only stripped. *)
Theorem nvidia_publish_date_is_cut :
  forall (text : string),
    Str.contains " - " (Nvidia.clean_publish_date text) = false /\
    Str.contains " (" (Nvidia.clean_publish_date text) = false /\
    (Str.contains "<" (Str.strip text) = false ->
     Str.contains " - " (Str.strip text) = false ->
     Str.contains " (" (Str.strip text) = false ->
     Nvidia.clean_publish_date text = Str.strip text).
Proof.
  intros text. unfold Nvidia.clean_publish_date. repeat split.
  - destruct (Str.contains " - " (Str.strip _)) eqn:E; [|reflexivity].
    apply contains_strip in E.
    rewrite before_separator_cuts in E; [discriminate | now left].
  - destruct (Str.contains " (" (Str.strip _)) eqn:E; [|reflexivity].
    apply contains_strip in E.
    rewrite before_separator_cuts in E; [discriminate | now right].
  - intros Htag Hdash Hparen.
    rewrite (remove_tags_plain _ Htag), (before_separator_plain _ Hdash Hparen).
    apply strip_idempotent.
Qed.

Lemma nvidia_publish_date_is_cut_witness :
  Nvidia.clean_publish_date "  03 May 2025 " = "03 May 2025" /\
  Nvidia.clean_publish_date "29 Apr 2025 - Updated 05/02/2025" = "29 Apr 2025".
Proof.
  split; [|reflexivity].
  destruct (nvidia_publish_date_is_cut "  03 May 2025 ") as (_ & _ & H).
  rewrite H; reflexivity.
Defined.

(** ** The impact column of the summary *)

Lemma find_none_iff {A} (p : A -> bool) (l : list A) :
  find p l = None <-> forall x, In x l -> p x = false.
Proof.
  split; [apply find_none|].
  induction l as [ | a l IH]; intros H; [reflexivity|].
  simpl. rewrite (H a (or_introl eq_refl)). apply IH.
  intros x Hx. apply H. now right.
Qed.

Lemma possible_columns_likely (c : string) :
  Str.mem c Processing.possible_columns = true -> Processing.likely c = true.
Proof.
  intros H. apply mem_In in H. simpl in H.
  destruct H as [<- | [<- | [<- | [<- | [<- | []]]]]]; reflexivity.
Qed.

(** [find_impact_column] answers [None] exactly when no label contains
    "impact", "severity" or "risk" in any letter case; a label it answers
    is a label of the frame that contains one of them; and when one of
    the five names "Impact", "impact", "Severity", "severity", "RiskLevel"
    is a label of the frame, the answer is one of the five, also when a
    label that only contains such a word stands before it. *)
Theorem find_impact_column_finds :
  forall (columns : list string),
    (Processing.find_impact_column columns = None
     <-> forall c, In c columns -> Processing.likely c = false) /\
    (forall c, Processing.find_impact_column columns = Some c ->
       In c columns /\ Processing.likely c = true) /\
    (forall c, In c columns -> In c Processing.possible_columns ->
       exists c', Processing.find_impact_column columns = Some c' /\
                  In c' Processing.possible_columns).
Proof.
  intros columns. unfold Processing.find_impact_column.
  destruct (find (fun col => Str.mem col Processing.possible_columns) columns)
    as [c0 | ] eqn:E.
  - apply find_some in E. destruct E as [Hin0 Hmem0].
    pose proof (possible_columns_likely c0 Hmem0) as Hl0.
    split; [|split].
    + split; [discriminate|]. intros H. rewrite (H c0 Hin0) in Hl0.
      discriminate.
    + intros c H. injection H as <-. auto.
    + intros c _ _. exists c0. split; [reflexivity|]. now apply mem_In.
  - split; [|split].
    + apply find_none_iff.
    + intros c H. apply find_some in H. exact H.
    + intros c Hin Hposs. exfalso.
      pose proof (find_none _ _ E c Hin) as Hc. cbv beta in Hc.
      apply mem_In in Hposs. congruence.
Qed.

Lemma find_impact_column_finds_witness :
  Processing.find_impact_column ["oem_name"; "severity_level"; "url"; "severity"]
  = Some "severity" /\
  Processing.find_impact_column ["oem_name"; "vulnerability"; "url"] = None.
Proof.
  destruct (find_impact_column_finds
              ["oem_name"; "severity_level"; "url"; "severity"])
    as (_ & _ & Hexact).
  destruct (find_impact_column_finds ["oem_name"; "vulnerability"; "url"])
    as (Hnone & _).
  split.
  - destruct (Hexact "severity") as (c' & Hc' & _);
      [simpl; auto 10 | simpl; auto 10 |].
    rewrite Hc'. vm_compute in Hc'. now injection Hc' as <-.
  - apply Hnone. intros c Hin. simpl in Hin.
    destruct Hin as [<- | [<- | [<- | []]]]; reflexivity.
Defined.

Lemma SFcompare_antisym (x y : spec_float) :
  SFcompare y x
  = match SFcompare x y with Some c => Some (CompOpp c) | None => None end.
Proof.
  destruct x as [sx | sx | | sx mx ex], y as [sy | sy | | sy my ey];
    try reflexivity;
    try (destruct sx; try destruct sy; reflexivity).
  destruct sx, sy; try reflexivity; simpl;
    change (Pos.compare_cont Eq mx my) with (Pos.compare mx my);
    change (Pos.compare_cont Eq my mx) with (Pos.compare my mx);
    rewrite (Z.compare_antisym ex ey), (Pos.compare_antisym mx my);
    destruct (ex ?= ey)%Z; simpl; try reflexivity;
    destruct (mx ?= my)%positive; reflexivity.
Qed.

(** Of two numbers of which [x] is not below [z]: [x] is below [y]
    exactly when it is not at or above [y]. *)
Lemma float_lt_iff_not_ge (x y z : spec_float) :
  Float.ge x z = true -> y <> S754_nan ->
  (Float.lt x y = true <-> Float.ge x y = false).
Proof.
  unfold Float.ge, Float.lt, SFleb, SFltb. intros Hz Hy.
  rewrite (SFcompare_antisym x y).
  assert (Hx : x <> S754_nan).
  { intros ->. destruct z as [ [ | ] | [ | ] | | [ | ] ? ?]; discriminate. }
  destruct (SFcompare x y) as [[ | | ] | ] eqn:E; simpl;
    try (split; congruence).
  exfalso.
  destruct x as [ [ | ] | [ | ] | | [ | ] ? ?], y as [ [ | ] | [ | ] | | [ | ] ? ?];
    try discriminate; congruence.
Qed.

Lemma startswith_app_inv (p q s : string) :
  Str.startswith (p ++ q) s = true -> Str.startswith p s = true.
Proof.
  revert s. induction p as [ | a p IH]; intros s; [reflexivity|].
  destruct s as [ | b s]; [discriminate|].
  cbn [append Str.startswith]. intros H.
  apply Bool.andb_true_iff in H. destruct H as [Hab H].
  rewrite Hab. exact (IH _ H).
Qed.

Lemma contains_app_inv (p q s : string) :
  Str.contains (p ++ q) s = true -> Str.contains p s = true.
Proof.
  induction s as [ | b s IH]; cbn [Str.contains]; intros H;
    apply Bool.orb_true_iff in H; apply Bool.orb_true_iff;
    destruct H as [H | H]; try discriminate.
  - left. exact (startswith_app_inv _ _ _ H).
  - left. exact (startswith_app_inv _ _ _ H).
  - right. exact (IH H).
Qed.

(** The counts of the summary.  A number is counted as critical from 9.0
    and as high from 7.0 to below 9.0, which are the bands in which the
    Palo Alto scraper labels a score "Critical" and "High"; no number is
    counted twice, so on a column of numbers the two counts add up to at
    most the number of rows.  A text is counted as critical exactly when
    it contains "crit" in any letter case (the test for "critical" adds
    nothing), whatever else it contains. *)
Theorem summary_counts_follow_cvss_bands :
  (forall (L : PyLib) (cvss_score : string) (x : spec_float),
     float cvss_score = Some x -> Str.lower cvss_score <> "i" ->
     (Processing.is_critical (Processing.Number x) = true
      <-> PaloAlto.severity cvss_score = "Critical") /\
     (Processing.is_high (Processing.Number x) = true
      <-> PaloAlto.severity cvss_score = "High")) /\
  (forall (column : list Processing.value),
     Forall (fun v => exists x, v = Processing.Number x) column ->
     Processing.count Processing.is_critical column
     + Processing.count Processing.is_high column <= List.length column) /\
  (forall (s : string),
     Processing.is_critical (Processing.Text s)
     = Str.contains "crit" (Str.lower s)).
Proof.
  split; [|split].
  - intros L cvss_score x Hx Hi. unfold PaloAlto.severity.
    apply String.eqb_neq in Hi. rewrite Hi, Hx.
    cbn [Processing.is_critical Processing.is_high].
    destruct (Float.ge x Float.f9_0) eqn:E9.
    + assert (Hlt : Float.lt x Float.f9_0 = false).
      { apply Bool.not_true_iff_false. intros Hlt.
        apply float_lt_not_ge in Hlt. congruence. }
      rewrite Hlt, Bool.andb_false_r.
      split; split; intros H; try reflexivity; discriminate.
    + destruct (Float.ge x Float.f7_0) eqn:E7.
      * assert (Hlt : Float.lt x Float.f9_0 = true).
        { apply (float_lt_iff_not_ge x Float.f9_0 Float.f7_0 E7);
            [discriminate | exact E9]. }
        rewrite Hlt.
        split; split; intros H; try reflexivity; discriminate.
      * cbn [andb]. destruct (Float.ge x Float.f4_0);
          split; split; intros H; discriminate.
  - intros column H. unfold Processing.count.
    induction H as [ | v column (x & ->) _ IH]; [simpl; lia|].
    cbn [filter Processing.is_critical Processing.is_high List.length].
    destruct (Float.ge x Float.f9_0) eqn:E9.
    + assert (Hlt : Float.lt x Float.f9_0 = false).
      { apply Bool.not_true_iff_false. intros Hlt.
        apply float_lt_not_ge in Hlt. congruence. }
      rewrite Hlt, Bool.andb_false_r. cbn [List.length]. lia.
    + destruct (Float.ge x Float.f7_0 && Float.lt x Float.f9_0);
        cbn [List.length]; lia.
  - intros s. cbn [Processing.is_critical].
    destruct (Str.contains "critical" (Str.lower s)) eqn:E; [|reflexivity].
    symmetry. exact (contains_app_inv "crit" "ical" _ E).
Qed.

Lemma summary_counts_follow_cvss_bands_witness :
  Processing.count Processing.is_critical
    [ Processing.Number Float.f9_0; Processing.Number Float.f7_0;
      Processing.Number Float.f4_0 ] = 1 /\
  Processing.count Processing.is_high
    [ Processing.Number Float.f9_0; Processing.Number Float.f7_0;
      Processing.Number Float.f4_0 ] = 1 /\
  PaloAlto.severity (L := Ref.lib) "7.0" = "High".
Proof.
  destruct summary_counts_follow_cvss_bands as (Hbands & Hsum & _).
  pose proof (Hsum [ Processing.Number Float.f9_0; Processing.Number Float.f7_0;
                     Processing.Number Float.f4_0 ]) as H.
  split; [reflexivity|]. split; [reflexivity|].
  destruct (Hbands Ref.lib "7.0" Float.f7_0) as [_ Hhigh];
    [reflexivity | discriminate |].
  now apply Hhigh.
Defined.

(** ** The route from the dashboard to the NVIDIA bot *)

Lemma dates_as_text_columns (astype_str : cell -> string) (date_col : string)
    (df : Queries.DataFrame) :
  Queries.columns (Dashboard.dates_as_text astype_str date_col df)
  = Queries.columns df.
Proof.
  unfold Dashboard.dates_as_text.
  destruct (Str.mem date_col (Queries.columns df)); reflexivity.
Qed.

Lemma nvidia_rename_has_no_title (c : string) :
  Dashboard.rename_label Dashboard.nvidia_column_mapping c <> "title".
Proof.
  unfold Dashboard.rename_label, Dashboard.nvidia_column_mapping.
  cbn [find fst snd].
  repeat match goal with
         | |- context [String.eqb ?k c] =>
             destruct (String.eqb k c) eqn:?; [discriminate|]
         end.
  intros ->. discriminate.
Qed.

(** For "NVIDIA" the dashboard renames the columns of the stored frame
    before it calls the bot, "title" to "vulnerability" among them, while
    the bot asks for "title": whatever the stored frame and the question,
    the answer is the message about missing columns, and "title" is one
    of the columns it names. *)
Theorem dashboard_nvidia_route_misses_columns :
  forall (L : PyLib) (astype_str : cell -> string) (query : string)
         (scraped_data : Queries.DataFrame),
    NoDup (Queries.columns scraped_data) ->
    exists missing,
      In "title" missing /\
      Dashboard.route astype_str "NVIDIA" query scraped_data
      = Some (Ok (Queries.Answer (Queries.response
          ("❌ Missing required columns: " ++ Str.join ", " missing
           ++ ". Please ensure the data includes these columns.")%string))).
Proof.
  intros L astype_str query scraped_data _.
  unfold Dashboard.route. cbn [String.eqb Ascii.eqb Bool.eqb].
  set (df := Dashboard.rename _ _).
  assert (Htitle : Str.mem "title" (Queries.columns df) = false).
  { apply Bool.not_true_iff_false. intros H. apply mem_In in H.
    unfold df, Dashboard.rename in H. cbn [Queries.columns] in H.
    apply in_map_iff in H. destruct H as (c & Hc & _).
    exact (nvidia_rename_has_no_title c Hc). }
  unfold Queries.query_nvidia_bot.
  assert (Hmissing : exists rest,
            Queries.missing_columns Queries.nvidia_required df = "title" :: rest).
  { unfold Queries.missing_columns, Queries.nvidia_required.
    cbn [filter]. rewrite Htitle. cbn [negb]. eauto. }
  destruct Hmissing as (rest & ->). exists ("title" :: rest).
  split; [now left | reflexivity].
Qed.

Lemma dashboard_nvidia_route_misses_columns_witness :
  Dashboard.route (L := Ref.lib) Pages.cell_text "NVIDIA" "latest 5 advisories"
    Examples.nvidia_df
  = Some (Ok (Queries.Answer (Queries.response
      "❌ Missing required columns: title, bulletin_id, severity, cve_identifier(s), publish_date. Please ensure the data includes these columns."))).
Proof.
  destruct (dashboard_nvidia_route_misses_columns Ref.lib Pages.cell_text
              "latest 5 advisories" Examples.nvidia_df) as (missing & _ & H).
  - repeat constructor; simpl; intuition discriminate.
  - rewrite H. vm_compute in H. injection H as H. rewrite H. reflexivity.
Defined.

(** ** Rules of the bots that no question reaches *)

Example cisco_rules_examples :
  map Rules.cisco
    [ "Latest 10 advisories";
      "critical severity vulnerabilities";
      "Vulnerabilities for Cisco IOS XE Software";
      "Details for https://sec.cloudapps.cisco.com/security/center/x";
      "advisories after 2024";
      "details https://sec.cloudapps.cisco.com/security/center/x" ]
  = [ Rules.Cisco_latest 10;
      Rules.Cisco_severity "critical";
      Rules.Cisco_product "cisco ios xe software";
      Rules.Cisco_product "https://sec.cloudapps.cisco.com/security/center/x";
      Rules.Cisco_after "2024";
      Rules.Cisco_default ].
Proof. vm_compute. reflexivity. Qed.

Example palo_alto_rules_examples :
  map (Rules.palo_alto (fun _ => true))
    [ "Details for CVE-2025-0128";
      "details cve-2025-0128";
      "Affected versions for PAN-SA-2025-0008";
      "affected versions 2025-0008";
      "Which advisories came after 2024?" ]
  = [ Rules.PA_product "cve-2025-0128";
      Rules.PA_cve "cve-2025-0128";
      Rules.PA_product "pan-sa-2025-0008";
      Rules.PA_default;
      Rules.PA_after "2024" ].
Proof. vm_compute. reflexivity. Qed.

Lemma string_app_assoc (a b c : string) :
  ((a ++ b) ++ c = a ++ (b ++ c))%string.
Proof. induction a as [ | x a IH]; simpl; [reflexivity | now rewrite IH]. Qed.

Lemma after_prefix_inv (p s s' : string) :
  Re.after_prefix p s = Some s' -> s = (p ++ s')%string.
Proof.
  revert s. induction p as [ | a p IH]; intros s; simpl.
  - intros H. now injection H as <-.
  - destruct s as [ | b s]; [discriminate|].
    destruct (Ascii.eqb a b) eqn:E; [|discriminate].
    apply Ascii.eqb_eq in E. subst b. intros H. now rewrite (IH _ H).
Qed.

Lemma after_prefix_app (p s : string) :
  Re.after_prefix p (p ++ s) = Some s.
Proof.
  induction p as [ | a p IH]; simpl; [reflexivity|].
  now rewrite Ascii.eqb_refl.
Qed.

Lemma search_found (pat : Re.pattern) (pre suf : string) :
  Re.match_here pat "" "" suf <> None -> Re.search pat (pre ++ suf) <> None.
Proof.
  intros H. induction pre as [ | c pre IH].
  - destruct suf; simpl; destruct (Re.match_here pat "" "" _);
      congruence.
  - cbn [append Re.search].
    destruct (Re.match_here pat "" "" (String c (pre ++ suf)));
      [discriminate | exact IH].
Qed.

Lemma search_inv (pat : Re.pattern) (s g : string) :
  Re.search pat s = Some g ->
  exists pre suf, s = (pre ++ suf)%string /\
                  Re.match_here pat "" "" suf = Some g.
Proof.
  induction s as [ | c s IH]; cbn [Re.search].
  - destruct (Re.match_here pat "" "" "") eqn:E; [|discriminate].
    intros H. injection H as <-. now exists "", "".
  - destruct (Re.match_here pat "" "" (String c s)) eqn:E.
    + intros H. injection H as <-. now exists "", (String c s).
    + intros H. destruct (IH H) as (pre & suf & -> & Hm).
      now exists (String c pre), suf.
Qed.

Lemma many_inv {A : Type} (p : ascii -> bool) (lo : nat) (hi : option nat)
    (s : string) (k : string -> option A) (x : A) :
  Re.many p lo hi s k = Some x ->
  exists w t,
    s = (w ++ t)%string /\ lo <= String.length w /\
    (forall c, In c (list_ascii_of_string w) -> p c = true) /\
    k t = Some x.
Proof.
  assert (Hstop : forall lo s,
            (if lo =? 0 then k s else None) = Some x ->
            exists w t,
              s = (w ++ t)%string /\ lo <= String.length w /\
              (forall c, In c (list_ascii_of_string w) -> p c = true) /\
              k t = Some x).
  { intros lo' s' H. destruct (lo' =? 0) eqn:E; [|discriminate].
    apply Nat.eqb_eq in E. subst lo'. exists "", s'.
    repeat split; [simpl; lia | intros c [] | exact H]. }
  revert lo hi. induction s as [ | c r IH]; intros lo hi; cbn [Re.many].
  - apply Hstop.
  - destruct (p c && match hi with Some 0 => false | _ => true end) eqn:E;
      [|apply Hstop].
    destruct (Re.many p (pred lo) (option_map pred hi) r k) as [x' | ] eqn:Em;
      [|apply Hstop].
    intros H. injection H as ->.
    destruct (IH _ _ Em) as (w & t & -> & Hlo & Hp & Hk).
    exists (String c w), t. repeat split.
    + simpl. lia.
    + intros c' [<- | Hc']; [|now apply Hp].
      apply Bool.andb_true_iff in E. tauto.
    + exact Hk.
Qed.

Lemma many_found {A : Type} (p : ascii -> bool) (lo : nat) (w t : string)
    (k : string -> option A) :
  (forall c, In c (list_ascii_of_string w) -> p c = true) ->
  lo <= String.length w -> k t <> None ->
  Re.many p lo None (w ++ t) k <> None.
Proof.
  revert lo. induction w as [ | c w IH]; intros lo Hp Hlo Hk.
  - simpl in Hlo. assert (lo = 0) by lia. subst lo. cbn [append].
    destruct t as [ | c r]; cbn [Re.many Nat.eqb]; [exact Hk|].
    destruct (p c && true); [|exact Hk].
    destruct (Re.many p _ _ r k); [discriminate | exact Hk].
  - cbn [append Re.many option_map]. rewrite (Hp c (or_introl eq_refl)).
    cbn [andb].
    assert (H : Re.many p (pred lo) None (w ++ t) k <> None).
    { apply IH; [|simpl in Hlo; lia | exact Hk].
      intros c' Hc'. apply Hp. now right. }
    destruct (Re.many p (pred lo) None (w ++ t) k); [discriminate | congruence].
Qed.

(** Where "for", white space and a character that is not a line break
    follow each other, [r'for\s+(.+)'] matches. *)
Lemma for_any_matches (w : string) (h : ascii) (t : string) :
  (forall c, In c (list_ascii_of_string w) -> Re.space c = true) ->
  1 <= String.length w -> Re.dot h = true ->
  Re.match_here Rules.for_any "" "" ("for" ++ w ++ String h t) <> None.
Proof.
  intros Hw Hlen Hh. unfold Rules.for_any. cbn [Re.match_here].
  rewrite after_prefix_app.
  apply many_found; [exact Hw | exact Hlen|].
  cbn [Re.match_here].
  apply (many_found Re.dot 1 (String h "") t).
  - intros c [<- | []]. exact Hh.
  - simpl. lia.
  - discriminate.
Qed.

Lemma id_character_is_dot (c : ascii) :
  Re.upper_digit_hyphen c = true -> Re.dot c = true.
Proof.
  unfold Re.upper_digit_hyphen, Re.dot, Re.newline. intros H.
  destruct (Ascii.eqb c (ascii_of_nat 10)) eqn:E; [|reflexivity].
  apply Ascii.eqb_eq in E. subst c. discriminate.
Qed.

Lemma details_url_needs_for (suf g : string) :
  Re.match_here Rules.details_url "" "" suf = Some g ->
  exists w h t,
    suf = ("details " ++ "for" ++ w ++ String h t)%string /\
    (forall c, In c (list_ascii_of_string w) -> Re.space c = true) /\
    1 <= String.length w /\ Re.dot h = true.
Proof.
  unfold Rules.details_url. cbn [Re.match_here].
  destruct (Re.after_prefix "details for" suf) as [s1 | ] eqn:E1; [|discriminate].
  apply after_prefix_inv in E1. intros H.
  apply many_inv in H. destruct H as (w & t & -> & Hlen & Hw & Hk).
  cbn [Re.match_here] in Hk.
  destruct (Re.after_prefix "http" t) as [t' | ] eqn:E2; [|discriminate].
  apply after_prefix_inv in E2. subst t.
  exists w, "h"%char, ("ttp" ++ t')%string. subst suf.
  repeat split; auto.
Qed.

Lemma for_id_needs_for (suf g : string) :
  Re.match_here Rules.for_id "" "" suf = Some g ->
  exists w h t,
    suf = ("for" ++ w ++ String h t)%string /\
    (forall c, In c (list_ascii_of_string w) -> Re.space c = true) /\
    1 <= String.length w /\ Re.dot h = true.
Proof.
  unfold Rules.for_id. cbn [Re.match_here].
  destruct (Re.after_prefix "for" suf) as [s1 | ] eqn:E1; [|discriminate].
  apply after_prefix_inv in E1. intros H.
  apply many_inv in H. destruct H as (w & t & -> & Hlen & Hw & Hk).
  cbn [Re.match_here] in Hk.
  apply many_inv in Hk. destruct Hk as (w2 & t2 & -> & Hlen2 & Hw2 & _).
  destruct w2 as [ | h w2]; [simpl in Hlen2; lia|].
  exists w, h, (w2 ++ t2)%string. subst suf.
  repeat split; auto.
  apply id_character_is_dot, Hw2. now left.
Qed.

Lemma url_question_is_product_question (q g : string) :
  Re.search Rules.details_url q = Some g ->
  Re.search Rules.for_any q <> None.
Proof.
  intros H. destruct (search_inv _ _ _ H) as (pre & suf & -> & Hm).
  destruct (details_url_needs_for _ _ Hm) as (w & h & t & -> & Hw & Hlen & Hh).
  rewrite <- string_app_assoc.
  apply search_found, for_any_matches; assumption.
Qed.

Lemma id_question_is_product_question (q g : string) :
  Re.search Rules.for_id q = Some g ->
  Re.search Rules.for_any q <> None.
Proof.
  intros H. destruct (search_inv _ _ _ H) as (pre & suf & -> & Hm).
  destruct (for_id_needs_for _ _ Hm) as (w & h & t & -> & Hw & Hlen & Hh).
  apply search_found, for_any_matches; assumption.
Qed.

(** The Cisco bot never answers by its URL rule.  A question in which
    [r'details for\s+(https?://\S+)'] finds a link is one in which
    [r'for\s+(.+)'] finds a product, and the product rule stands first:
    "Details for https://..." is answered by the search for that text in
    the "vulnerability" column. *)
Theorem cisco_url_rule_is_never_reached :
  forall (question url : string),
    Rules.cisco question <> Rules.Cisco_url url.
Proof.
  intros question url. unfold Rules.cisco.
  set (q := Queries.clean_text question).
  destruct (Queries.is_latest q); [discriminate|].
  destruct (Rules.severity_level q); [discriminate|].
  destruct (Re.search Rules.for_any q) eqn:Ef; [discriminate|].
  destruct (Re.search Rules.details_url q) eqn:Ed.
  - exfalso. exact (url_question_is_product_question _ _ Ed Ef).
  - destruct (Rules.after q); discriminate.
Qed.

(** The Palo Alto bot never answers by its rules for affected and for
    unaffected versions: they look for an identifier with
    [r'for\s+([A-Z0-9-]+)'], and every question in which that is found
    was answered before by the product rule. *)
Theorem palo_alto_version_rules_are_never_reached :
  forall (known : string -> bool) (question advisory_id : string),
    Rules.palo_alto known question <> Rules.PA_affected advisory_id /\
    Rules.palo_alto known question <> Rules.PA_unaffected advisory_id.
Proof.
  intros known question advisory_id. unfold Rules.palo_alto.
  set (q := Queries.clean_text question).
  destruct (Queries.is_latest q); [split; discriminate|].
  destruct (Rules.severity_level q); [split; discriminate|].
  destruct (Re.search Rules.for_any q) eqn:Ef; [split; discriminate|].
  destruct (Re.search Rules.cve_id q); [split; discriminate|].
  destruct (Rules.after q); [split; discriminate|].
  destruct (Re.search Rules.for_id q) eqn:Ei.
  - exfalso. exact (id_question_is_product_question _ _ Ei Ef).
  - destruct (Str.contains "unaffected versions for" q),
             (Str.contains "affected versions for" q); split; discriminate.
Qed.

(** ** The severity that a scan stores *)

Lemma add_labels_known (ks seen : list string) :
  (forall k, In k ks -> In k seen) ->
  fold_left Scan.add_label ks seen = seen.
Proof.
  induction ks as [ | k ks IH]; intros H; [reflexivity|].
  cbn [fold_left]. unfold Scan.add_label at 2.
  rewrite (proj2 (mem_In k seen) (H k (or_introl eq_refl))).
  apply IH. intros k' Hk'. apply H. now right.
Qed.

Lemma add_labels_fresh (ks seen : list string) :
  NoDup ks -> (forall k, In k ks -> ~ In k seen) ->
  fold_left Scan.add_label ks seen = seen ++ ks.
Proof.
  revert seen. induction ks as [ | k ks IH]; intros seen Hnd H.
  - now rewrite app_nil_r.
  - cbn [fold_left]. unfold Scan.add_label at 2.
    assert (Hk : Str.mem k seen = false).
    { apply Bool.not_true_iff_false. intros Hm. apply mem_In in Hm.
      exact (H k (or_introl eq_refl) Hm). }
    rewrite Hk. inversion Hnd as [ | ? ? Hnotin Hnd']; subst.
    rewrite IH; [now rewrite <- app_assoc | exact Hnd'|].
    intros k' Hk' Hin. apply in_app_or in Hin. destruct Hin as [Hin | [<- | []]].
    + exact (H k' (or_intror Hk') Hin).
    + exact (Hnotin Hk').
Qed.

(** The labels of a frame built from dicts that all have the keys
    [keys], in this order. *)
Lemma labels_uniform (keys : list string) (t : table) :
  NoDup keys -> t <> [] -> Forall (fun r => map fst r = keys) t ->
  Scan.labels t = keys.
Proof.
  intros Hnd Hne H. unfold Scan.labels.
  destruct t as [ | r t]; [congruence|].
  apply Forall_cons_iff in H. destruct H as [Hr Ht].
  cbn [fold_left]. rewrite Hr, (add_labels_fresh keys [] Hnd) by (intros ? ? []).
  cbn [app]. clear Hne Hr. induction Ht as [ | r' t Hr' _ IH]; [reflexivity|].
  cbn [fold_left]. rewrite Hr', add_labels_known; auto.
Qed.

Lemma set_column_map (k : string) (f : record -> cell) (t : table) :
  set_column k (map f t) t = map (fun r => set_field k (f r) r) t.
Proof. induction t as [ | r t IH]; simpl; [reflexivity | now rewrite IH]. Qed.

Lemma dates_as_text_rows (astype_str : cell -> string) (k : string)
    (df : Queries.DataFrame) :
  Queries.rows (Dashboard.dates_as_text astype_str k df)
  = if Str.mem k (Queries.columns df)
    then map (fun r => set_field k (Dashboard.date_text astype_str (col k r)) r)
           (Queries.rows df)
    else Queries.rows df.
Proof.
  unfold Dashboard.dates_as_text.
  destruct (Str.mem k (Queries.columns df)); [|reflexivity].
  cbn [Queries.rows].
  apply (set_column_map k (fun r => Dashboard.date_text astype_str (col k r))).
Qed.

Lemma dates_as_text_length (astype_str : cell -> string) (k : string)
    (df : Queries.DataFrame) :
  List.length (Queries.rows (Dashboard.dates_as_text astype_str k df))
  = List.length (Queries.rows df).
Proof.
  rewrite dates_as_text_rows. destruct (Str.mem k _); [|reflexivity].
  apply length_map.
Qed.

Lemma dates_as_text_column (astype_str : cell -> string) (k c : string)
    (df : Queries.DataFrame) :
  c <> k ->
  Scan.column c (Dashboard.dates_as_text astype_str k df) = Scan.column c df.
Proof.
  intros Hne. unfold Scan.column. rewrite dates_as_text_rows.
  destruct (Str.mem k _); [|reflexivity].
  rewrite map_map. apply map_ext. intros r. now apply col_set_field_other.
Qed.

(** A frame none of whose labels is a date label keeps its labels and
    its rows but for the dates, which become text. *)
Lemma prepared_without_date_label (astype_str : cell -> string) (t : table) :
  find (fun c => Str.mem c Scan.date_columns)
    (map Scan.normalize_label (Scan.labels t)) = None ->
  Queries.columns (Scan.prepared astype_str t)
  = map Scan.normalize_label (Scan.labels t) /\
  List.length (Queries.rows (Scan.prepared astype_str t)) = List.length t /\
  forall c, c <> "published_date" -> c <> "last_updated" ->
    Scan.column c (Scan.prepared astype_str t)
    = map (fun r => col c (map (fun kv => (Scan.normalize_label (fst kv), snd kv)) r))
        t.
Proof.
  intros Hfind. unfold Scan.prepared, Scan.rename_date_column, Scan.normalize.
  cbn [Queries.columns Queries.rows Scan.frame_of]. rewrite Hfind.
  repeat split.
  - now rewrite !dates_as_text_columns.
  - rewrite !dates_as_text_length. cbn [Queries.rows]. apply length_map.
  - intros c H1 H2. rewrite !dates_as_text_column by assumption.
    unfold Scan.column. cbn [Queries.rows]. now rewrite map_map.
Qed.

Lemma generic_levels_none {L : PyLib} (selected_oem : string)
    (cols : list string) (df : Queries.DataFrame) :
  (forall k, In k cols -> Str.mem k (Queries.columns df) = false) ->
  Scan.generic_levels selected_oem cols df = Ok None.
Proof.
  induction cols as [ | k cols IH]; intros H; [reflexivity|].
  cbn [Scan.generic_levels]. rewrite (H k (or_introl eq_refl)). cbn [negb].
  apply IH. intros k' Hk'. apply H. now right.
Qed.

Lemma kept_all_na (selected : list string) (rows : table) :
  Scan.kept selected rows (map (fun _ => Some "N/A") rows)
  = if Str.mem "n/a" selected
    then map (set_field "severity_level" (Str "n/a")) rows
    else [].
Proof.
  induction rows as [ | r rows IH]; cbn [map Scan.kept].
  - now destruct (Str.mem "n/a" selected).
  - change (Str.lower "N/A") with "n/a". rewrite IH.
    now destruct (Str.mem "n/a" selected).
Qed.

Lemma scan_unfold {L : PyLib} (astype_str : cell -> string)
    (selected_oem : string) (severity_filter : list string) (t : table) :
  t <> [] -> Scan.labels t <> [] ->
  Scan.scan astype_str selected_oem severity_filter t
  = (levels <- Scan.levels selected_oem (Scan.prepared astype_str t) ;;
     Ok (Some
           {| Queries.columns :=
                if Str.mem "severity_level"
                     (Queries.columns (Scan.prepared astype_str t))
                then Queries.columns (Scan.prepared astype_str t)
                else Queries.columns (Scan.prepared astype_str t)
                       ++ ["severity_level"];
              Queries.rows :=
                Scan.kept (map Str.lower severity_filter)
                  (Queries.rows (Scan.prepared astype_str t)) levels |})).
Proof.
  intros Ht Hl. unfold Scan.scan.
  destruct t; [congruence|]. destruct (Scan.labels _); [congruence|].
  reflexivity.
Qed.

Lemma intel_row_shape (key : string) (net : Nvd.network) (cols : list td)
    (d : record) :
  snd (Intel.row key net cols) = Ok (Some d) ->
  map fst d = ["OEM Name"; "Vulnerability"; "Published Date"; "URL";
               "Last Updated"].
Proof.
  unfold Intel.row.
  destruct cols as [ | c0 [ | c1 [ | c2 [ | c3 rest]]]]; try discriminate.
  destruct (href_or "#" (td_a c0)) as [link | e]; [|discriminate].
  destruct (Enrich.nvd_for key net _) as [calls [nvd | e]];
    cbn [snd Py.bind]; [|discriminate].
  destruct (Nvd.capitalized_severity nvd "N/A"); cbn [snd Py.bind];
    [|discriminate].
  intros H. injection H as <-. reflexivity.
Qed.

(** After a scan of Intel every stored row has the severity level "n/a",
    whatever the NVD answered during the scrape: the frame has no column
    from which the dashboard reads a severity.  So the rows are stored
    when "N/A" is selected in the severity filter, and none is stored
    when it is not. *)
Theorem scan_of_intel_shows_no_severity :
  forall (L : PyLib) (astype_str : cell -> string) (key : string)
         (net : Nvd.network) (b : Intel.browser) (t : table)
         (severity_filter : list string),
    snd (Intel.scrape_intel key net b) = Ok t -> t <> [] ->
    exists df,
      Scan.scan astype_str "Intel" severity_filter t = Ok (Some df) /\
      Forall (fun r => col "severity_level" r = Str "n/a") (Queries.rows df) /\
      List.length (Queries.rows df)
      = if Str.mem "n/a" (map Str.lower severity_filter)
        then List.length t else 0.
Proof.
  intros L astype_str key net b t severity_filter Ht Hne.
  assert (Hlabels : Scan.labels t
                    = ["OEM Name"; "Vulnerability"; "Published Date"; "URL";
                       "Last Updated"]).
  { apply labels_uniform; [|exact Hne|].
    - repeat constructor; simpl; intuition discriminate.
    - exact (intel_table_Forall _ key net b t (intel_row_shape key net) Ht). }
  destruct (prepared_without_date_label astype_str t) as (Hcols & Hlen & _).
  { rewrite Hlabels. reflexivity. }
  rewrite Hlabels in Hcols.
  change (map Scan.normalize_label _)
    with ["oem_name"; "vulnerability"; "published_date"; "url"; "last_updated"]
    in Hcols.
  rewrite scan_unfold; [|exact Hne | rewrite Hlabels; discriminate].
  unfold Scan.levels, Scan.assigned_levels. rewrite Hcols.
  cbn [String.eqb Ascii.eqb Bool.eqb Str.mem existsb orb andb].
  rewrite generic_levels_none.
  2:{ intros k Hk. rewrite Hcols. simpl in Hk.
      repeat (destruct Hk as [<- | Hk]; [reflexivity|]). destruct Hk. }
  cbn [Py.bind]. eexists. split; [reflexivity|]. cbn [Queries.rows].
  rewrite kept_all_na. destruct (Str.mem "n/a" _).
  - split; [|now rewrite length_map].
    apply Forall_forall. intros r Hr. apply in_map_iff in Hr.
    destruct Hr as (r0 & <- & _). apply col_set_field_same.
  - split; [constructor | reflexivity].
Qed.

Lemma scan_of_intel_shows_no_severity_witness :
  exists t df,
    snd (Intel.scrape_intel "key" (Examples.answers Examples.nvd_document)
           Examples.intel_page) = Ok t /\
    Scan.scan (L := Ref.lib) Pages.cell_text "Intel" ["Critical"; "High"] t
    = Ok (Some df) /\
    Queries.rows df = [].
Proof.
  destruct (snd (Intel.scrape_intel "key" (Examples.answers Examples.nvd_document)
                   Examples.intel_page)) as [t | e] eqn:E;
    [|vm_compute in E; discriminate].
  destruct (scan_of_intel_shows_no_severity Ref.lib Pages.cell_text "key"
              (Examples.answers Examples.nvd_document) Examples.intel_page t
              ["Critical"; "High"] E) as (df & Hdf & _ & Hlen).
  - vm_compute in E. injection E as <-. discriminate.
  - exists t, df. split; [reflexivity|]. split; [exact Hdf|].
    change (Str.mem "n/a" (map Str.lower ["Critical"; "High"])) with false in Hlen.
    now destruct (Queries.rows df).
Defined.

Lemma after_prefix_i_suffix (p s s' : string) :
  Re.after_prefix_i p s = Some s' -> exists p', s = (p' ++ s')%string.
Proof.
  revert s. induction p as [ | a p IH]; intros s; cbn [Re.after_prefix_i].
  - intros H. injection H as <-. now exists "".
  - destruct s as [ | b s]; [discriminate|].
    destruct (Ascii.eqb _ _); [|discriminate].
    intros H. destruct (IH _ H) as (p' & ->). now exists (String b p').
Qed.

Lemma first_some_inv {A B : Type} (k : A -> option B) (l : list A) (y : B) :
  Re.first_some k l = Some y -> exists x, In x l /\ k x = Some y.
Proof.
  induction l as [ | x l IH]; cbn [Re.first_some]; [discriminate|].
  destruct (k x) as [y' | ] eqn:E.
  - intros H. injection H as <-. exists x. split; [now left | exact E].
  - intros H. destruct (IH H) as (x' & Hin & Hk). exists x'.
    split; [now right | exact Hk].
Qed.

Lemma first_some_found {A B : Type} (k : A -> option B) (l : list A) (x : A) :
  In x l -> k x <> None -> Re.first_some k l <> None.
Proof.
  induction l as [ | x' l IH]; cbn [Re.first_some]; [intros []|].
  intros [-> | Hin] Hk.
  - destruct (k x); [discriminate | congruence].
  - destruct (k x'); [discriminate | exact (IH Hin Hk)].
Qed.

(** A text in which a level word stands somewhere is one in which the
    plain pattern finds a level. *)
Lemma level_word_found (pre x w rest : string) :
  In w Scan.level_words -> Re.after_prefix_i w x = Some rest ->
  Re.search Scan.level (pre ++ x) <> None.
Proof.
  intros Hw Hx. apply search_found. unfold Scan.level. cbn [Re.match_here].
  apply (first_some_found _ _ w Hw). rewrite Hx. discriminate.
Qed.

Lemma level_alternative (k : string -> option string) (x g : string) :
  Re.first_some
    (fun w => match Re.after_prefix_i w x with
              | Some x' => k x'
              | None => None
              end) Scan.level_words = Some g ->
  exists w x', In w Scan.level_words /\ Re.after_prefix_i w x = Some x'.
Proof.
  intros H. apply first_some_inv in H. destruct H as (w & Hw & Hk).
  destruct (Re.after_prefix_i w x) as [x' | ] eqn:E; [|discriminate].
  now exists w, x'.
Qed.

Lemma cvss_level_has_level_word (s g : string) :
  Re.search Scan.cvss_level s = Some g -> Re.search Scan.level s <> None.
Proof.
  intros H. destruct (search_inv _ _ _ H) as (pre & suf & -> & Hm).
  unfold Scan.cvss_level in Hm. cbn [Re.match_here] in Hm.
  destruct (Re.after_prefix_i "CVSS: " suf) as [s1 | ] eqn:E1; [|discriminate].
  apply after_prefix_i_suffix in E1. destruct E1 as (p1 & ->).
  apply many_inv in Hm. destruct Hm as (w1 & t1 & -> & _ & _ & Hm).
  destruct (Re.after_prefix_i "." t1) as [s2 | ] eqn:E2; [|discriminate].
  apply after_prefix_i_suffix in E2. destruct E2 as (p2 & ->).
  apply many_inv in Hm. destruct Hm as (w2 & t2 & -> & _ & _ & Hm).
  destruct (Re.after_prefix_i " (" t2) as [s3 | ] eqn:E3; [|discriminate].
  apply after_prefix_i_suffix in E3. destruct E3 as (p3 & ->).
  destruct (level_alternative _ _ _ Hm) as (w & x' & Hw & Hx).
  rewrite <- !string_app_assoc. exact (level_word_found _ _ _ _ Hw Hx).
Qed.

Lemma labelled_level_has_level_word (s g : string) :
  Re.search Scan.labelled_level s = Some g -> Re.search Scan.level s <> None.
Proof.
  intros H. destruct (search_inv _ _ _ H) as (pre & suf & -> & Hm).
  unfold Scan.labelled_level in Hm. cbn [Re.match_here] in Hm.
  apply first_some_inv in Hm. destruct Hm as (w0 & _ & Hm).
  destruct (Re.after_prefix_i w0 suf) as [s1 | ] eqn:E1; [|discriminate].
  apply after_prefix_i_suffix in E1. destruct E1 as (p1 & ->).
  destruct (Re.after_prefix_i ": " s1) as [s2 | ] eqn:E2; [|discriminate].
  apply after_prefix_i_suffix in E2. destruct E2 as (p2 & ->).
  destruct (level_alternative _ _ _ Hm) as (w & x' & Hw & Hx).
  rewrite <- !string_app_assoc. exact (level_word_found _ _ _ _ Hw Hx).
Qed.

Lemma level_cvss_has_level_word (s g : string) :
  Re.search Scan.level_cvss s = Some g -> Re.search Scan.level s <> None.
Proof.
  intros H. destruct (search_inv _ _ _ H) as (pre & suf & -> & Hm).
  unfold Scan.level_cvss in Hm. cbn [Re.match_here] in Hm.
  destruct (level_alternative _ _ _ Hm) as (w & x' & Hw & Hx).
  exact (level_word_found _ _ _ _ Hw Hx).
Qed.

Lemma notna_any_needs_level (pat : Re.pattern) (c : list cell) :
  (forall s g, Re.search pat s = Some g -> Re.search Scan.level s <> None) ->
  Scan.notna_any (map (Scan.extract Scan.level) c) = false ->
  Scan.notna_any (map (Scan.extract pat) c) = false.
Proof.
  intros Hpat. unfold Scan.notna_any.
  induction c as [ | x c IH]; [reflexivity|].
  cbn [map existsb]. intros H. apply Bool.orb_false_iff in H.
  destruct H as [Hx Hc]. rewrite (IH Hc), Bool.orb_false_r.
  destruct x as [s | | | ]; try reflexivity. cbn [Scan.extract] in *.
  destruct (Re.search pat s) as [g | ] eqn:E; [|reflexivity].
  destruct (Re.search Scan.level s) eqn:E'; [discriminate|].
  now destruct (Hpat s g E).
Qed.

(** Of the five patterns with which the dashboard looks for a severity in
    a column, three never supply one.  A text in which
    "CVSS: x.y (Level)", "Severity: Level", "Rating: Level" or
    "Level (CVSS x.y)" is found contains a level word, which the first
    pattern finds before they are tried.  So a column of levels that the
    loop assigns is what the first pattern extracts from a column of the
    frame, or what is mapped from its CVSS numbers. *)
Theorem scan_patterns_that_never_apply :
  forall (L : PyLib),
    (forall (s g : string),
       Re.search Scan.cvss_level s = Some g \/
       Re.search Scan.labelled_level s = Some g \/
       Re.search Scan.level_cvss s = Some g ->
       Re.search Scan.level s <> None) /\
    (forall (selected_oem : string) (cols : list string)
            (df : Queries.DataFrame) (levels : list (option string)),
       Scan.generic_levels selected_oem cols df = Ok (Some levels) ->
       exists k,
         In k cols /\ Str.mem k (Queries.columns df) = true /\
         (levels = map (Scan.extract Scan.level) (Scan.column k df) \/
          Scan.scored k df = Ok (Some levels))).
Proof.
  intros L. split.
  - intros s g [H | [H | H]].
    + exact (cvss_level_has_level_word s g H).
    + exact (labelled_level_has_level_word s g H).
    + exact (level_cvss_has_level_word s g H).
  - intros selected_oem cols df levels.
    induction cols as [ | k cols IH]; [discriminate|].
    cbn [Scan.generic_levels].
    destruct (Str.mem k (Queries.columns df)) eqn:Ek; cbn [negb].
    2:{ intros H. destruct (IH H) as (k' & Hin & Hk').
        exists k'. split; [now right | exact Hk']. }
    destruct (Scan.str_accessor (Scan.column k df)); [|discriminate].
    cbn [Py.bind].
    destruct (Scan.notna_any (map (Scan.extract Scan.level) (Scan.column k df)))
      eqn:E1.
    { intros H. injection H as <-. exists k. repeat split; auto. now left. }
    rewrite (notna_any_needs_level _ _ cvss_level_has_level_word E1).
    rewrite (notna_any_needs_level _ _ labelled_level_has_level_word E1).
    rewrite (notna_any_needs_level _ _ level_cvss_has_level_word E1).
    rewrite Bool.andb_false_r.
    destruct (Scan.scored k df) as [[found | ] | e] eqn:Es; cbn [Py.bind].
    + intros H. injection H as <-. exists k. repeat split; auto. now left.
    + intros H. destruct (IH H) as (k' & Hin & Hk').
      exists k'. split; [now right | exact Hk'].
    + discriminate.
Qed.

Lemma scan_patterns_that_never_apply_witness :
  Re.search Scan.level "CVSS: 9.8 (Critical)" <> None /\
  exists k,
    In k Scan.severity_cols /\
    Scan.scored (L := Ref.lib) k Examples.raw_cisco_df = Ok None /\
    map (Scan.extract Scan.level) (Scan.column k Examples.raw_cisco_df)
    = [Some "Medium"].
Proof.
  destruct (scan_patterns_that_never_apply Ref.lib) as [Htext Hloop].
  split.
  - apply (Htext _ "Critical"). left. reflexivity.
  - destruct (Hloop "Cisco" Scan.severity_cols Examples.raw_cisco_df
                [Some "Medium"]) as (k & Hin & _ & _); [reflexivity|].
    exists "description". repeat split. simpl. auto.
Defined.

Lemma nvidia_rows_loop_records (rows : list Nvidia.tr) (data data' : table)
    (done : bool) :
  Nvidia.rows_loop rows data = Ok (data', done) ->
  Forall (fun r => exists c, r = Nvidia.record_of c) data ->
  Forall (fun r => exists c, r = Nvidia.record_of c) data'.
Proof.
  revert data. induction rows as [ | [e | | c] rows IH]; intros data; simpl.
  - intros H. now injection H as <- _.
  - destruct (is_Stale e); [|discriminate]. intros H. now injection H as <- _.
  - apply IH.
  - intros H Hd. apply (IH _ H). apply Forall_app. split; [exact Hd|].
    repeat constructor. now exists c.
Qed.

Lemma nvidia_attempts_records (b : Nvidia.browser) (left attempt : nat)
    (data t : table) :
  Nvidia.attempts b left attempt data = Ok t ->
  Forall (fun r => exists c, r = Nvidia.record_of c) data ->
  Forall (fun r => exists c, r = Nvidia.record_of c) t.
Proof.
  revert attempt data. induction left as [ | left IH]; intros attempt data; simpl.
  - intros H. now injection H as <-.
  - destruct (Nvidia.find_rows b attempt) as [rows | e].
    + destruct (Nvidia.rows_loop rows data) as [[data' [ | ]] | e] eqn:E;
        try discriminate.
      * intros H Hd. injection H as <-.
        exact (nvidia_rows_loop_records _ _ _ _ E Hd).
      * intros H Hd. apply (IH _ _ H).
        exact (nvidia_rows_loop_records _ _ _ _ E Hd).
    + destruct (is_Stale e); [apply IH | discriminate].
Qed.

Lemma nvidia_table_records (b : Nvidia.browser) (t : table) :
  Nvidia.scrape_nvidia b = Ok t ->
  Forall (fun r => exists c, r = Nvidia.record_of c) t.
Proof.
  unfold Nvidia.scrape_nvidia.
  destruct (Nvidia.setup_driver b); [|discriminate]. cbn [Py.bind].
  destruct (Nvidia.get b); cbn [Py.bind try_except].
  2:{ destruct (is_WebDriverException e); [|discriminate].
      intros H. injection H as <-. constructor. }
  destruct (Nvidia.wait_body b); cbn [Py.bind try_except].
  2:{ destruct (is_WebDriverException e); [|discriminate].
      intros H. injection H as <-. constructor. }
  destruct (Nvidia.wait_table b); cbn [Py.bind try_except].
  2:{ destruct (is_WebDriverException e); [|discriminate].
      intros H. injection H as <-. constructor. }
  destruct (Nvidia.attempts b 3 0 []) as [u | e] eqn:E; cbn [try_except].
  - intros H. injection H as <-.
    apply (nvidia_attempts_records _ _ _ _ _ E). constructor.
  - destruct (is_WebDriverException e); [|discriminate].
    intros H. injection H as <-. constructor.
Qed.

Lemma nvidia_severity_valid (c : Nvidia.cells) :
  In (Nvidia.severity c) Nvidia.valid_severities.
Proof.
  unfold Nvidia.severity.
  match goal with
  | |- In (if Str.mem ?s _ then _ else _) _ =>
      destruct (Str.mem s Nvidia.valid_severities) eqn:E
  end.
  - now apply mem_In.
  - simpl. auto.
Qed.

(** What the patterns find in the severities that the NVIDIA scraper
    lets through. *)
Lemma nvidia_severity_extracts (v : string) :
  In v Nvidia.valid_severities ->
  Scan.extract Scan.level (Str v)
  = (if Str.mem v ["Low"; "Medium"; "High"; "Critical"] then Some v else None)
  /\ Scan.extract Scan.cvss_number (Str v) = None.
Proof.
  intros H. simpl in H.
  repeat (destruct H as [<- | H]; [split; vm_compute; reflexivity|]).
  destruct H.
Qed.

Lemma kept_levels (selected : list string) (rows : table)
    (levels : list (option string)) :
  List.length rows = List.length levels ->
  map (col "severity_level") (Scan.kept selected rows levels)
  = flat_map (fun o => match o with
                       | Some l =>
                           if Str.mem (Str.lower l) selected
                           then [Str (Str.lower l)] else []
                       | None => []
                       end) levels.
Proof.
  revert levels. induction rows as [ | r rows IH]; intros [ | o levels];
    try discriminate; [reflexivity|].
  intros H. injection H as H. cbn [Scan.kept flat_map].
  destruct o as [l | ]; [|exact (IH _ H)].
  destruct (Str.mem (Str.lower l) selected); [|exact (IH _ H)].
  cbn [map app]. now rewrite col_set_field_same, (IH _ H).
Qed.

Lemma floats_none {L : PyLib} (l : list (option string)) :
  Forall (fun o => o = None) l ->
  Scan.floats l = Ok (map (fun _ => None) l).
Proof.
  induction 1 as [ | o l -> _ IH]; [reflexivity|].
  cbn [Scan.floats map]. now rewrite IH.
Qed.

(** After a scan of NVIDIA the stored severity level is the word of the
    "Severity" cell in lower case.  When a row of the page has one of
    Low, Medium, High and Critical, the rows whose cell says "N/A",
    "None" or "NVIDIA products are not affected" are not stored, whatever
    the severity filter selects; when no row has one, every row gets the
    level "n/a". *)
Theorem scan_of_nvidia_drops_unrated_rows :
  forall (L : PyLib) (astype_str : cell -> string) (b : Nvidia.browser)
         (t : table) (severity_filter : list string),
    Nvidia.scrape_nvidia b = Ok t -> t <> [] ->
    exists df,
      Scan.scan astype_str "NVIDIA" severity_filter t = Ok (Some df) /\
      map (col "severity_level") (Queries.rows df)
      = let selected := map Str.lower severity_filter in
        let rated r :=
          match col "Severity" r with
          | Str v => Str.mem v ["Low"; "Medium"; "High"; "Critical"]
          | _ => false
          end in
        if existsb rated t
        then flat_map
               (fun r =>
                  match col "Severity" r with
                  | Str v =>
                      if rated r && Str.mem (Str.lower v) selected
                      then [Str (Str.lower v)] else []
                  | _ => []
                  end) t
        else if Str.mem "n/a" selected
             then map (fun _ => Str "n/a") t else [].
Proof.
  intros L astype_str b t severity_filter Ht Hne.
  pose proof (nvidia_table_records b t Ht) as Hrec.
  assert (Hlabels : Scan.labels t
                    = ["Title"; "Bulletin ID"; "Severity"; "CVE Identifier(s)";
                       "Publish Date"; "Last Updated"; "URL"]).
  { apply labels_uniform; [|exact Hne|].
    - repeat constructor; simpl; intuition discriminate.
    - apply (Forall_impl _ (P := fun r => exists c, r = Nvidia.record_of c));
        [|exact Hrec]. now intros r (c & ->). }
  destruct (prepared_without_date_label astype_str t) as (Hcols & Hlen & Hcolumn).
  { rewrite Hlabels. reflexivity. }
  rewrite Hlabels in Hcols.
  change (map Scan.normalize_label _)
    with ["title"; "bulletin_id"; "severity"; "cve_identifier(s)";
          "publish_date"; "last_updated"; "url"] in Hcols.
  specialize (Hcolumn "severity" ltac:(discriminate) ltac:(discriminate)).
  assert (Hsev : Scan.column "severity" (Scan.prepared astype_str t)
                 = map (fun r => Str (match col "Severity" r with
                                      | Str v => v
                                      | _ => ""
                                      end)) t).
  { rewrite Hcolumn. apply map_ext_in. intros r Hr.
    rewrite Forall_forall in Hrec. destruct (Hrec r Hr) as (c & ->).
    reflexivity. }
  assert (Hvalid : Forall (fun r => exists v, col "Severity" r = Str v /\
                                              In v Nvidia.valid_severities) t).
  { apply (Forall_impl _ (P := fun r => exists c, r = Nvidia.record_of c));
      [|exact Hrec]. intros r (c & ->).
    exists (Nvidia.severity c). split; [reflexivity|].
    apply nvidia_severity_valid. }
  rewrite scan_unfold; [|exact Hne | rewrite Hlabels; discriminate].
  unfold Scan.levels, Scan.assigned_levels. rewrite Hcols.
  cbn [String.eqb Ascii.eqb Bool.eqb Str.mem existsb orb andb find
       Scan.severity_cols].
  unfold Scan.nvidia_levels, Scan.scored. rewrite Hsev.
  assert (Haccessor : Scan.str_accessor
                        (map (fun r => Str (match col "Severity" r with
                                            | Str v => v
                                            | _ => ""
                                            end)) t) = Ok tt).
  { destruct t; [congruence | reflexivity]. }
  rewrite Haccessor. cbn [Py.bind]. rewrite !map_map.
  assert (Hwords : map (fun r => Scan.extract Scan.level
                                   (Str (match col "Severity" r with
                                         | Str v => v
                                         | _ => ""
                                         end))) t
                   = map (fun r => match col "Severity" r with
                                   | Str v =>
                                       if Str.mem v ["Low"; "Medium"; "High";
                                                     "Critical"]
                                       then Some v else None
                                   | _ => None
                                   end) t).
  { apply map_ext_in. intros r Hr. rewrite Forall_forall in Hvalid.
    destruct (Hvalid r Hr) as (v & -> & Hv).
    exact (proj1 (nvidia_severity_extracts v Hv)). }
  assert (Hnumbers : map (fun r => Scan.extract Scan.cvss_number
                                     (Str (match col "Severity" r with
                                           | Str v => v
                                           | _ => ""
                                           end))) t
                     = map (fun _ => None) t).
  { apply map_ext_in. intros r Hr. rewrite Forall_forall in Hvalid.
    destruct (Hvalid r Hr) as (v & -> & Hv).
    exact (proj2 (nvidia_severity_extracts v Hv)). }
  rewrite Hwords, Hnumbers.
  assert (Hany : Scan.notna_any
                   (map (fun r => match col "Severity" r with
                                  | Str v =>
                                      if Str.mem v ["Low"; "Medium"; "High";
                                                    "Critical"]
                                      then Some v else None
                                  | _ => None
                                  end) t)
                 = existsb (fun r => match col "Severity" r with
                                     | Str v => Str.mem v ["Low"; "Medium"; "High";
                                                           "Critical"]
                                     | _ => false
                                     end) t).
  { unfold Scan.notna_any. clear. induction t as [ | r t IH]; [reflexivity|].
    cbn [map existsb]. rewrite IH. f_equal.
    destruct (col "Severity" r); try reflexivity.
    now destruct (Str.mem s _). }
  rewrite Hany. cbv zeta.
  destruct (existsb _ t) eqn:Erated.
  - cbn [Py.bind]. eexists. split; [reflexivity|]. cbn [Queries.rows].
    rewrite kept_levels by (now rewrite Hlen, length_map).
    clear. induction t as [ | r t IH]; [reflexivity|].
    cbn [map flat_map]. rewrite IH. f_equal.
    destruct (col "Severity" r) as [v | | | ]; try reflexivity.
    change ((v =? "Low")%string
            || ((v =? "Medium")%string
                || ((v =? "High")%string || ((v =? "Critical")%string || false))))
      with (Str.mem v ["Low"; "Medium"; "High"; "Critical"]).
    now destruct (Str.mem v _).
  - rewrite floats_none by (apply Forall_forall; intros o Ho;
                            apply in_map_iff in Ho; now destruct Ho as (? & <- & _)).
    cbn [Py.bind]. rewrite map_map.
    assert (Hnone : existsb Scan.is_number (map (fun _ : record => None) t) = false).
    { clear. induction t; [reflexivity | exact IHt]. }
    rewrite Hnone. eexists. split; [reflexivity|]. cbn [Queries.rows].
    rewrite kept_all_na.
    destruct (Str.mem "n/a" _); [|reflexivity].
    rewrite map_map.
    transitivity (map (fun _ : record => Str "n/a")
                    (Queries.rows (Scan.prepared astype_str t))).
    { apply map_ext. intros r. apply col_set_field_same. }
    clear - Hlen. revert Hlen.
    generalize (Queries.rows (Scan.prepared astype_str t)).
    induction t as [ | r t IH]; intros [ | r' l]; try discriminate;
      [reflexivity|].
    intros H. injection H as H. cbn [map]. now rewrite (IH l H).
Qed.

Lemma scan_of_nvidia_drops_unrated_rows_witness :
  exists t df,
    Nvidia.scrape_nvidia Examples.nvidia_page = Ok t /\
    map (col "Severity") t
    = [Str "High"; Str "NVIDIA products are not affected"; Str "N/A"] /\
    Scan.scan (L := Ref.lib) Pages.cell_text "NVIDIA"
      ["N/A"; "Low"; "Medium"; "High"; "Critical"; "Informational"] t
    = Ok (Some df) /\
    map (col "severity_level") (Queries.rows df) = [Str "high"].
Proof.
  destruct (Nvidia.scrape_nvidia Examples.nvidia_page) as [t | e] eqn:E;
    [|vm_compute in E; discriminate].
  destruct (scan_of_nvidia_drops_unrated_rows Ref.lib Pages.cell_text
              Examples.nvidia_page t
              ["N/A"; "Low"; "Medium"; "High"; "Critical"; "Informational"] E)
    as (df & Hdf & Hlevels).
  - vm_compute in E. injection E as <-. discriminate.
  - exists t, df. vm_compute in E. injection E as <-.
    split; [reflexivity|]. split; [reflexivity|]. split; [exact Hdf|].
    rewrite Hlevels. reflexivity.
Defined.

Lemma map_fst_set_field (k : string) (v : cell) (r : record) :
  In k (map fst r) -> map fst (set_field k v r) = map fst r.
Proof.
  induction r as [ | [k' v'] r IH]; [intros []|].
  cbn [map fst set_field]. destruct (String.eqb k k') eqn:E; [reflexivity|].
  intros [-> | H]; [now rewrite String.eqb_refl in E|].
  cbn [map fst]. now rewrite (IH H).
Qed.

Lemma col_relabel (f : string -> string) (k : string) (r : record) :
  (forall k', In k' (map fst r) -> f k' = f k -> k' = k) ->
  col (f k) (map (fun kv => (f (fst kv), snd kv)) r) = col k r.
Proof.
  unfold col. induction r as [ | [k' v] r IH]; intros H; [reflexivity|].
  cbn [map field fst snd].
  destruct (String.eqb k k') eqn:E.
  - apply String.eqb_eq in E. subst k'. now rewrite String.eqb_refl.
  - assert (E' : String.eqb (f k) (f k') = false).
    { apply String.eqb_neq. intros Hf. apply String.eqb_neq in E. apply E.
      symmetry. apply H; [now left | now symmetry]. }
    rewrite E'. apply IH. intros k'' Hin. apply H. now right.
Qed.

Lemma palo_alto_row_keys {L : PyLib} (cols : list td) (d : record) :
  PaloAlto.row cols = Ok (Some d) ->
  map fst d
  = ["Product Name"; "Product Version"; "OEM Name"; "Vulnerability";
     "Description"; "Published Date"; "Last Updated"; "Unique ID"; "URL";
     "Severity Level"; "Affected Versions"; "Unaffected Versions"].
Proof.
  intros H. unfold PaloAlto.row in H.
  destruct cols as [ | c0 [ | c1 [ | c2 [ | c3 [ | c4 [ | c5 [ | c6 [ | ? ?]]]]]]]];
    try discriminate.
  unfold Py.bind in H.
  destruct (href_or "N/A" (td_a c1)) as [url | e]; [|discriminate].
  destruct (PaloAlto.cve_id_of _) as [cve_id | e]; [|discriminate].
  injection H as <-. reflexivity.
Qed.

(** After a scan of Palo Alto Networks the stored severity level is the
    level that the scraper computed from the CVSS score, in lower case,
    and a row is stored exactly when its level is selected in the
    severity filter: with all six options selected every scraped row is
    stored. *)
Theorem scan_of_palo_alto_keeps_the_scraped_level :
  forall (L : PyLib), Contract.permutes L ->
  forall (astype_str : cell -> string) (b : PaloAlto.browser) (t : table)
         (severity_filter : list string),
    PaloAlto.scrape_palo_alto b = Ok t -> t <> [] ->
    exists df,
      Scan.scan astype_str "Palo Alto Networks" severity_filter t
      = Ok (Some df) /\
      map (col "severity_level") (Queries.rows df)
      = flat_map
          (fun r =>
             match col "Severity Level" r with
             | Str v =>
                 if Str.mem (Str.lower v) (map Str.lower severity_filter)
                 then [Str (Str.lower v)] else []
             | _ => []
             end) t /\
      ((forall l, In l PaloAlto.levels ->
          Str.mem (Str.lower l) (map Str.lower severity_filter) = true) ->
       List.length (Queries.rows df) = List.length t).
Proof.
  intros L Hp astype_str b t severity_filter Ht Hne.
  set (keys := ["Product Name"; "Product Version"; "OEM Name"; "Vulnerability";
                "Description"; "Published Date"; "Last Updated"; "Unique ID";
                "URL"; "Severity Level"; "Affected Versions";
                "Unaffected Versions"]).
  assert (Hshape : Forall (fun r => map fst r = keys /\
                                    exists s, field "Severity Level" r = Some (Str s) /\
                                              In s PaloAlto.levels) t).
  { apply (palo_alto_table_Forall Hp _ b t); [| |exact Ht].
    - intros cols d Hd. split; [exact (palo_alto_row_keys cols d Hd)|].
      destruct (palo_alto_row_fields cols d Hd) as (_ & _ & (score & Hs) & _).
      exists (PaloAlto.severity score). split; [exact Hs|].
      apply palo_alto_severity_level.
    - intros r v (Hk & s & Hs & Hin). split.
      + rewrite map_fst_set_field; [exact Hk|]. rewrite Hk. simpl. auto 10.
      + exists s. split; [|exact Hin].
        rewrite field_set_field_other; [exact Hs | discriminate]. }
  assert (Hlabels : Scan.labels t = keys).
  { apply labels_uniform; [|exact Hne|].
    - repeat constructor; simpl; intuition discriminate.
    - eapply Forall_impl; [|exact Hshape]. cbv beta. now intros r [Hk _]. }
  destruct (prepared_without_date_label astype_str t) as (Hcols & Hlen & Hcolumn).
  { rewrite Hlabels. reflexivity. }
  rewrite Hlabels in Hcols.
  change (map Scan.normalize_label keys)
    with ["product_name"; "product_version"; "oem_name"; "vulnerability";
          "description"; "published_date"; "last_updated"; "unique_id"; "url";
          "severity_level"; "affected_versions"; "unaffected_versions"]
    in Hcols.
  specialize (Hcolumn "severity_level" ltac:(discriminate) ltac:(discriminate)).
  assert (Hsev : Scan.column "severity_level" (Scan.prepared astype_str t)
                 = map (col "Severity Level") t).
  { rewrite Hcolumn. apply map_ext_in. intros r Hr.
    rewrite Forall_forall in Hshape. destruct (Hshape r Hr) as (Hk & _).
    apply (col_relabel Scan.normalize_label "Severity Level").
    rewrite Hk. intros k' Hin. simpl in Hin.
    repeat (destruct Hin as [<- | Hin];
            [first [reflexivity | vm_compute; discriminate]|]).
    destruct Hin. }
  assert (Hstr : Forall (fun r => exists s, col "Severity Level" r = Str s /\
                                            In s PaloAlto.levels) t).
  { eapply Forall_impl; [|exact Hshape]. cbv beta.
    intros r (_ & s & Hs & Hin). exists s. unfold col. now rewrite Hs. }
  rewrite scan_unfold; [|exact Hne | rewrite Hlabels; discriminate].
  unfold Scan.levels. rewrite Hcols.
  cbn [Str.mem existsb String.eqb Ascii.eqb Bool.eqb orb].
  rewrite Hsev.
  assert (Haccessor : Scan.str_accessor (map (col "Severity Level") t) = Ok tt).
  { destruct t as [ | r t]; [congruence|].
    apply Forall_cons_iff in Hstr. destruct Hstr as [(s & Hs & _) _].
    cbn [map Scan.str_accessor forallb]. now rewrite Hs. }
  rewrite Haccessor. cbn [Py.bind]. eexists. split; [reflexivity|].
  cbn [Queries.rows].
  assert (Hlevels :
            map (col "severity_level")
              (Scan.kept (map Str.lower severity_filter)
                 (Queries.rows (Scan.prepared astype_str t))
                 (map (fun c => match c with Str s => Some s | _ => None end)
                    (map (col "Severity Level") t)))
            = flat_map
                (fun r =>
                   match col "Severity Level" r with
                   | Str v =>
                       if Str.mem (Str.lower v) (map Str.lower severity_filter)
                       then [Str (Str.lower v)] else []
                   | _ => []
                   end) t).
  { rewrite kept_levels by (now rewrite Hlen, !length_map).
    clear. induction t as [ | r t IH]; [reflexivity|].
    cbn [map flat_map]. rewrite IH. f_equal.
    now destruct (col "Severity Level" r). }
  split; [exact Hlevels|].
  intros Hall.
  rewrite <- (length_map (col "severity_level")), Hlevels.
  clear - Hstr Hall. induction Hstr as [ | r t (s & Hs & Hin) _ IH];
    [reflexivity|].
  cbn [flat_map]. rewrite length_app, IH, Hs, (Hall s Hin). reflexivity.
Qed.

Lemma scan_of_palo_alto_keeps_the_scraped_level_witness :
  exists t df,
    PaloAlto.scrape_palo_alto (L := Ref.lib) Examples.pa_page = Ok t /\
    Scan.scan (L := Ref.lib) Pages.cell_text "Palo Alto Networks"
      ["N/A"; "Low"; "Medium"; "High"; "Critical"; "Informational"] t
    = Ok (Some df) /\
    map (col "severity_level") (Queries.rows df)
    = [Str "informational"; Str "high"].
Proof.
  destruct (PaloAlto.scrape_palo_alto (L := Ref.lib) Examples.pa_page)
    as [t | e] eqn:E; [|vm_compute in E; discriminate].
  destruct (scan_of_palo_alto_keeps_the_scraped_level Ref.lib ref_permutes
              Pages.cell_text Examples.pa_page t
              ["N/A"; "Low"; "Medium"; "High"; "Critical"; "Informational"] E)
    as (df & Hdf & Hlevels & _).
  - vm_compute in E. injection E as <-. discriminate.
  - exists t, df. split; [reflexivity|]. split; [exact Hdf|].
    rewrite Hlevels. vm_compute in E. injection E as <-. reflexivity.
Defined.

Lemma cisco_table_Forall (Q : record -> Prop) (key : string)
    (net : Nvd.network) (b : Cisco.browser) (t : table) :
  (forall r d, snd (Cisco.row key net r) = Ok (Some d) -> Q d) ->
  snd (Cisco.scrape_cisco key net b) = Ok t -> Forall Q t.
Proof.
  intros HQ. unfold Cisco.scrape_cisco.
  destruct (_ <- Cisco.setup_driver b ;; Cisco.set_user_agent b);
    [|discriminate].
  destruct (_ <- Cisco.get b ;; _ <- Cisco.wait_rows b ;; Cisco.rows b)
    as [[ | r rs] | e].
  - simpl. intros H. injection H as <-. constructor.
  - destruct (Enrich.rows_loop (Cisco.row key net) _ _ _)
      as [calls [u | e]] eqn:E; simpl.
    + intros H. injection H as <-. exact (rows_loop_Forall _ Q _ _ _ HQ E).
    + destruct (is_WebDriverException e); [|discriminate].
      intros H. injection H as <-. constructor.
  - simpl. destruct (is_WebDriverException e); [|discriminate].
    intros H. injection H as <-. constructor.
Qed.

Lemma cisco_row_shape (key : string) (net : Nvd.network) (r : Cisco.tr)
    (d : record) :
  snd (Cisco.row key net r) = Ok (Some d) ->
  map fst d = ["OEM Name"; "Vulnerability"; "Description"; "URL";
               "Last Updated"] /\
  exists impact, col "Description" d = Str impact.
Proof.
  unfold Cisco.row.
  destruct (match Cisco.advisory r with
            | Ok (t, Some h) => (Str.strip t, Str h)
            | Ok (t, None) => (Str.strip t, PyNone)
            | Raise _ => ("N/A", Str "#")
            end) as [title href].
  destruct (Enrich.nvd_for key net _) as [calls [nvd | e]];
    cbn [snd Py.bind]; [|discriminate].
  destruct (Nvd.capitalized_severity nvd "N/A"); cbn [snd Py.bind];
    [|discriminate].
  intros H. injection H as <-. split; [reflexivity|].
  eexists. reflexivity.
Qed.

Lemma dell_row_shape (key : string) (net : Nvd.network)
    (cells : list Dell.cell_div) (d : record) :
  snd (Dell.row key net cells) = Ok (Some d) ->
  map fst d = ["OEM Name"; "Vulnerability"; "Description"; "Published Date";
               "Unique ID"; "URL"; "Last Updated"] /\
  exists severity, col "Description" d = Str severity.
Proof.
  unfold Dell.row.
  destruct cells as [ | c0 [ | c1 [ | c2 [ | c3 [ | c4 [ | c5 rest]]]]]];
    try discriminate.
  destruct (href_or "#" (Dell.link c1)) as [link | e]; [|discriminate].
  destruct (Enrich.nvd_for key net _) as [calls [nvd | e]];
    cbn [snd Py.bind]; [|discriminate].
  destruct (Nvd.capitalized_severity nvd _); cbn [snd Py.bind];
    [|discriminate].
  intros H. injection H as <-. split; [reflexivity|].
  eexists. reflexivity.
Qed.

Lemma str_accessor_text (f : record -> cell) (t : table) :
  Forall (fun r => exists s, f r = Str s) t ->
  Scan.str_accessor (map f t) = Ok tt.
Proof.
  intros [ | r t' (s & Hs) _]; [reflexivity|].
  cbn [map Scan.str_accessor forallb]. now rewrite Hs.
Qed.

(** After a scan of Cisco the stored severity level is the first level
    word of the impact cell, in lower case.  When the impact of some row
    holds a level word, a row whose impact holds none (one whose impact
    cell could not be read shows "N/A") is not stored, whatever the
    severity filter selects. *)
Theorem scan_of_cisco_drops_rows_without_level_word :
  forall (L : PyLib) (astype_str : cell -> string) (key : string)
         (net : Nvd.network) (b : Cisco.browser) (t : table)
         (severity_filter : list string),
    snd (Cisco.scrape_cisco key net b) = Ok t ->
    Exists (fun r => Scan.extract Scan.level (col "Description" r) <> None) t ->
    exists df,
      Scan.scan astype_str "Cisco" severity_filter t = Ok (Some df) /\
      map (col "severity_level") (Queries.rows df)
      = flat_map
          (fun r =>
             match Scan.extract Scan.level (col "Description" r) with
             | Some word =>
                 if Str.mem (Str.lower word) (map Str.lower severity_filter)
                 then [Str (Str.lower word)] else []
             | None => []
             end) t.
Proof.
  intros L astype_str key net b t severity_filter Ht Hword.
  assert (Hne : t <> []) by (intros ->; inversion Hword).
  pose proof (cisco_table_Forall _ key net b t (cisco_row_shape key net) Ht)
    as Hshape.
  set (keys := ["OEM Name"; "Vulnerability"; "Description"; "URL";
                "Last Updated"]) in Hshape.
  assert (Hlabels : Scan.labels t = keys).
  { apply labels_uniform; [|exact Hne|].
    - repeat constructor; simpl; intuition discriminate.
    - eapply Forall_impl; [|exact Hshape]. cbv beta. now intros r [Hk _]. }
  destruct (prepared_without_date_label astype_str t) as (Hcols & Hlen & Hcolumn).
  { rewrite Hlabels. reflexivity. }
  rewrite Hlabels in Hcols.
  change (map Scan.normalize_label keys)
    with ["oem_name"; "vulnerability"; "description"; "url"; "last_updated"]
    in Hcols.
  specialize (Hcolumn "description" ltac:(discriminate) ltac:(discriminate)).
  assert (Hdesc : Scan.column "description" (Scan.prepared astype_str t)
                  = map (col "Description") t).
  { rewrite Hcolumn. apply map_ext_in. intros r Hr.
    rewrite Forall_forall in Hshape. destruct (Hshape r Hr) as (Hk & _).
    apply (col_relabel Scan.normalize_label "Description").
    rewrite Hk. intros k' Hin. simpl in Hin.
    repeat (destruct Hin as [<- | Hin];
            [first [reflexivity | vm_compute; discriminate]|]).
    destruct Hin. }
  rewrite scan_unfold; [|exact Hne | rewrite Hlabels; discriminate].
  unfold Scan.levels, Scan.assigned_levels. rewrite Hcols.
  cbn [String.eqb Ascii.eqb Bool.eqb Str.mem existsb orb andb negb
       Scan.severity_cols Scan.generic_levels].
  rewrite Hcols.
  cbn [String.eqb Ascii.eqb Bool.eqb Str.mem existsb orb andb negb].
  rewrite Hdesc.
  rewrite (str_accessor_text (col "Description") t).
  2:{ eapply Forall_impl; [|exact Hshape]. cbv beta. now intros r [_ H]. }
  cbn [Py.bind].
  assert (Hany : Scan.notna_any
                   (map (Scan.extract Scan.level) (map (col "Description") t))
                 = true).
  { unfold Scan.notna_any. apply existsb_exists.
    apply Exists_exists in Hword. destruct Hword as (r & Hr & Hw).
    exists (Scan.extract Scan.level (col "Description" r)). split.
    - apply in_map, in_map, Hr.
    - destruct (Scan.extract Scan.level (col "Description" r)); congruence. }
  rewrite Hany. cbn [Py.bind]. eexists. split; [reflexivity|].
  cbn [Queries.rows].
  rewrite kept_levels by (now rewrite Hlen, !length_map).
  clear. induction t as [ | r t IH]; [reflexivity|].
  cbn [map flat_map]. now rewrite IH.
Qed.

Lemma scan_of_cisco_drops_rows_without_level_word_witness :
  exists t df,
    snd (Cisco.scrape_cisco "" Examples.unreachable Pages.cisco_mixed) = Ok t /\
    map (col "Description") t = [Str "High"; Str "N/A"] /\
    Scan.scan (L := Ref.lib) Pages.cell_text "Cisco" Scan.severity_options t
    = Ok (Some df) /\
    map (col "severity_level") (Queries.rows df) = [Str "high"].
Proof.
  destruct (snd (Cisco.scrape_cisco "" Examples.unreachable Pages.cisco_mixed))
    as [t | e] eqn:E; [|vm_compute in E; discriminate].
  destruct (scan_of_cisco_drops_rows_without_level_word Ref.lib Pages.cell_text
              "" Examples.unreachable Pages.cisco_mixed t Scan.severity_options E)
    as (df & Hdf & Hlevels).
  - vm_compute in E. injection E as <-. left. vm_compute. discriminate.
  - exists t, df. vm_compute in E. injection E as <-.
    split; [reflexivity|]. split; [reflexivity|]. split; [exact Hdf|].
    rewrite Hlevels. reflexivity.
Defined.

Lemma lower_ascii_idempotent (c : ascii) :
  Str.lower_ascii (Str.lower_ascii c) = Str.lower_ascii c.
Proof.
  destruct c as [[ | ] [ | ] [ | ] [ | ] [ | ] [ | ] [ | ] [ | ]]; reflexivity.
Qed.

Lemma lower_idempotent (s : string) : Str.lower (Str.lower s) = Str.lower s.
Proof.
  induction s as [ | c s IH]; [reflexivity|].
  cbn [Str.lower]. now rewrite lower_ascii_idempotent, IH.
Qed.

(** After a scan of Dell the stored severity level is the first level
    word of the "Description" (the vendor's impact badge, or the severity
    of the NVD) in lower case, and "n/a" when it holds none: no row is
    left without a level, so with all six options selected every scraped
    row is stored. *)
Theorem scan_of_dell_fills_missing_levels :
  forall (L : PyLib) (astype_str : cell -> string) (key : string)
         (net : Nvd.network) (b : Dell.browser) (t : table)
         (severity_filter : list string),
    snd (Dell.scrape_dell key net b) = Ok t -> t <> [] ->
    exists df,
      Scan.scan astype_str "Dell" severity_filter t = Ok (Some df) /\
      map (col "severity_level") (Queries.rows df)
      = flat_map
          (fun r =>
             let level :=
               Str.lower (match Scan.extract Scan.level (col "Description" r) with
                          | Some word => word
                          | None => "N/A"
                          end) in
             if Str.mem level (map Str.lower severity_filter)
             then [Str level] else []) t /\
      ((forall l, In l Scan.severity_options ->
          Str.mem (Str.lower l) (map Str.lower severity_filter) = true) ->
       List.length (Queries.rows df) = List.length t).
Proof.
  intros L astype_str key net b t severity_filter Ht Hne.
  pose proof (dell_table_Forall _ key net b t (dell_row_shape key net) Ht)
    as Hshape.
  set (keys := ["OEM Name"; "Vulnerability"; "Description"; "Published Date";
                "Unique ID"; "URL"; "Last Updated"]) in Hshape.
  assert (Hlabels : Scan.labels t = keys).
  { apply labels_uniform; [|exact Hne|].
    - repeat constructor; simpl; intuition discriminate.
    - eapply Forall_impl; [|exact Hshape]. cbv beta. now intros r [Hk _]. }
  destruct (prepared_without_date_label astype_str t) as (Hcols & Hlen & Hcolumn).
  { rewrite Hlabels. reflexivity. }
  rewrite Hlabels in Hcols.
  change (map Scan.normalize_label keys)
    with ["oem_name"; "vulnerability"; "description"; "published_date";
          "unique_id"; "url"; "last_updated"] in Hcols.
  specialize (Hcolumn "description" ltac:(discriminate) ltac:(discriminate)).
  assert (Hdesc : Scan.column "description" (Scan.prepared astype_str t)
                  = map (col "Description") t).
  { rewrite Hcolumn. apply map_ext_in. intros r Hr.
    rewrite Forall_forall in Hshape. destruct (Hshape r Hr) as (Hk & _).
    apply (col_relabel Scan.normalize_label "Description").
    rewrite Hk. intros k' Hin. simpl in Hin.
    repeat (destruct Hin as [<- | Hin];
            [first [reflexivity | vm_compute; discriminate]|]).
    destruct Hin. }
  rewrite scan_unfold; [|exact Hne | rewrite Hlabels; discriminate].
  unfold Scan.levels, Scan.assigned_levels. rewrite Hcols.
  cbn [String.eqb Ascii.eqb Bool.eqb Str.mem existsb orb andb negb].
  rewrite Hdesc.
  rewrite (str_accessor_text (col "Description") t).
  2:{ eapply Forall_impl; [|exact Hshape]. cbv beta. now intros r [_ H]. }
  cbn [Py.bind]. eexists. split; [reflexivity|]. cbn [Queries.rows].
  assert (Hlevels :
            map (col "severity_level")
              (Scan.kept (map Str.lower severity_filter)
                 (Queries.rows (Scan.prepared astype_str t))
                 (map (fun o => Some (Str.lower (match o with
                                                 | Some s => s
                                                 | None => "N/A"
                                                 end)))
                    (map (Scan.extract Scan.level) (map (col "Description") t))))
            = flat_map
                (fun r =>
                   let level :=
                     Str.lower
                       (match Scan.extract Scan.level (col "Description" r) with
                        | Some word => word
                        | None => "N/A"
                        end) in
                   if Str.mem level (map Str.lower severity_filter)
                   then [Str level] else []) t).
  { rewrite kept_levels by (now rewrite Hlen, !length_map).
    clear. induction t as [ | r t IH]; [reflexivity|].
    cbn [map flat_map]. rewrite IH, lower_idempotent. reflexivity. }
  split; [exact Hlevels|].
  intros Hall.
  match goal with
  | |- List.length ?l = _ =>
      rewrite <- (length_map (col "severity_level") l), Hlevels
  end.
  assert (Hselected : forall r,
            Str.mem (Str.lower
                       (match Scan.extract Scan.level (col "Description" r) with
                        | Some word => word
                        | None => "N/A"
                        end)) (map Str.lower severity_filter) = true).
  { intros r. destruct (col "Description" r) as [s | | | ];
      try (apply (Hall "N/A"); simpl; auto).
    cbn [Scan.extract].
    destruct (Re.search Scan.level s) as [word | ] eqn:E;
      [|apply (Hall "N/A"); simpl; auto].
    destruct (search_inv _ _ _ E) as (pre & suf & -> & Hm).
    unfold Scan.level in Hm. cbn [Re.match_here] in Hm.
    apply first_some_inv in Hm. destruct Hm as (w & Hw & Hm).
    destruct (Re.after_prefix_i w suf) as [rest | ] eqn:Ew; [|discriminate].
    injection Hm as <-.
    assert (Hlower : Str.lower
                       (substring 0 (String.length suf - String.length rest) suf)
                     = Str.lower w).
    { clear - Ew. revert suf Ew.
      induction w as [ | a w IH]; intros suf; cbn [Re.after_prefix_i].
      - intros H. injection H as <-. rewrite Nat.sub_diag.
        now destruct suf.
      - destruct suf as [ | c suf]; [discriminate|].
        destruct (Ascii.eqb _ _) eqn:Ec; [|discriminate].
        intros H. pose proof (after_prefix_i_suffix _ _ _ H) as (p' & Hp').
        assert (Hlen : String.length rest <= String.length suf).
        { rewrite Hp'. clear. induction p'; simpl; lia. }
        cbn [String.length]. rewrite Nat.sub_succ_l by exact Hlen.
        cbn [substring Str.lower]. rewrite (IH _ H).
        apply Ascii.eqb_eq in Ec. now rewrite Ec. }
    rewrite Hlower. simpl in Hw.
    destruct Hw as [<- | [<- | [<- | [<- | [<- | []]]]]];
      [apply (Hall "Critical") | apply (Hall "High") | apply (Hall "Medium")
       | apply (Hall "Low") | apply (Hall "Informational")];
      simpl; auto 10. }
  clear - Hselected. cbv zeta. induction t as [ | r t IH]; [reflexivity|].
  cbn [flat_map]. rewrite (Hselected r). cbn [app List.length].
  now rewrite IH.
Qed.

Lemma scan_of_dell_fills_missing_levels_witness :
  exists t df,
    snd (Dell.scrape_dell "" Examples.unreachable Examples.dell_page) = Ok t /\
    Scan.scan (L := Ref.lib) Pages.cell_text "Dell" Scan.severity_options t
    = Ok (Some df) /\
    map (col "severity_level") (Queries.rows df)
    = [Str "critical"; Str "critical"].
Proof.
  destruct (snd (Dell.scrape_dell "" Examples.unreachable Examples.dell_page))
    as [t | e] eqn:E; [|vm_compute in E; discriminate].
  destruct (scan_of_dell_fills_missing_levels Ref.lib Pages.cell_text ""
              Examples.unreachable Examples.dell_page t Scan.severity_options E)
    as (df & Hdf & Hlevels & _).
  - vm_compute in E. injection E as <-. discriminate.
  - exists t, df. split; [reflexivity|]. split; [exact Hdf|].
    rewrite Hlevels. vm_compute in E. injection E as <-. reflexivity.
Defined.

(** * Cap and order of the returned tables *)

Lemma nvidia_rows_loop_in_order (rows : list Nvidia.tr) (data : table) :
  existsb Nvidia.stale rows = false ->
  (exists e, Nvidia.rows_loop rows data = Raise e) \/
  Nvidia.rows_loop rows data = Ok (data ++ Nvidia.in_page_order rows, true).
Proof.
  revert data. induction rows as [ | r rows IH]; intros data H.
  - right. cbn. now rewrite app_nil_r.
  - cbn [existsb] in H. apply orb_false_iff in H as [Hr Hrows].
    destruct r as [e | | c]; cbn [Nvidia.rows_loop Nvidia.in_page_order flat_map].
    + cbn [Nvidia.stale] in Hr. rewrite Hr. left. eauto.
    + exact (IH data Hrows).
    + destruct (IH (data ++ [Nvidia.record_of c]) Hrows) as [He | ->];
        [now left | right].
      now rewrite <- app_assoc.
Qed.

Lemma nvidia_table_in_order (b : Nvidia.browser) (rows : list Nvidia.tr)
    (t : table) :
  Nvidia.scrape_nvidia b = Ok t ->
  Nvidia.find_rows b 0 = Ok rows ->
  existsb Nvidia.stale rows = false ->
  t = [] \/ t = Nvidia.in_page_order rows.
Proof.
  intros Ht Hrows Hstale. unfold Nvidia.scrape_nvidia in Ht.
  destruct (Nvidia.setup_driver b); [|discriminate]. cbn [Py.bind] in Ht.
  assert (Hhandler : forall e,
            try_except (Raise e) is_WebDriverException
              (fun _ => Ok (@nil record)) = Ok t -> t = []).
  { intros e. cbn [try_except]. destruct (is_WebDriverException e);
      [|discriminate]. intros H. now injection H as <-. }
  destruct (Nvidia.get b) as [ | e]; [|left; exact (Hhandler e Ht)].
  destruct (Nvidia.wait_body b) as [ | e]; [|left; exact (Hhandler e Ht)].
  destruct (Nvidia.wait_table b) as [ | e]; [|left; exact (Hhandler e Ht)].
  cbn [Py.bind Nvidia.attempts] in Ht. rewrite Hrows in Ht.
  destruct (nvidia_rows_loop_in_order rows [] Hstale) as [(e & He) | Hloop].
  - rewrite He in Ht. left. exact (Hhandler e Ht).
  - rewrite Hloop in Ht. cbn in Ht. right. now injection Ht as <-.
Qed.

Lemma adobe_section_rows_records (name : string) (rs : list Adobe.tr)
    (data : table) :
  Adobe.section_rows name rs data = data ++ Adobe.records name (Ok rs).
Proof.
  unfold Adobe.records. revert data.
  induction rs as [ | r rs IH]; intros data; cbn [Adobe.section_rows].
  - cbn. now rewrite app_nil_r.
  - destruct r as [cols | e]; cbn [Adobe.readable flat_map].
    + destruct (Adobe.record_of name cols) as [d | ].
      * rewrite IH, <- app_assoc. reflexivity.
      * apply IH.
    + now rewrite app_nil_r.
Qed.

Lemma adobe_headers_loop_named (hs : list Adobe.header) (data : table) :
  Adobe.headers_loop hs data
  = data ++ flat_map (fun s => Adobe.records (fst s) (snd s)) (Adobe.named hs).
Proof.
  revert data. induction hs as [ | h hs IH]; intros data;
    cbn [Adobe.headers_loop Adobe.named].
  - cbn. now rewrite app_nil_r.
  - destruct (Adobe.text h) as [name | e]; cbn [flat_map fst snd].
    + rewrite IH. destruct (Adobe.rows h) as [rs | e].
      * rewrite adobe_section_rows_records, <- app_assoc. reflexivity.
      * reflexivity.
    + now rewrite app_nil_r.
Qed.

Lemma adobe_table_in_order (b : Adobe.browser) (t : table) :
  Adobe.scrape_adobe b = Ok t -> t = [] \/ t = Adobe.in_page_order b.
Proof.
  unfold Adobe.scrape_adobe, Adobe.in_page_order.
  destruct (Adobe.chrome b); [|discriminate]. cbn [Py.bind].
  destruct (_ <- Adobe.get b ;; _ <- Adobe.wait b ;; Adobe.save_page b).
  2:{ intros H. injection H as <-. now left. }
  intros H. injection H as <-. right.
  assert (E : match Adobe.acrobat b with
              | Ok rs => Adobe.section_rows "Adobe Acrobat" rs []
              | Raise _ => []
              end = Adobe.records "Adobe Acrobat" (Adobe.acrobat b)).
  { destruct (Adobe.acrobat b) as [rs | e]; [|reflexivity].
    apply (adobe_section_rows_records "Adobe Acrobat" rs []). }
  rewrite E. destruct (Adobe.h4_headers b) as [hs | e].
  - apply adobe_headers_loop_named.
  - cbn. now rewrite app_nil_r.
Qed.

Lemma cisco_table_in_order (key : string) (net : Nvd.network)
    (b : Cisco.browser) (calls : list string) (t : table) :
  Cisco.scrape_cisco key net b = (calls, Ok t) ->
  t = [] \/
  Forall2 (fun r d => snd (Cisco.row key net r) = Ok (Some d))
    (Cisco.found_rows b) t.
Proof.
  unfold Cisco.scrape_cisco, Cisco.found_rows.
  destruct (_ <- Cisco.setup_driver b ;; Cisco.set_user_agent b);
    [|discriminate].
  assert (Hhandler : forall e,
            ([], if is_WebDriverException e then Ok (@nil record) else Raise e)
            = (calls, Ok t) -> t = []).
  { intros e. destruct (is_WebDriverException e); [|discriminate].
    intros H. now injection H as _ <-. }
  destruct (Cisco.get b) as [ | e]; [|intros H; left; exact (Hhandler e H)].
  destruct (Cisco.wait_rows b) as [ | e];
    [|intros H; left; exact (Hhandler e H)].
  cbn [Py.bind].
  destruct (Cisco.rows b) as [[ | r0 rs0] | e];
    [intros H; injection H as _ <-; now left | |
     intros H; left; exact (Hhandler e H)].
  remember (r0 :: rs0) as rs eqn:Ers. clear Ers.
  destruct (Enrich.rows_loop (Cisco.row key net) rs [] [])
    as [calls' [u | e]] eqn:E; cbn [try_except].
  - intros H. injection H as _ <-. right.
    destruct (rows_loop_Ok _ _ _ _ _ _ E) as (kept & -> & Hall & Hkept).
    cbn [app].
    assert (Hfilter : filter (fun r => match snd (Cisco.row key net r) with
                                       | Ok (Some _) => true
                                       | _ => false
                                       end) rs = rs).
    { clear Hkept E. induction Hall as [ | r l (o & Ho) _ IH]; [reflexivity|].
      cbn [filter]. destruct (cisco_row_record key net r o Ho) as (d & -> & _).
      rewrite Ho, IH. reflexivity. }
    now rewrite Hfilter in Hkept.
  - destruct (rows_loop_Raise _ _ _ _ _ _ E) as (r' & _ & Hr').
    rewrite (cisco_row_raise _ _ _ _ Hr'). discriminate.
Qed.

(** C8, as the code has it.  The table that the Intel or the Dell scraper
    returns has at most 100 rows; it is empty, or it holds, in document
    order, the dicts of those of the first 100 rows of the page that have
    the expected number of cells.  The other tables are not capped, and
    three of them keep the order of the page: the Cisco table is empty
    or holds one dict for each row of the page, top to bottom; the
    NVIDIA table, when no row of the first attempt goes stale, is empty
    or holds the dicts of the rows with six cells, top to bottom; the
    Adobe table is empty or holds the dicts of the Acrobat table and
    then of each section in page order (up to the first heading that
    cannot be read), each table read top to bottom up to the first row
    that cannot be read. *)
Theorem returned_tables_cap_and_order :
  forall (key : string) (net : Nvd.network)
         (it : Intel.browser) (de : Dell.browser) (ci : Cisco.browser)
         (nv : Nvidia.browser) (ad : Adobe.browser),
    (forall calls t, Intel.scrape_intel key net it = (calls, Ok t) ->
       List.length t <= 100 /\
       (t = [] \/
        Forall2 (fun cols d => snd (Intel.row key net cols) = Ok (Some d))
          (filter (fun cols => 4 <=? List.length cols)
             (firstn 100 (Intel.rows it))) t)) /\
    (forall calls t, Dell.scrape_dell key net de = (calls, Ok t) ->
       List.length t <= 100 /\
       (t = [] \/
        Forall2 (fun cells d => snd (Dell.row key net cells) = Ok (Some d))
          (filter (fun cells => 6 <=? List.length cells)
             (firstn 100 (Dell.rows de))) t)) /\
    (forall calls t, Cisco.scrape_cisco key net ci = (calls, Ok t) ->
       t = [] \/
       Forall2 (fun r d => snd (Cisco.row key net r) = Ok (Some d))
         (Cisco.found_rows ci) t) /\
    (forall rows t,
       Nvidia.scrape_nvidia nv = Ok t ->
       Nvidia.find_rows nv 0 = Ok rows ->
       existsb Nvidia.stale rows = false ->
       t = [] \/ t = Nvidia.in_page_order rows) /\
    (forall t, Adobe.scrape_adobe ad = Ok t ->
       t = [] \/ t = Adobe.in_page_order ad).
Proof.
  assert (Hempty : forall (P : Prop), List.length (@nil record) <= 100 /\
                                      (@nil record = [] \/ P))
    by (intros P; split; [simpl; lia | now left]).
  intros key net it de ci nv ad.
  split; [|split; [|split; [|split]]].
  - intros calls t. unfold Intel.scrape_intel.
    destruct (_ <- Intel.setup_driver it ;; Intel.set_user_agent it);
      [|discriminate].
    destruct (_ <- Intel.get it ;; _ <- Intel.wait_body it ;; _ <- _ ;; _)
      as [ | e].
    2:{ destruct (is_WebDriverException e); [|discriminate].
        intros H. injection H as _ <-. apply Hempty. }
    destruct (Intel.rows it) eqn:Erows.
    { intros H. injection H as _ <-. apply Hempty. }
    rewrite <- Erows.
    destruct (Enrich.rows_loop _ _ _ _) as [calls' [t' | e]] eqn:E.
    + simpl. intros H. injection H as _ <-.
      destruct (capped_loop_table _ (fun cols => 4 <=? List.length cols)
                  _ _ _ (intel_row_kept key net) E) as (Hlen & Horder).
      split; [exact Hlen | now right].
    + simpl. destruct (is_WebDriverException e); [|discriminate].
      intros H. injection H as _ <-. apply Hempty.
  - intros calls t. unfold Dell.scrape_dell.
    destruct (Dell.chrome de); [|discriminate].
    destruct (_ <- Dell.get de ;; Dell.select_100 de).
    2:{ intros H. injection H as _ <-. apply Hempty. }
    destruct (Dell.rows de) eqn:Erows.
    { intros H. injection H as _ <-. apply Hempty. }
    rewrite <- Erows.
    destruct (Enrich.rows_loop _ _ _ _) as [calls' [t' | e]] eqn:E.
    + simpl. intros H. injection H as _ <-.
      destruct (capped_loop_table _ (fun cells => 6 <=? List.length cells)
                  _ _ _ (dell_row_kept key net) E) as (Hlen & Horder).
      split; [exact Hlen | now right].
    + simpl. intros H. injection H as _ <-. apply Hempty.
  - intros calls t. apply cisco_table_in_order.
  - intros rows t. apply nvidia_table_in_order.
  - intros t. apply adobe_table_in_order.
Qed.

(** The theorem on listings that are longer than the cap.  Of the 103
    rows of the Intel listing the table holds the first hundred but the
    seventh, which has two cells; of the 102 rows of the Dell listing it
    holds the first hundred; the Cisco, the NVIDIA and the Adobe table
    hold all the rows of their page, in its order. *)
Lemma returned_tables_cap_and_order_witness :
  (exists t,
     snd (Intel.scrape_intel "" Examples.unreachable Pages.intel_long) = Ok t /\
     List.length (Intel.rows Pages.intel_long) = 103 /\
     List.length t = 99 /\
     Forall2 (fun cols d =>
                snd (Intel.row "" Examples.unreachable cols) = Ok (Some d))
       (filter (fun cols => 4 <=? List.length cols)
          (firstn 100 (Intel.rows Pages.intel_long))) t /\
     map (col "Vulnerability") t
     = map (fun n => Str (Pages.numbered "Advisory " n))
         (filter (fun n => negb (n =? 7)) (seq 1 100))) /\
  (exists t,
     snd (Dell.scrape_dell "" Examples.unreachable Pages.dell_long) = Ok t /\
     List.length (Dell.rows Pages.dell_long) = 102 /\
     List.length t = 100 /\
     Forall2 (fun cells d =>
                snd (Dell.row "" Examples.unreachable cells) = Ok (Some d))
       (filter (fun cells => 6 <=? List.length cells)
          (firstn 100 (Dell.rows Pages.dell_long))) t /\
     map (col "Vulnerability") t
     = map (fun n => Str (Pages.numbered "DSA-2025-" n)) (seq 1 100)) /\
  (exists t,
     snd (Cisco.scrape_cisco "" Examples.unreachable Pages.cisco_long) = Ok t /\
     Forall2 (fun r d =>
                snd (Cisco.row "" Examples.unreachable r) = Ok (Some d))
       (Cisco.found_rows Pages.cisco_long) t /\
     map (col "Vulnerability") t
     = map (fun n => Str (Pages.numbered "Cisco Advisory " n)) (seq 1 101)) /\
  (exists rows t,
     Nvidia.find_rows Pages.nvidia_long 0 = Ok rows /\
     Nvidia.scrape_nvidia Pages.nvidia_long = Ok t /\
     t = Nvidia.in_page_order rows /\
     map (col "Title") t
     = map (fun n => Str (Pages.numbered "Bulletin " n))
         (filter (fun n => negb (n =? 4)) (seq 1 102))) /\
  (exists t,
     Adobe.scrape_adobe Pages.adobe_long = Ok t /\
     t = Adobe.in_page_order Pages.adobe_long /\
     map (col "Title") t
     = map (fun n => Str (Pages.numbered "APSB25-" n)) (seq 1 101)
       ++ [Str "APSB25-908"]).
Proof.
  destruct (returned_tables_cap_and_order "" Examples.unreachable
              Pages.intel_long Pages.dell_long Pages.cisco_long
              Pages.nvidia_long Pages.adobe_long)
    as (Hit & Hde & Hci & Hnv & Had).
  split; [|split; [|split; [|split]]].
  - destruct (Intel.scrape_intel "" Examples.unreachable Pages.intel_long)
      as [calls [t | e]] eqn:E; [|vm_compute in E; discriminate].
    exists t. split; [reflexivity|]. split; [reflexivity|].
    destruct (Hit calls t eq_refl) as (_ & [Hnil | Horder]).
    + subst t. vm_compute in E. discriminate.
    + vm_compute in E. injection E as _ <-.
      split; [reflexivity|]. split; [exact Horder|]. reflexivity.
  - destruct (Dell.scrape_dell "" Examples.unreachable Pages.dell_long)
      as [calls [t | e]] eqn:E; [|vm_compute in E; discriminate].
    exists t. split; [reflexivity|]. split; [reflexivity|].
    destruct (Hde calls t eq_refl) as (_ & [Hnil | Horder]).
    + subst t. vm_compute in E. discriminate.
    + vm_compute in E. injection E as _ <-.
      split; [reflexivity|]. split; [exact Horder|]. reflexivity.
  - destruct (Cisco.scrape_cisco "" Examples.unreachable Pages.cisco_long)
      as [calls [t | e]] eqn:E; [|vm_compute in E; discriminate].
    exists t. split; [reflexivity|].
    destruct (Hci calls t eq_refl) as [Hnil | Horder].
    + subst t. vm_compute in E. discriminate.
    + vm_compute in E. injection E as _ <-.
      split; [exact Horder|]. reflexivity.
  - destruct (Nvidia.find_rows Pages.nvidia_long 0) as [rows | e] eqn:Erows;
      [|discriminate].
    destruct (Nvidia.scrape_nvidia Pages.nvidia_long) as [t | e] eqn:E;
      [|vm_compute in E; discriminate].
    exists rows, t. split; [reflexivity|]. split; [reflexivity|].
    destruct (Hnv rows t eq_refl eq_refl) as [Hnil | Horder].
    + injection Erows as <-. reflexivity.
    + subst t. vm_compute in E. discriminate.
    + split; [exact Horder|].
      vm_compute in E. injection E as <-. reflexivity.
  - destruct (Adobe.scrape_adobe Pages.adobe_long) as [t | e] eqn:E;
      [|vm_compute in E; discriminate].
    exists t. split; [reflexivity|].
    destruct (Had t eq_refl) as [Hnil | Horder].
    + subst t. vm_compute in E. discriminate.
    + split; [exact Horder|].
      vm_compute in E. injection E as <-. reflexivity.
Defined.

(** C8 as stated fails.  Four scrapers have no cap: the Cisco, the
    NVIDIA, the Adobe and the Palo Alto scraper each return more than a
    hundred rows from a page that shows as many.  Two tables leave the
    order of the page: the Palo Alto scraper returns two advisories with
    the newer one first, though the page shows it second; and when the
    second row of an NVIDIA table goes stale, the table starts with the
    first row twice. *)
Lemma scrapers_without_cap_or_order :
  (exists t,
     snd (Cisco.scrape_cisco "" Examples.unreachable Examples.cisco_page)
     = Ok t /\ List.length t = 101) /\
  (exists t,
     Nvidia.scrape_nvidia Pages.nvidia_long = Ok t /\ List.length t = 101) /\
  (exists t,
     Adobe.scrape_adobe Pages.adobe_long = Ok t /\ List.length t = 102) /\
  (exists t,
     PaloAlto.scrape_palo_alto (L := Ref.lib) Pages.pa_long = Ok t /\
     List.length t = 101) /\
  (exists tbody t,
     PaloAlto.soup Examples.pa_two_rows = Some [tbody] /\
     map (fun cols => td_text (nth 1 cols (Examples.cell_of ""))) tbody
     = ["CVE-2025-0128"; "PAN-SA-2025-0008"] /\
     PaloAlto.scrape_palo_alto (L := Ref.lib) Examples.pa_two_rows = Ok t /\
     map (col "Unique ID") t = [Str "PAN-SA-2025-0008"; Str "CVE-2025-0128"]) /\
  (Nvidia.find_rows Pages.nvidia_stale 1
   = Ok [Nvidia.Cells Pages.tensorrt; Nvidia.Cells Pages.nemo] /\
   Nvidia.scrape_nvidia Pages.nvidia_stale
   = Ok [ Nvidia.record_of Pages.tensorrt;
          Nvidia.record_of Pages.tensorrt;
          Nvidia.record_of Pages.nemo ]).
Proof.
  split; [eexists; split; [vm_compute; reflexivity | reflexivity]|].
  split; [eexists; split; [vm_compute; reflexivity | reflexivity]|].
  split; [eexists; split; [vm_compute; reflexivity | reflexivity]|].
  split; [eexists; split; [vm_compute; reflexivity | reflexivity]|].
  split.
  - eexists. eexists. split; [reflexivity|]. split; [reflexivity|].
    split; [vm_compute; reflexivity | reflexivity].
  - split; reflexivity.
Qed.
